(** * GitHubFolio: the data-aggregation layer, embedded and verified

    A shallow embedding of the aggregation code of the portfolio
    application (credential resolution, profile page, project detail
    page, similar-profile discovery, activity graph, pinned repositories)
    followed by the properties established about it.

    Conventions of the embedding:
    - a JavaScript [number] that holds an integer read from JSON is a [Z];
      where the source divides, the value is an IEEE-754 binary64 number,
      modelled with [spec_float] (53 bits of precision, emax = 1024);
    - [string | null | undefined] is [option string]; the JavaScript
      notion of truthiness is written out ([truthy]);
    - a [Set], a [Map] and a plain object used as a dictionary keep
      insertion order, so they are lists (association lists);
    - [fetch] is an oracle (a record of upstream answers), every request
      is appended to a trace, and exceptions are explicit outcomes. *)

From Stdlib Require Import ZArith NArith List String Ascii Bool Lia.
From Stdlib Require Import SpecFloat DecimalString Sorted Permutation.
Import ListNotations.
Open Scope string_scope.
Open Scope Z_scope.

(* ================================================================== *)
(** * Part I: the embedding *)
(* ================================================================== *)

(** ** JavaScript values and built-ins used by the source *)

Module JS.

(** [if (s)] for [s : string | null | undefined]. *)
Definition truthy (s : option string) : bool :=
  match s with
  | Some s => negb (String.eqb s "")
  | None => false
  end.

(** [a || b] on [string | null | undefined]. *)
Definition or_else (a b : option string) : option string :=
  if truthy a then a else b.

(** [String(n)] for an integer-valued number. *)
Definition String_of_Z (z : Z) : string :=
  NilZero.string_of_int (Z.to_int z).

(** [`${s}`] for a value that may be [undefined]. *)
Definition template_undefined (s : option string) : string :=
  match s with
  | Some s => s
  | None => "undefined"
  end.

(** [s.padStart(2, '0')]. *)
Definition padStart2 (s : string) : string :=
  match String.length s with
  | O => "00"
  | S O => "0" ++ s
  | _ => s
  end.

(** [s.slice(n)] for [0 <= n]. *)
Definition slice_from (n : nat) (s : string) : string :=
  substring n (String.length s - n) s.

(** [s.split(c)] for a one-character separator. *)
Fixpoint split_on (c : ascii) (s : string) : list string :=
  match s with
  | EmptyString => [""]
  | String a rest =>
      if Ascii.eqb a c then "" :: split_on c rest
      else match split_on c rest with
           | [] => [String a ""]
           | hd :: tl => String a hd :: tl
           end
  end.

(** [Array.prototype.sort(compare)]: the sort is stable, so its result is
    fixed by which pairs the comparator orders strictly.  [gt a b] holds
    when [compare(a, b) > 0].  [x] comes earlier in the input than every
    element of the list it is inserted into. *)
Section Sort.
Context {A : Type} (gt : A -> A -> bool).

Fixpoint sort_insert (x : A) (l : list A) : list A :=
  match l with
  | [] => [x]
  | y :: l' => if gt x y then y :: sort_insert x l' else x :: l
  end.

Fixpoint sort (l : list A) : list A :=
  match l with
  | [] => []
  | x :: l' => sort_insert x (sort l')
  end.
End Sort.

(** [a.slice(-n)]: the last [n] elements. *)
Definition slice_last {A : Type} (n : nat) (l : list A) : list A :=
  skipn (List.length l - n) l.

(** [a.find(p)]. *)
Definition find {A : Type} (p : A -> bool) (l : list A) : option A :=
  List.find p l.

(** A [Set<string>]: [add] keeps the first insertion. *)
Definition set_add (s : list string) (x : string) : list string :=
  if existsb (String.eqb x) s then s else List.app s [x].

End JS.

(** The entries of a list that are the first with their key, in order:
    what remains when every later entry with a key seen before is dropped. *)
Fixpoint first_by {A : Type} (key : A -> string) (l : list A) : list A :=
  match l with
  | [] => []
  | x :: rest =>
      x :: filter (fun y => negb (String.eqb (key x) (key y))) (first_by key rest)
  end.

(** ** IEEE-754 binary64 numbers *)

Module Num.

Definition prec : Z := 53.
Definition emax : Z := 1024.

Definition of_Z (z : Z) : spec_float := binary_normalize prec emax z 0 false.
Definition of_N (n : N) : spec_float := of_Z (Z.of_N n).

Definition add : spec_float -> spec_float -> spec_float := SFadd prec emax.
Definition sub : spec_float -> spec_float -> spec_float := SFsub prec emax.
Definition mul : spec_float -> spec_float -> spec_float := SFmul prec emax.
Definition div : spec_float -> spec_float -> spec_float := SFdiv prec emax.

(** [x > 0]. *)
Definition positive (x : spec_float) : bool := SFltb (S754_zero false) x.

(** [Math.round]: the nearest integer, ties towards plus infinity; NaN,
    infinities and zeros are returned unchanged, and a value that rounds
    to zero keeps its sign. *)
Definition Math_round (x : spec_float) : spec_float :=
  match x with
  | S754_finite s m e =>
      if 0 <=? e then x
      else
        let d := Z.pow 2 (- e) in
        let n := (2 * cond_Zopp s (Zpos m) + d) / (2 * d) in
        if n =? 0 then S754_zero s else of_Z n
  | _ => x
  end.

End Num.

(** ** Credential resolution (lib/githubService.ts, lib/githubToken.ts) *)

(** The ambient configuration read by the source: [process.env] and the
    browser's [localStorage] entry ['github_token']. *)
Record ProcessEnv := {
  GITHUB_ACCESS_TOKEN : option string;
  NEXT_PUBLIC_GITHUB_ACCESS_TOKEN : option string
}.

Definition Headers := list (string * string).

Module githubService.

Definition getGitHubToken (env : ProcessEnv) (clientToken : option string)
  : option string :=
  let serverToken := GITHUB_ACCESS_TOKEN env in
  if JS.truthy serverToken then serverToken
  else JS.or_else clientToken None.

Definition createGitHubHeaders (env : ProcessEnv) (clientToken : option string)
  : Headers :=
  let headers :=
    [("Accept", "application/vnd.github.v3+json"); ("User-Agent", "GitHubFolio")] in
  let token := getGitHubToken env clientToken in
  match token with
  | Some t => if JS.truthy token then List.app headers [("Authorization", "token " ++ t)]
              else headers
  | None => headers
  end.

End githubService.

Module githubToken.

(** [window] is [None] on the server and holds the stored token (the
    result of [localStorage.getItem('github_token')]) in the browser. *)
Definition getGitHubToken (env : ProcessEnv) (window : option (option string))
  : option string :=
  match window with
  | None => JS.or_else (GITHUB_ACCESS_TOKEN env) None
  | Some localStorage_github_token =>
      if JS.truthy (NEXT_PUBLIC_GITHUB_ACCESS_TOKEN env)
      then NEXT_PUBLIC_GITHUB_ACCESS_TOKEN env
      else localStorage_github_token
  end.

Definition createGitHubHeaders (env : ProcessEnv) (window : option (option string))
  : Headers :=
  let headers :=
    [("Accept", "application/vnd.github.v3+json"); ("User-Agent", "GitHubFolio")] in
  let token := getGitHubToken env window in
  match token with
  | Some t => if JS.truthy token then List.app headers [("Authorization", "token " ++ t)]
              else headers
  | None => headers
  end.

End githubToken.

(** ** The host: clock and calendar *)

(** The [Date] built-ins the source calls.  The clock is read once per
    [new Date()]; [Date_now_toISOString n] is the n-th reading of a run.
    Timestamps are those of the GitHub API, which always parse; a string
    that does not ([Invalid Date], [NaN]) is outside the model. *)
Class Host := {
  (** [new Date().toISOString()] *)
  Date_now_toISOString : nat -> string;
  (** [new Date(s).getTime()] *)
  Date_getTime : string -> Z;
  (** [new Date(s).getFullYear()] *)
  Date_getFullYear : string -> Z;
  (** [new Date(s).getMonth()] *)
  Date_getMonth : string -> Z;
  (** [d = new Date(); d.setDate(d.getDate() - days)], then
      [(d.getMonth(), d.getDate())] *)
  Date_now_minus_days : nat -> Z -> Z * Z
}.

(** A host whose local zone is UTC, reading timestamps of the form
    [YYYY-MM-DDTHH:MM:SSZ] as the GitHub API writes them, with a clock
    that starts on 2024-06-01 at noon. *)
Module UTC.

Definition digit (a : ascii) : Z := Z.of_N (N_of_ascii a) - 48.

Fixpoint number_from (acc : Z) (s : string) : Z :=
  match s with
  | EmptyString => acc
  | String a rest => number_from (10 * acc + digit a) rest
  end.

Definition field (start len : nat) (s : string) : Z :=
  number_from 0 (substring start len s).

Definition days_from_civil (y m d : Z) : Z :=
  let y' := if m <=? 2 then y - 1 else y in
  let era := y' / 400 in
  let yoe := y' - era * 400 in
  let doy := (153 * (m + (if 2 <? m then -3 else 9)) + 2) / 5 + d - 1 in
  let doe := yoe * 365 + yoe / 4 - yoe / 100 + doy in
  era * 146097 + doe - 719468.

Definition getTime (s : string) : Z :=
  let days := days_from_civil (field 0 4 s) (field 5 2 s) (field 8 2 s) in
  (((days * 24 + field 11 2 s) * 60 + field 14 2 s) * 60 + field 17 2 s) * 1000.

Definition now_toISOString (n : nat) : string :=
  "2024-06-01T12:00:00.00" ++ JS.String_of_Z (Z.of_nat n mod 10) ++ "Z".

(** The civil date (year, month, day) of a day number. *)
Definition civil_from_days (days : Z) : Z * Z * Z :=
  let z := days + 719468 in
  let era := z / 146097 in
  let doe := z - era * 146097 in
  let yoe := (doe - doe / 1460 + doe / 36524 - doe / 146096) / 365 in
  let doy := doe - (365 * yoe + yoe / 4 - yoe / 100) in
  let mp := (5 * doy + 2) / 153 in
  let d := doy - (153 * mp + 2) / 5 + 1 in
  let m := if mp <? 10 then mp + 3 else mp - 9 in
  (yoe + era * 400 + (if m <=? 2 then 1 else 0), m, d).

(** The month index and the day of the month, [days] days before the
    first of June 2024. *)
Definition now_minus_days (n : nat) (days : Z) : Z * Z :=
  let '(_, m, d) := civil_from_days (days_from_civil 2024 6 1 - days) in
  (m - 1, d).

Definition host : Host := {|
  Date_now_toISOString := now_toISOString;
  Date_getTime := getTime;
  Date_getFullYear := field 0 4;
  Date_getMonth := fun s => field 5 2 s - 1;
  Date_now_minus_days := now_minus_days
|}.

End UTC.

(** ** Requests, answers and the effects of an aggregation run *)

Module Fetch.

(** A request as it leaves the browser. *)
Inductive Request :=
| GET (url : string) (headers : Headers)
  (** [POST https://api.github.com/graphql] with the pinned-items query
      for [login] *)
| GraphQL_pinnedItems (authorization : string) (login : string).

(** What the network gives back: [fetch] rejects, or a response with its
    status and its body as [response.json()] decodes it ([None]: the
    body does not decode, [json()] rejects). *)
Inductive Response (A : Type) :=
| NetworkError
| Http (status : Z) (body : option A).
Arguments NetworkError {A}.
Arguments Http {A} status body.

(** [response.ok] *)
Definition ok (status : Z) : bool := (200 <=? status) && (status <=? 299).

(** A thrown [Error] (or a subclass) with its message; the messages of
    the errors the engine raises are V8's.  Everything thrown in these
    runs is an instance of [Error]. *)
Inductive Exn := Error (message : string).

Definition message (e : Exn) : string := let 'Error m := e in m.

(** What a rejected [fetch] and a body that does not parse throw.  The
    wording is the engine's and, for a body, depends on the body: the
    texts here are V8's for an unreachable host and for an empty body.
    The properties below rely on something being thrown and caught,
    never on this wording. *)
Definition failed_to_fetch : Exn := Error "Failed to fetch".
Definition not_json : Exn := Error "Unexpected end of JSON input".
Definition TypeError (what : string) : Exn := Error what.

Inductive Outcome (A : Type) :=
| Return (a : A)
| Throw (e : Exn).
Arguments Return {A} a.
Arguments Throw {A} e.

(** The component state of type [S], the requests issued so far (oldest
    first) and the number of clock readings taken. *)
Record Run (S : Type) := {
  state : S;
  trace : list Request;
  ticks : nat
}.
Arguments state {S} r.
Arguments trace {S} r.
Arguments ticks {S} r.

Definition M (S A : Type) : Type := Run S -> Outcome A * Run S.

Section Ops.
Context {S : Type}.

Definition ret {A} (a : A) : M S A := fun r => (Return a, r).

Definition bind {A B} (m : M S A) (k : A -> M S B) : M S B :=
  fun r =>
    match m r with
    | (Return a, r') => k a r'
    | (Throw e, r') => (Throw e, r')
    end.

Definition throw {A} (e : Exn) : M S A := fun r => (Throw e, r).

(** [try { m } catch (e) { handler e }] *)
Definition try_catch {A} (m : M S A) (handler : Exn -> M S A) : M S A :=
  fun r =>
    match m r with
    | (Return a, r') => (Return a, r')
    | (Throw e, r') => handler e r'
    end.

(** [try { m } finally { f }], for an [f] that does not throw *)
Definition finally {A} (m : M S A) (f : M S unit) : M S A :=
  fun r =>
    match m r with
    | (o, r') => (o, snd (f r'))
    end.

(** A React state setter *)
Definition set (f : S -> S) : M S unit :=
  fun r => (Return tt, {| state := f (state r); trace := trace r; ticks := ticks r |}).

(** [await fetch(...)]: the request is recorded, then the answer read. *)
Definition fetch {A} (answer : Request -> Response A) (req : Request)
  : M S (Z * option A) :=
  fun r =>
    let r' := {| state := state r; trace := List.app (trace r) [req];
                 ticks := ticks r |} in
    match answer req with
    | NetworkError => (Throw failed_to_fetch, r')
    | Http status body => (Return (status, body), r')
    end.

(** [await response.json()] *)
Definition json {A} (body : option A) : M S A :=
  match body with
  | Some a => ret a
  | None => throw not_json
  end.

(** [new Date().toISOString()] *)
Definition now `{Host} : M S string :=
  fun r => (Return (Date_now_toISOString (ticks r)),
            {| state := state r; trace := trace r; ticks := Datatypes.S (ticks r) |}).

(** [items.map(f)] for a callback with effects *)
Fixpoint mapM {A B} (f : A -> M S B) (l : list A) : M S (list B) :=
  match l with
  | [] => ret []
  | x :: l' =>
      bind (f x) (fun y => bind (mapM f l') (fun ys => ret (y :: ys)))
  end.

(** A [for ... of] loop that updates a local variable *)
Fixpoint foldM {A B} (f : B -> A -> M S B) (l : list A) (b : B) : M S B :=
  match l with
  | [] => ret b
  | x :: l' => bind (f b x) (fun b' => foldM f l' b')
  end.

(** [d = new Date(); d.setDate(d.getDate() - days)], read back as
    [(d.getMonth(), d.getDate())] *)
Definition today_minus `{Host} (days : Z) : M S (Z * Z) :=
  fun r => (Return (Date_now_minus_days (ticks r) days),
            {| state := state r; trace := trace r; ticks := Datatypes.S (ticks r) |}).

End Ops.

Definition start {S} (s : S) : Run S := {| state := s; trace := []; ticks := 0 |}.

End Fetch.

Declare Scope fetch_scope.
Delimit Scope fetch_scope with fetch.
Notation "x <- m ;; k" := (Fetch.bind m (fun x => k))
  (at level 61, m at next level, right associativity) : fetch_scope.
Notation "' pat <- m ;; k" := (Fetch.bind m (fun x => match x with pat => k end))
  (at level 61, pat pattern, m at next level, right associativity) : fetch_scope.
Notation "m ;; k" := (Fetch.bind m (fun _ => k))
  (at level 61, right associativity) : fetch_scope.

(** ** Shared data types (types.ts) *)

Record Owner := {
  owner_login : string;
  owner_id : Z;
  owner_avatar_url : string;
  owner_html_url : string
}.

(** [id] is a number in the REST shape; the profile page puts the name
    there for a pinned item. *)
Inductive RepoId :=
| IdNumber (n : Z)
| IdName (s : string).

Record Repository := {
  id : RepoId;
  name : string;
  full_name : string;
  html_url : string;
  description : option string;
  fork : bool;
  created_at : string;
  updated_at : string;
  pushed_at : string;
  homepage : option string;
  size : Z;
  stargazers_count : Z;
  watchers_count : Z;
  language : option string;
  forks_count : Z;
  open_issues_count : Z;
  topics : list string;
  visibility : string;
  default_branch : string;
  owner : Owner
}.

Record GitHubUser := {
  login : string;
  user_name : option string;
  followers : Z
}.

(** ** Profile page (app/[username]/page.tsx) *)

Module ProfilePage.
Import Fetch.
Local Open Scope fetch_scope.

(** A node of [pinnedItems] as the GraphQL query selects it. *)
Record PinnedItem := {
  pin_name : string;
  pin_description : option string;
  pin_url : string;
  pin_stargazerCount : Z;
  pin_forkCount : Z;
  pin_primaryLanguage : option string;
  pin_repositoryTopics : list string;
  pin_owner_login : string;
  pin_owner_avatarUrl : string
}.

(** The decoded body of the repositories request: the array of
    repositories, or a JSON value that is neither an array nor [null],
    such as the error object of a refused request; the source does not
    look at the status of that response.  (On [null] a method call
    throws as well, with another wording.) *)
Inductive ReposData :=
| ReposArray (l : list Repository)
| NotAnArray.

(** The upstream answers.  [graphql] answers with the list at
    [data.user.pinnedItems.nodes], [None] when that path is missing. *)
Record World := {
  users : Request -> Response GitHubUser;
  repos_of : Request -> Response ReposData;
  graphql : Request -> Response (option (list PinnedItem))
}.

Record PageState := {
  userData : option GitHubUser;
  repos : ReposData;
  pinnedRepos : list Repository;
  loading : bool;
  error : string;
  skills : list string
}.

Definition initial : PageState := {|
  userData := None; repos := ReposArray []; pinnedRepos := [];
  loading := true; error := ""; skills := []
|}.

Definition setUserData (u : option GitHubUser) : M PageState unit :=
  set (fun s => {| userData := u; repos := repos s; pinnedRepos := pinnedRepos s;
                   loading := loading s; error := error s; skills := skills s |}).
Definition setRepos (r : ReposData) : M PageState unit :=
  set (fun s => {| userData := userData s; repos := r; pinnedRepos := pinnedRepos s;
                   loading := loading s; error := error s; skills := skills s |}).
Definition setPinnedRepos (l : list Repository) : M PageState unit :=
  set (fun s => {| userData := userData s; repos := repos s; pinnedRepos := l;
                   loading := loading s; error := error s; skills := skills s |}).
Definition setLoading (b : bool) : M PageState unit :=
  set (fun s => {| userData := userData s; repos := repos s; pinnedRepos := pinnedRepos s;
                   loading := b; error := error s; skills := skills s |}).
Definition setError (e : string) : M PageState unit :=
  set (fun s => {| userData := userData s; repos := repos s; pinnedRepos := pinnedRepos s;
                   loading := loading s; error := e; skills := skills s |}).
Definition setSkills (l : list string) : M PageState unit :=
  set (fun s => {| userData := userData s; repos := repos s; pinnedRepos := pinnedRepos s;
                   loading := loading s; error := error s; skills := l |}).

Section WithHost.
Context `{Host}.

(** [value || new Date().toISOString()] *)
Definition or_now (value : option string) : M PageState string :=
  match value with
  | Some v => if JS.truthy value then ret v else now
  | None => now
  end.

(** The callback of [pinnedItems.map]: one pinned item in the
    [Repository] shape, completed from the REST record of the same name. *)
Definition formatPinnedRepo (reposData : ReposData) (item : PinnedItem)
  : M PageState Repository :=
  let topics := pin_repositoryTopics item in
  match reposData with
  | NotAnArray => throw (TypeError "reposData.find is not a function")
  | ReposArray l =>
      let repoDetails :=
        JS.find (fun repo => String.eqb (name repo) (pin_name item)) l in
      created <- or_now (option_map created_at repoDetails) ;;
      updated <- or_now (option_map updated_at repoDetails) ;;
      pushed <- or_now (option_map pushed_at repoDetails) ;;
      ret {| id := IdName (pin_name item);
             name := pin_name item;
             full_name := pin_owner_login item ++ "/" ++ pin_name item;
             html_url := pin_url item;
             description := pin_description item;
             fork := false;
             language := JS.or_else (pin_primaryLanguage item) None;
             stargazers_count := pin_stargazerCount item;
             forks_count := pin_forkCount item;
             topics := topics;
             owner := {| owner_login := pin_owner_login item;
                         owner_avatar_url := pin_owner_avatarUrl item;
                         owner_html_url := "https://github.com/" ++ pin_owner_login item;
                         owner_id := 0 |};
             created_at := created;
             updated_at := updated;
             pushed_at := pushed;
             homepage :=
               JS.or_else (match repoDetails with
                           | Some repo => homepage repo
                           | None => None
                           end) None;
             size := 0;
             watchers_count := 0;
             open_issues_count := 0;
             visibility := "";
             default_branch := "" |}
  end.

(** The [catch] branch of the GraphQL block: non-fork repositories by
    stars, the first six. *)
Definition fallbackRepos (reposData : ReposData) : M PageState (list Repository) :=
  match reposData with
  | NotAnArray => throw (TypeError "reposData is not iterable")
  | ReposArray l =>
      ret (firstn 6
             (JS.sort (fun a b => 0 <? stargazers_count b - stargazers_count a)
                (filter (fun repo => negb (fork repo)) l)))
  end.

(** "Extract skills from languages" *)
Definition extractSkills (reposData : ReposData) : M PageState unit :=
  match reposData with
  | NotAnArray => throw (TypeError "reposData.forEach is not a function")
  | ReposArray l =>
      let languages :=
        fold_left (fun languages repo =>
                     match language repo with
                     | Some lang => if JS.truthy (language repo)
                                    then JS.set_add languages lang
                                    else languages
                     | None => languages
                     end) l [] in
      setSkills (firstn 6 languages)
  end.

(** [storage] is [localStorage.getItem('github_token')]. *)
Definition fetchGitHubProfile (w : World) (env : ProcessEnv)
    (storage : option string) (username : string) : M PageState unit :=
  if String.eqb username "" then ret tt
  else
    setLoading true ;;
    setError "" ;;
    finally
      (try_catch
         (let headers := githubToken.createGitHubHeaders env (Some storage) in
          '(status, body) <-
             fetch (users w) (GET ("https://api.github.com/users/" ++ username) headers) ;;
          if negb (ok status)
          then throw (Error ("User not found (" ++ JS.String_of_Z status ++ ")"))
          else
            userData <- json body ;;
            setUserData (Some userData) ;;
            '(_, reposBody) <-
               fetch (repos_of w)
                 (GET ("https://api.github.com/users/" ++ username
                         ++ "/repos?per_page=100&sort=pushed") headers) ;;
            reposData <- json reposBody ;;
            setRepos reposData ;;
            try_catch
              (let token := JS.or_else storage (NEXT_PUBLIC_GITHUB_ACCESS_TOKEN env) in
               '(_, res) <-
                  fetch (graphql w)
                    (GraphQL_pinnedItems ("Bearer " ++ JS.template_undefined token)
                       username) ;;
               graphqlData <- json res ;;
               let pinnedItems :=
                 match graphqlData with
                 | Some nodes => nodes
                 | None => []
                 end in
               formattedPinnedRepos <- mapM (formatPinnedRepo reposData) pinnedItems ;;
               setPinnedRepos formattedPinnedRepos)
              (fun _ =>
                 fallback <- fallbackRepos reposData ;;
                 setPinnedRepos fallback) ;;
            extractSkills reposData)
         (fun error =>
            setError ("Error: " ++ message error) ;;
            setUserData None ;;
            setRepos (ReposArray []) ;;
            setPinnedRepos []))
      (setLoading false).

(** What the page shows in the "Featured Projects" section. *)
Inductive Featured :=
| NoRepositoriesFound
| MostActive (l : list Repository)
| Pinned (l : list Repository).

Inductive View :=
| Spinner
| ProfileNotFound
| Portfolio (user : GitHubUser) (skills : list string) (featured : Featured)
  (** [repos] is not an array: rendering throws *)
| RenderError.

Definition render (s : PageState) : View :=
  if loading s then Spinner
  else
    match userData s with
    | None => ProfileNotFound
    | Some user =>
        if negb (String.eqb (error s) "") then ProfileNotFound
        else
          match repos s with
          | NotAnArray => RenderError
          | ReposArray l =>
              Portfolio user (skills s)
                (if (Z.of_nat (List.length l) =? 0) then NoRepositoriesFound
                 else if (Z.of_nat (List.length (pinnedRepos s)) =? 0) then
                   MostActive
                     (firstn 4
                        (JS.sort (fun a b =>
                                    0 <? Date_getTime (pushed_at b)
                                         - Date_getTime (pushed_at a))
                           (filter (fun repo => negb (fork repo)) l)))
                 else Pinned (pinnedRepos s))
          end
    end.

(** One page view: the run from the initial state. *)
Definition pageView (w : World) (env : ProcessEnv) (storage : option string)
    (username : string) : Run PageState :=
  snd (fetchGitHubProfile w env storage username (start initial)).

End WithHost.

(** The three requests of a page view. *)
Definition user_request (env : ProcessEnv) (storage : option string)
    (username : string) : Request :=
  GET ("https://api.github.com/users/" ++ username)
      (githubToken.createGitHubHeaders env (Some storage)).

Definition repos_request (env : ProcessEnv) (storage : option string)
    (username : string) : Request :=
  GET ("https://api.github.com/users/" ++ username
         ++ "/repos?per_page=100&sort=pushed")
      (githubToken.createGitHubHeaders env (Some storage)).

Definition graphql_request (env : ProcessEnv) (storage : option string)
    (username : string) : Request :=
  GraphQL_pinnedItems
    ("Bearer " ++ JS.template_undefined
                    (JS.or_else storage (NEXT_PUBLIC_GITHUB_ACCESS_TOKEN env)))
    username.

Definition is_graphql (req : Request) : bool :=
  match req with
  | GraphQL_pinnedItems _ _ => true
  | GET _ _ => false
  end.

Definition featured_of (v : View) : list Repository :=
  match v with
  | Portfolio _ _ (MostActive l) => l
  | Portfolio _ _ (Pinned l) => l
  | _ => []
  end.

(** The pinned items stage 1 obtains from an answer of the GraphQL
    endpoint: none when the request fails or the body carries no nodes. *)
Definition stage1_items (answer : Response (option (list PinnedItem)))
  : list PinnedItem :=
  match answer with
  | Http _ (Some (Some nodes)) => nodes
  | _ => []
  end.

(** The languages that count as a skill, repository by repository. *)
Definition languages_of (l : list Repository) : list string :=
  flat_map (fun repo =>
              match language repo with
              | Some lang => if String.eqb lang "" then [] else [lang]
              | None => []
              end) l.

(** The distinct values of a list in order of first appearance. *)
Definition first_appearances (l : list string) : list string :=
  first_by (fun x => x) l.

(** The entry made for a pinned item that has no REST record: no
    homepage, and three consecutive readings of the clock, taken between
    the readings [lo] and [hi] of the run, as its timestamps. *)
Definition placeholder_entry `{Host} (lo hi : nat) (entry : Repository) : Prop :=
  homepage entry = None /\
  exists k : nat,
    (lo <= k)%nat /\ (k + 2 < hi)%nat /\
    created_at entry = Date_now_toISOString k /\
    updated_at entry = Date_now_toISOString (k + 1) /\
    pushed_at entry = Date_now_toISOString (k + 2).

(** A pinned item and the featured entry made from it. *)
Definition reconciled `{Host} (l : list Repository) (lo hi : nat)
    (item : PinnedItem) (entry : Repository) : Prop :=
  name entry = pin_name item /\
  ((forall repo, In repo l -> name repo <> pin_name item) ->
   placeholder_entry lo hi entry).

(** Where a page view ends once the profile and the repository list are
    in: the three requests have been issued, [pinned] is the pinned list
    and [n] readings of the clock were taken. *)
Definition settled (env : ProcessEnv) (storage : option string)
    (username : string) (u : GitHubUser) (l : list Repository)
    (pinned : list Repository) (n : nat) : Run PageState :=
  {| state := {| userData := Some u; repos := ReposArray l;
                 pinnedRepos := pinned; loading := false; error := "";
                 skills := firstn 6 (first_appearances (languages_of l)) |};
     trace := [user_request env storage username;
               repos_request env storage username;
               graphql_request env storage username];
     ticks := n |}.

(** The two orders of the fallbacks. *)
Definition by_stars (l : list Repository) : list Repository :=
  JS.sort (fun a b => 0 <? stargazers_count b - stargazers_count a)
    (filter (fun repo => negb (fork repo)) l).

Definition by_push `{Host} (l : list Repository) : list Repository :=
  JS.sort (fun a b => 0 <? Date_getTime (pushed_at b) - Date_getTime (pushed_at a))
    (filter (fun repo => negb (fork repo)) l).

(** Sample data. *)
Definition octocat : GitHubUser :=
  {| login := "octocat"; user_name := Some "The Octocat"; followers := 3 |}.

Definition sample_repo (n : string) (is_fork : bool) (stars : Z)
    (lang : option string) (pushed : string) (home : option string) : Repository :=
  {| id := IdNumber 1; name := n; full_name := "octocat/" ++ n;
     html_url := "https://github.com/octocat/" ++ n; description := None;
     fork := is_fork; created_at := "2020-01-01T00:00:00Z";
     updated_at := pushed; pushed_at := pushed; homepage := home; size := 1;
     stargazers_count := stars; watchers_count := stars; language := lang;
     forks_count := 0; open_issues_count := 0; topics := [];
     visibility := "public"; default_branch := "main";
     owner := {| owner_login := "octocat"; owner_id := 583231;
                 owner_avatar_url := "https://avatars.githubusercontent.com/u/583231";
                 owner_html_url := "https://github.com/octocat" |} |}.

Definition recent_repo : Repository :=
  sample_repo "recent" false 1 (Some "Rust") "2024-05-01T10:00:00Z" None.
Definition starred_repo : Repository :=
  sample_repo "starred" false 5 (Some "Go") "2023-01-15T08:30:00Z"
    (Some "https://starred.example").

Definition sample_pin (n : string) : PinnedItem :=
  {| pin_name := n; pin_description := None;
     pin_url := "https://github.com/octocat/" ++ n;
     pin_stargazerCount := 7; pin_forkCount := 2;
     pin_primaryLanguage := Some "C"; pin_repositoryTopics := ["cli"];
     pin_owner_login := "octocat";
     pin_owner_avatarUrl := "https://avatars.githubusercontent.com/u/583231" |}.

Definition no_credentials : ProcessEnv :=
  {| GITHUB_ACCESS_TOKEN := None; NEXT_PUBLIC_GITHUB_ACCESS_TOKEN := None |}.

(** The profile exists and has two repositories; the GraphQL endpoint
    cannot be reached. *)
Definition world_graphql_down : World :=
  {| users := fun _ => Http 200 (Some octocat);
     repos_of := fun _ => Http 200 (Some (ReposArray [recent_repo; starred_repo]));
     graphql := fun _ => NetworkError |}.

(** The profile exists; the repositories request is answered with an
    error object; the unauthenticated GraphQL request is refused. *)
Definition world_repos_refused : World :=
  {| users := fun _ => Http 200 (Some octocat);
     repos_of := fun _ => Http 403 (Some NotAnArray);
     graphql := fun _ => Http 401 (Some None) |}.

(** Nothing is known upstream under the name asked for. *)
Definition world_no_such_user : World :=
  {| users := fun _ => Http 404 None;
     repos_of := fun _ => Http 404 None;
     graphql := fun _ => Http 200 (Some None) |}.

(** The profile pins one repository that the REST list does not have
    and one that it has. *)
Definition world_pinned : World :=
  {| users := fun _ => Http 200 (Some octocat);
     repos_of := fun _ => Http 200 (Some (ReposArray [recent_repo; starred_repo]));
     graphql := fun _ => Http 200 (Some (Some [sample_pin "elsewhere";
                                               sample_pin "starred"])) |}.

(** The profile pins nothing. *)
Definition world_no_pins : World :=
  {| users := fun _ => Http 200 (Some octocat);
     repos_of := fun _ => Http 200 (Some (ReposArray [starred_repo; recent_repo]));
     graphql := fun _ => Http 200 (Some (Some [])) |}.

End ProfilePage.

(** ** Pinned repositories component (components/PinnedRepos.tsx) *)

Module PinnedRepos.
Import Fetch.
Local Open Scope fetch_scope.

(** [graphql] answers with the names at [data.user.pinnedItems.nodes],
    [None] when that path is missing. *)
Record World := {
  graphql : Request -> Response (option (list string))
}.

Record State := {
  pinnedRepos : list Repository;
  loading : bool;
  error : string
}.

Definition initial : State :=
  {| pinnedRepos := []; loading := true; error := "" |}.

Definition setPinnedRepos (l : list Repository) : M State unit :=
  set (fun s => {| pinnedRepos := l; loading := loading s; error := error s |}).
Definition setLoading (b : bool) : M State unit :=
  set (fun s => {| pinnedRepos := pinnedRepos s; loading := b; error := error s |}).
Definition setError (e : string) : M State unit :=
  set (fun s => {| pinnedRepos := pinnedRepos s; loading := loading s; error := e |}).

Section WithHost.
Context `{Host}.

(** stars * 3 + forks * 2 + pushed time / 1000000000 *)
Definition score (repo : Repository) : spec_float :=
  Num.add
    (Num.add (Num.mul (Num.of_Z (stargazers_count repo)) (Num.of_Z 3))
             (Num.mul (Num.of_Z (forks_count repo)) (Num.of_Z 2)))
    (Num.div (Num.of_Z (Date_getTime (pushed_at repo))) (Num.of_Z 1000000000)).

(** [token] is the component's [token] property.  The inner block
    answers [true] when it has set the pinned list and returned. *)
Definition fetchPinnedRepos (w : World) (env : ProcessEnv)
    (token : option string) (username : string) (repos : list Repository)
  : M State unit :=
  setLoading true ;;
  setError "" ;;
  finally
    (try_catch
       (let activeToken := JS.or_else (GITHUB_ACCESS_TOKEN env) token in
        returned <-
          (match activeToken with
           | Some t =>
               if JS.truthy activeToken then
                 try_catch
                   ('(_, body) <-
                      fetch (graphql w) (GraphQL_pinnedItems ("bearer " ++ t) username) ;;
                    result <- json body ;;
                    match result with
                    | Some graphqlPinned =>
                        let pinnedWithFullData :=
                          flat_map
                            (fun pinnedItem =>
                               match JS.find (fun repo => String.eqb (name repo) pinnedItem)
                                             repos with
                               | Some fullRepo => [fullRepo]
                               | None => []
                               end)
                            graphqlPinned in
                        if 0 <? Z.of_nat (List.length pinnedWithFullData) then
                          setPinnedRepos pinnedWithFullData ;;
                          setLoading false ;;
                          ret true
                        else ret false
                    | None => ret false
                    end)
                   (fun _ => ret false)
               else ret false
           | None => ret false
           end) ;;
        if (returned : bool) then ret tt
        else
          let sortedRepos :=
            JS.sort (fun a b => Num.positive (Num.sub (score b) (score a))) repos in
          let topRepos := firstn 6 (filter (fun repo => negb (fork repo)) sortedRepos) in
          setPinnedRepos topRepos)
       (fun _ => setError "Failed to load pinned repositories"))
    (setLoading false).

(** The effect: [if (username && repos.length > 0) fetchPinnedRepos()]. *)
Definition component (w : World) (env : ProcessEnv) (token : option string)
    (username : string) (repos : list Repository) : Run State :=
  if negb (String.eqb username "") && (0 <? Z.of_nat (List.length repos))
  then snd (fetchPinnedRepos w env token username repos (start initial))
  else start initial.

End WithHost.

Definition world_nothing_pinned : World :=
  {| graphql := fun _ => Http 200 (Some (Some [])) |}.

End PinnedRepos.

(** ** Activity graph (components/ActivityGraph.tsx) *)

Module ActivityGraph.
Import Fetch.
Local Open Scope fetch_scope.

(** [participation] answers with the [owner] array of the participation
    statistic, [None] when the body or its [owner] field is missing (as
    in the empty object sent while the statistic is being computed). *)
Record World := {
  repos_of : Request -> Response (list Repository);
  participation : Request -> Response (option (list Z))
}.

Record ActivityPoint := {
  point_name : string;
  commits : Z;
  date : string
}.

Record CommitData := {
  commit_repo : string;
  data : list Z
}.

Record State := {
  activityData : list ActivityPoint;
  loading : bool;
  error : string
}.

Definition initial : State :=
  {| activityData := []; loading := true; error := "" |}.

Definition setActivityData (l : list ActivityPoint) : M State unit :=
  set (fun s => {| activityData := l; loading := loading s; error := error s |}).
Definition setLoading (b : bool) : M State unit :=
  set (fun s => {| activityData := activityData s; loading := b; error := error s |}).
Definition setError (e : string) : M State unit :=
  set (fun s => {| activityData := activityData s; loading := loading s; error := e |}).

(** [activityMap[dateKey] = (activityMap[dateKey] || 0) + 1] on an
    object whose keys keep insertion order. *)
Fixpoint count_key (activityMap : list (string * Z)) (dateKey : string)
  : list (string * Z) :=
  match activityMap with
  | [] => [(dateKey, 1)]
  | (k, v) :: rest =>
      if String.eqb k dateKey then (k, (if v =? 0 then 0 else v) + 1) :: rest
      else (k, v) :: count_key rest dateKey
  end.

(** [activityMap[dateKey]] *)
Definition lookup (activityMap : list (string * Z)) (dateKey : string) : Z :=
  match List.find (fun e => String.eqb (fst e) dateKey) activityMap with
  | Some e => snd e
  | None => 0
  end.

Section WithHost.
Context `{Host}.

Definition participation_request (headers : Headers) (repo : Repository) : Request :=
  GET ("https://api.github.com/repos/" ++ full_name repo ++ "/stats/participation")
      headers.

(** The [for] loop over the first repositories: stops at the first one
    whose owner weeks have a positive entry. *)
Fixpoint scan (w : World) (headers : Headers) (candidates : list Repository)
  : M State (option CommitData) :=
  match candidates with
  | [] => ret None
  | repo :: rest =>
      commitData <-
        try_catch
          ('(status, body) <- fetch (participation w) (participation_request headers repo) ;;
           if ok status then
             data <- json body ;;
             match data with
             | Some owner_weeks =>
                 if existsb (fun val => 0 <? val) owner_weeks
                 then ret (Some {| commit_repo := name repo; data := owner_weeks |})
                 else ret None
             | None => ret None
             end
           else ret None)
          (fun _ => ret None) ;;
      match commitData with
      | Some found => ret (Some found)
      | None => scan w headers rest
      end
  end.

Definition dateKey_of (repo : Repository) : string :=
  JS.String_of_Z (Date_getFullYear (pushed_at repo)) ++ "-"
    ++ JS.padStart2 (JS.String_of_Z (Date_getMonth (pushed_at repo) + 1)).

(** The representation by push dates: one point per month that has a
    push, in order of month, the last 12 of them. *)
Definition byPushDates (repos : list Repository) : list ActivityPoint :=
  let activityMap :=
    fold_left (fun activityMap repo => count_key activityMap (dateKey_of repo))
              repos [] in
  let formattedData :=
    map (fun dateKey =>
           let '(year, month) :=
             match JS.split_on "-" dateKey with
             | year :: month :: _ => (year, month)
             | [year] => (year, "undefined")
             | [] => ("undefined", "undefined")
             end in
           {| point_name := month ++ "/" ++ JS.slice_from 2 year;
              commits := lookup activityMap dateKey;
              date := dateKey |})
        (JS.sort (fun a b => String.ltb b a) (map fst activityMap)) in
  JS.slice_last 12 formattedData.

(** The representation by weeks: week [index] of [n] is dated
    [(n - 1 - index) * 7] days before today. *)
Fixpoint byWeeks (n : nat) (index : nat) (counts : list Z)
  : M State (list ActivityPoint) :=
  match counts with
  | [] => ret []
  | count :: rest =>
      '(month, day) <- today_minus ((Z.of_nat n - 1 - Z.of_nat index) * 7) ;;
      points <- byWeeks n (Datatypes.S index) rest ;;
      ret ({| point_name := "Week " ++ JS.String_of_Z (Z.of_nat index + 1);
              commits := count;
              date := JS.String_of_Z (month + 1) ++ "/" ++ JS.String_of_Z day |}
           :: points)
  end.

Definition fetchActivityData (w : World) (env : ProcessEnv)
    (storage : option string) (username : string) : M State unit :=
  setLoading true ;;
  setError "" ;;
  finally
    (try_catch
       (let headers := githubToken.createGitHubHeaders env (Some storage) in
        '(status, body) <-
           fetch (repos_of w)
             (GET ("https://api.github.com/users/" ++ username
                     ++ "/repos?sort=pushed&per_page=10") headers) ;;
        if negb (ok status)
        then throw (Error ("Failed to fetch repositories: " ++ JS.String_of_Z status))
        else
          repos <- json body ;;
          if Z.of_nat (List.length repos) =? 0 then
            setActivityData [] ;; setLoading false
          else
            let nonForkRepos := filter (fun repo => negb (fork repo)) repos in
            if Z.of_nat (List.length nonForkRepos) =? 0 then
              setActivityData [] ;; setLoading false
            else
              commitData <-
                scan w headers
                  (firstn (Nat.min (List.length nonForkRepos) 3) nonForkRepos) ;;
              match commitData with
              | None => setActivityData (byPushDates repos)
              | Some found =>
                  formattedData <- byWeeks (List.length (data found)) 0 (data found) ;;
                  setActivityData (filter (fun item => 0 <? commits item) formattedData)
              end)
       (fun _ => setError "Failed to load activity data"))
    (setLoading false).

(** The effect: [if (username) fetchActivityData()]. *)
Definition component (w : World) (env : ProcessEnv) (storage : option string)
    (username : string) : Run State :=
  if negb (String.eqb username "")
  then snd (fetchActivityData w env storage username (start initial))
  else start initial.

(** What the card shows. *)
Inductive Card :=
| Spinner
| ErrorText (message : string)
  (** "No activity data available" *)
| NoActivityData
| Chart (points : list ActivityPoint).

Definition card (s : State) : Card :=
  if loading s then Spinner
  else if negb (String.eqb (error s) "") then ErrorText (error s)
  else if Z.of_nat (List.length (activityData s)) =? 0 then NoActivityData
  else Chart (activityData s).

(** Whether the answer to a participation request shows owner activity. *)
Definition owner_activity (answer : Response (option (list Z))) : option (list Z) :=
  match answer with
  | Http status (Some (Some owner_weeks)) =>
      if ok status && existsb (fun val => 0 <? val) owner_weeks
      then Some owner_weeks else None
  | _ => None
  end.

Definition active (w : World) (headers : Headers) (repo : Repository) : bool :=
  match owner_activity (participation w (participation_request headers repo)) with
  | Some _ => true
  | None => false
  end.

(** The repositories whose statistic is asked for: every candidate up to
    and including the first active one. *)
Fixpoint consulted (w : World) (headers : Headers) (candidates : list Repository)
  : list Repository :=
  match candidates with
  | [] => []
  | repo :: rest =>
      repo :: (if active w headers repo then [] else consulted w headers rest)
  end.

(** The first candidate with owner activity, with its owner weeks. *)
Definition selected (w : World) (headers : Headers) (candidates : list Repository)
  : option CommitData :=
  match List.find (active w headers) candidates with
  | Some repo =>
      option_map (fun owner_weeks =>
                    {| commit_repo := name repo; data := owner_weeks |})
        (owner_activity (participation w (participation_request headers repo)))
  | None => None
  end.

End WithHost.

Definition repos_request (env : ProcessEnv) (storage : option string)
    (username : string) : Request :=
  GET ("https://api.github.com/users/" ++ username
         ++ "/repos?sort=pushed&per_page=10")
      (githubToken.createGitHubHeaders env (Some storage)).

Definition pushed_repo (n : string) (pushed : string) : Repository :=
  ProfilePage.sample_repo n false 0 None pushed None.

(** Two repositories pushed nine years apart, no participation data. *)
Definition world_old_and_new : World :=
  {| repos_of := fun _ =>
       Http 200 (Some [pushed_repo "new" "2024-05-01T10:00:00Z";
                       pushed_repo "old" "2015-01-10T09:00:00Z"]);
     participation := fun _ => Http 202 (Some None) |}.

Definition world_no_repos : World :=
  {| repos_of := fun _ => Http 200 (Some []);
     participation := fun _ => Http 404 None |}.

End ActivityGraph.

(** ** Similar profiles (components/SimilarProfiles.tsx) *)

Module SimilarProfiles.
Import Fetch.
Local Open Scope fetch_scope.

(** An account as it appears in a contributors, followers or following
    list, or as the owner of a search hit. *)
Record Account := {
  account_login : string;
  account_avatar_url : string;
  account_html_url : string
}.

(** A hit of the repository search. *)
Record SearchItem := {
  contributors_url : string;
  item_owner : Account
}.

Record SimilarUser := {
  su_login : string;
  su_avatar_url : string;
  su_html_url : string;
  su_name : option string;
  similarity_reason : string
}.

(** [search] answers with the [items] of the search result. *)
Record World := {
  search : Request -> Response (list SearchItem);
  accounts : Request -> Response (list Account);
  users : Request -> Response GitHubUser
}.

Record State := {
  similarUsers : list SimilarUser;
  loading : bool;
  error : string
}.

Definition initial : State :=
  {| similarUsers := []; loading := true; error := "" |}.

Definition setSimilarUsers (l : list SimilarUser) : M State unit :=
  set (fun s => {| similarUsers := l; loading := loading s; error := error s |}).
Definition setLoading (b : bool) : M State unit :=
  set (fun s => {| similarUsers := similarUsers s; loading := b; error := error s |}).
Definition setError (e : string) : M State unit :=
  set (fun s => {| similarUsers := similarUsers s; loading := loading s; error := e |}).

(** A [Map<string, SimilarUser>] in insertion order. *)
Definition UserMap := list (string * SimilarUser).

Definition has (m : UserMap) (key : string) : bool :=
  existsb (fun e => String.eqb (fst e) key) m.

Fixpoint map_set (m : UserMap) (key : string) (v : SimilarUser) : UserMap :=
  match m with
  | [] => [(key, v)]
  | (k, v') :: rest =>
      if String.eqb k key then (k, v) :: rest else (k, v') :: map_set rest key v
  end.

Definition values (m : UserMap) : list SimilarUser := map snd m.

(** The body shared by the three loops: skip the current user, and add
    the account unless its login is already a key. *)
Definition consider (user : GitHubUser) (reason : string) (m : UserMap)
    (account : Account) : UserMap :=
  if String.eqb (account_login account) (login user) then m
  else if negb (has m (account_login account)) then
    map_set m (account_login account)
      {| su_login := account_login account;
         su_avatar_url := account_avatar_url account;
         su_html_url := account_html_url account;
         su_name := None;
         similarity_reason := reason |}
  else m.

(** [languageCounts[language] = (languageCounts[language] || 0) + 1] *)
Fixpoint count_language (languageCounts : list (string * Z)) (language : string)
  : list (string * Z) :=
  match languageCounts with
  | [] => [(language, 1)]
  | (k, v) :: rest =>
      if String.eqb k language then (k, (if v =? 0 then 0 else v) + 1) :: rest
      else (k, v) :: count_language rest language
  end.

Definition primaryLanguage_of (repos : list Repository) : option string :=
  let languageCounts :=
    fold_left (fun languageCounts repo =>
                 match language repo with
                 | Some lang => if JS.truthy (language repo)
                                then count_language languageCounts lang
                                else languageCounts
                 | None => languageCounts
                 end) repos [] in
  hd_error
    (map fst (JS.sort (fun a b => 0 <? snd b - snd a) languageCounts)).

Definition userLanguages_of (repos : list Repository) : list string :=
  fold_left (fun userLanguages repo =>
               match language repo with
               | Some lang => if JS.truthy (language repo)
                              then JS.set_add userLanguages lang
                              else userLanguages
               | None => userLanguages
               end) repos [].

Definition userTopics_of (repos : list Repository) : list string :=
  fold_left (fun userTopics repo =>
               if 0 <? Z.of_nat (List.length (topics repo))
               then fold_left JS.set_add (topics repo) userTopics
               else userTopics) repos [].

Definition reason_language (primaryLanguage : string) : string :=
  "Also works with " ++ primaryLanguage.
Definition reason_topics : string := "Works on similar topics".
Definition reason_followers : string := "Followed by people who follow you".

Section Strategies.
Variables (w : World) (headers : Headers) (user : GitHubUser).

(** Method 1: contributors of repositories in the primary language. *)
Definition byLanguage (primaryLanguage : option string) (m : UserMap)
  : M State UserMap :=
  match primaryLanguage with
  | Some lang =>
      if JS.truthy primaryLanguage then
        '(status, body) <-
           fetch (search w)
             (GET ("https://api.github.com/search/repositories?q=language:" ++ lang
                     ++ "+stars:>10&sort=stars&per_page=5") headers) ;;
        if ok status then
          items <- json body ;;
          foldM (fun m repo =>
                   try_catch
                     ('(status, body) <-
                        fetch (accounts w) (GET (contributors_url repo) headers) ;;
                      if ok status then
                        contributors <- json body ;;
                        ret (fold_left (consider user (reason_language lang))
                                       (firstn 5 contributors) m)
                      else ret m)
                     (fun _ => ret m))
                (firstn 3 items) m
        else ret m
      else ret m
  | None => ret m
  end.

(** Method 2: owners of repositories with similar topics. *)
Definition byTopics (userTopics : list string) (m : UserMap) : M State UserMap :=
  if 0 <? Z.of_nat (List.length userTopics) then
    let topics := String.concat "+" (firstn 3 userTopics) in
    '(status, body) <-
       fetch (search w)
         (GET ("https://api.github.com/search/repositories?q=topic:" ++ topics
                 ++ "+stars:>5&sort=stars&per_page=5") headers) ;;
    if ok status then
      items <- json body ;;
      ret (fold_left (consider user reason_topics) (map item_owner items) m)
    else ret m
  else ret m.

(** Method 3: accounts followed by the followers of the user. *)
Definition byFollowers (m : UserMap) : M State UserMap :=
  if 0 <? followers user then
    '(status, body) <-
       fetch (accounts w)
         (GET ("https://api.github.com/users/" ++ login user ++ "/followers?per_page=5")
              headers) ;;
    if ok status then
      followers <- json body ;;
      foldM (fun m follower =>
               try_catch
                 ('(status, body) <-
                    fetch (accounts w)
                      (GET ("https://api.github.com/users/" ++ account_login follower
                              ++ "/following?per_page=5") headers) ;;
                  if ok status then
                    followerFollowing <- json body ;;
                    ret (fold_left (consider user reason_followers) followerFollowing m)
                  else ret m)
                 (fun _ => ret m))
            followers m
    else ret m
  else ret m.

(** "Get additional details for each user": the callback of the
    [Promise.all] over the first six candidates.  The callbacks do not
    depend on each other; their requests leave in order. *)
Definition enhance (simUser : SimilarUser) : M State SimilarUser :=
  try_catch
    ('(status, body) <-
       fetch (users w) (GET ("https://api.github.com/users/" ++ su_login simUser) headers) ;;
     if ok status then
       userData <- json body ;;
       ret {| su_login := su_login simUser;
              su_avatar_url := su_avatar_url simUser;
              su_html_url := su_html_url simUser;
              su_name := user_name userData;
              similarity_reason := similarity_reason simUser |}
     else ret simUser)
    (fun _ => ret simUser).

End Strategies.

Definition findSimilarProfiles (w : World) (env : ProcessEnv)
    (storage : option string) (user : GitHubUser) (repos : list Repository)
  : M State unit :=
  setLoading true ;;
  setError "" ;;
  finally
    (try_catch
       (let headers := githubToken.createGitHubHeaders env (Some storage) in
        let userLanguages := userLanguages_of repos in
        let userTopics := userTopics_of repos in
        if (Z.of_nat (List.length userLanguages) =? 0)
           && (Z.of_nat (List.length userTopics) =? 0)
        then setSimilarUsers [] ;; setLoading false
        else
          let primaryLanguage := primaryLanguage_of repos in
          let similarUsersSet : UserMap := [] in
          similarUsersSet <- byLanguage w headers user primaryLanguage similarUsersSet ;;
          similarUsersSet <- byTopics w headers user userTopics similarUsersSet ;;
          similarUsersSet <- byFollowers w headers user similarUsersSet ;;
          let similarUsersArray := values similarUsersSet in
          enhancedUsers <- mapM (enhance w headers) (firstn 6 similarUsersArray) ;;
          setSimilarUsers enhancedUsers)
       (fun _ => setError "Failed to find similar profiles"))
    (setLoading false).

(** The effect: [if (user && repos.length > 0) findSimilarProfiles()]. *)
Definition component (w : World) (env : ProcessEnv) (storage : option string)
    (user : GitHubUser) (repos : list Repository) : Run State :=
  if 0 <? Z.of_nat (List.length repos)
  then snd (findSimilarProfiles w env storage user repos (start initial))
  else start initial.

(** *** What the three methods discover *)

Section Discoveries.
Variables (w : World) (headers : Headers) (user : GitHubUser).

(** The hits a search request yields, none unless it is answered with
    a 2xx status and a body that decodes. *)
Definition searched (req : Request) : list SearchItem :=
  match search w req with
  | Http status (Some items) => if ok status then items else []
  | _ => []
  end.

Definition listed (req : Request) : list Account :=
  match accounts w req with
  | Http status (Some l) => if ok status then l else []
  | _ => []
  end.

Definition candidate (reason : string) (account : Account) : SimilarUser :=
  {| su_login := account_login account;
     su_avatar_url := account_avatar_url account;
     su_html_url := account_html_url account;
     su_name := None;
     similarity_reason := reason |}.

Definition not_self (account : Account) : bool :=
  negb (String.eqb (account_login account) (login user)).

Definition discovered_byLanguage (primaryLanguage : option string)
  : list SimilarUser :=
  match primaryLanguage with
  | Some lang =>
      if JS.truthy primaryLanguage then
        map (candidate (reason_language lang))
          (filter not_self
             (flat_map
                (fun repo => firstn 5 (listed (GET (contributors_url repo) headers)))
                (firstn 3
                   (searched
                      (GET ("https://api.github.com/search/repositories?q=language:"
                              ++ lang ++ "+stars:>10&sort=stars&per_page=5")
                           headers)))))
      else []
  | None => []
  end.

Definition discovered_byTopics (userTopics : list string) : list SimilarUser :=
  if 0 <? Z.of_nat (List.length userTopics) then
    map (candidate reason_topics)
      (filter not_self
         (map item_owner
            (searched
               (GET ("https://api.github.com/search/repositories?q=topic:"
                       ++ String.concat "+" (firstn 3 userTopics)
                       ++ "+stars:>5&sort=stars&per_page=5") headers))))
  else [].

Definition discovered_byFollowers : list SimilarUser :=
  if 0 <? followers user then
    map (candidate reason_followers)
      (filter not_self
         (flat_map
            (fun follower =>
               listed (GET ("https://api.github.com/users/" ++ account_login follower
                              ++ "/following?per_page=5") headers))
            (listed (GET ("https://api.github.com/users/" ++ login user
                            ++ "/followers?per_page=5") headers))))
  else [].

(** Everything discovered, in the order the methods run. *)
Definition discovered (repos : list Repository) : list SimilarUser :=
  List.app (discovered_byLanguage (primaryLanguage_of repos))
    (List.app (discovered_byTopics (userTopics_of repos)) discovered_byFollowers).

Definition profile_request (c : SimilarUser) : Request :=
  GET ("https://api.github.com/users/" ++ su_login c) headers.

(** The candidate with the display name of its profile, when the
    profile request succeeds. *)
Definition enriched (c : SimilarUser) : SimilarUser :=
  match users w (profile_request c) with
  | Http status (Some userData) =>
      if ok status then
        {| su_login := su_login c;
           su_avatar_url := su_avatar_url c;
           su_html_url := su_html_url c;
           su_name := user_name userData;
           similarity_reason := similarity_reason c |}
      else c
  | _ => c
  end.

Definition enrichment_fails (c : SimilarUser) : Prop :=
  match users w (profile_request c) with
  | Http status (Some _) => ok status = false
  | _ => True
  end.

End Discoveries.

(** A candidate enters the map unless its login is a key already. *)
Definition add_candidate (m : UserMap) (c : SimilarUser) : UserMap :=
  if has m (su_login c) then m else List.app m [(su_login c, c)].

Definition keyed (cs : list SimilarUser) : UserMap :=
  map (fun c => (su_login c, c)) cs.

(** The signal the early exit looks for. *)
Definition has_signal (repos : list Repository) : bool :=
  negb ((Z.of_nat (List.length (userLanguages_of repos)) =? 0)
        && (Z.of_nat (List.length (userTopics_of repos)) =? 0)).

(** Sample data: the language search finds two repositories with three
    contributors each, the topic search a repository owned by "grace",
    and the only follower, "heidi", follows "grace" too. *)
Definition acct (n : string) : Account :=
  {| account_login := n;
     account_avatar_url := "https://avatars.example/" ++ n;
     account_html_url := "https://github.com/" ++ n |}.

Definition hit (full : string) (own : string) : SearchItem :=
  {| contributors_url := "https://api.github.com/repos/" ++ full ++ "/contributors";
     item_owner := acct own |}.

Definition rust_cli : Repository :=
  {| id := IdNumber 7; name := "cli"; full_name := "octocat/cli";
     html_url := "https://github.com/octocat/cli"; description := None;
     fork := false; created_at := "2020-01-01T00:00:00Z";
     updated_at := "2024-05-01T10:00:00Z"; pushed_at := "2024-05-01T10:00:00Z";
     homepage := None; size := 1; stargazers_count := 2; watchers_count := 2;
     language := Some "Rust"; forks_count := 0; open_issues_count := 0;
     topics := ["cli"]; visibility := "public"; default_branch := "main";
     owner := {| owner_login := "octocat"; owner_id := 583231;
                 owner_avatar_url := "https://avatars.example/octocat";
                 owner_html_url := "https://github.com/octocat" |} |}.

Definition url_of (req : Request) : string :=
  match req with
  | GET url _ => url
  | GraphQL_pinnedItems _ _ => "https://api.github.com/graphql"
  end.

Definition world_crowded : World :=
  {| search := fun req =>
       if String.eqb (url_of req)
            "https://api.github.com/search/repositories?q=language:Rust+stars:>10&sort=stars&per_page=5"
       then Http 200 (Some [hit "rust-lang/rust" "rust-lang"; hit "denoland/deno" "denoland"])
       else Http 200 (Some [hit "grace/tool" "grace"]);
     accounts := fun req =>
       if String.eqb (url_of req) "https://api.github.com/repos/rust-lang/rust/contributors"
       then Http 200 (Some [acct "alice"; acct "bob"; acct "carol"])
       else if String.eqb (url_of req)
                 "https://api.github.com/repos/denoland/deno/contributors"
       then Http 200 (Some [acct "dave"; acct "erin"; acct "frank"])
       else if String.eqb (url_of req)
                 "https://api.github.com/users/octocat/followers?per_page=5"
       then Http 200 (Some [acct "heidi"])
       else if String.eqb (url_of req)
                 "https://api.github.com/users/heidi/following?per_page=5"
       then Http 200 (Some [acct "grace"; acct "octocat"])
       else Http 404 None;
     users := fun req =>
       if String.eqb (url_of req) "https://api.github.com/users/alice"
       then NetworkError
       else Http 200 (Some {| login := "someone"; user_name := Some "Some One";
                              followers := 0 |}) |}.

End SimilarProfiles.

(** ** Project detail page: language percentages
    (app/[username]/projects/[repo]/page.tsx) *)

Module ProjectDetails.

(** The [languages] state, a [Record<string, number>] of byte counts as
    the languages endpoint returns it, in [Object.entries] order. *)
Definition Languages := list (string * N).

Record LanguagePercentage := {
  language : string;
  percentage : spec_float;
  bytes : N
}.

Definition calculateLanguagePercentages (languages : Languages)
  : list LanguagePercentage :=
  let total :=
    fold_left (fun sum value => Num.add sum (Num.of_N value))
              (map snd languages) (Num.of_Z 0) in
  map (fun '(language, bytes) =>
         {| language := language;
            percentage :=
              Num.Math_round
                (Num.mul (Num.div (Num.of_N bytes) total) (Num.of_Z 100));
            bytes := bytes |})
      languages.

(** The languages section of the page:
    [Object.keys(languages).length > 0 && ...]; [None] when nothing is
    rendered. *)
Definition languagesSection (languages : Languages)
  : option (list LanguagePercentage) :=
  if (0 <? Z.of_nat (List.length languages))
  then Some (calculateLanguagePercentages languages)
  else None.

(** The exact sum of the byte counts. *)
Definition sum_bytes (languages : Languages) : N :=
  fold_right N.add 0%N (map snd languages).

Definition sample_30_70 : Languages := [("A", 30%N); ("B", 70%N)].
Definition sample_thirds : Languages := [("A", 1%N); ("B", 1%N); ("C", 1%N)].

End ProjectDetails.


(** ** Plain objects used as dictionaries *)

Module Obj.

(** [o[k]] *)
Definition get {V : Type} (o : list (string * V)) (k : string) : option V :=
  option_map snd (List.find (fun e => String.eqb (fst e) k) o).

(** [o[k] = v]: an existing key keeps its place. *)
Fixpoint set {V : Type} (o : list (string * V)) (k : string) (v : V)
  : list (string * V) :=
  match o with
  | [] => [(k, v)]
  | (k', v') :: rest =>
      if String.eqb k' k then (k', v) :: rest else (k', v') :: set rest k v
  end.

(** [{...a, ...b}] *)
Definition spread {V : Type} (a b : list (string * V)) : list (string * V) :=
  fold_left (fun acc e => set acc (fst e) (snd e)) b a.

End Obj.


(** ** The request layer (lib/githubService.ts, continued) and the
    rate-limit route (app/api/github/rate-limit/route.ts) *)

Module RateLimit.
Import Fetch.
Local Open Scope fetch_scope.

Record Quota := {
  limit : Z;
  remaining : Z;
  reset : Z;
  used : Z
}.

Record Resources := {
  core : Quota;
  search : Quota;
  graphql : Quota;
  integration_manifest : Quota;
  code_scanning_upload : Quota
}.

Record GitHubRateLimit := {
  resources : Resources;
  rate : Quota
}.

(** The fields of a [RequestInit] the source touches; [init_headers] is
    a plain object, empty when the caller gives none. *)
Record RequestInit := {
  init_method : option string;
  init_headers : Headers;
  init_body : option string
}.

Definition defaultOptions : RequestInit :=
  {| init_method := None;
     init_headers := [("Accept", "application/vnd.github.v3+json");
                      ("User-Agent", "GitHubFolio")];
     init_body := None |}.

Definition no_options : RequestInit :=
  {| init_method := None; init_headers := []; init_body := None |}.

(** [mergedOptions] of [githubFetch]: what it passes to [fetch] with the
    url. *)
Definition mergedOptions (env : ProcessEnv) (options : RequestInit)
    (clientToken : option string) : RequestInit :=
  let headers := githubService.createGitHubHeaders env clientToken in
  {| init_method := match init_method options with
                    | Some m => Some m
                    | None => init_method defaultOptions
                    end;
     init_headers :=
       Obj.spread (Obj.spread (init_headers defaultOptions) (init_headers options))
                  headers;
     init_body := match init_body options with
                  | Some b => Some b
                  | None => init_body defaultOptions
                  end |}.

(** [fetchRateLimit]: [githubFetch] of the rate-limit endpoint with no
    options of its own. *)
Definition fetchRateLimit {S : Type} (answer : Request -> Response GitHubRateLimit)
    (env : ProcessEnv) (clientToken : option string) : M S GitHubRateLimit :=
  '(status, body) <-
     fetch answer
       (GET "https://api.github.com/rate_limit"
            (init_headers (mergedOptions env no_options clientToken))) ;;
  if negb (ok status)
  then throw (Error ("Failed to fetch rate limit: " ++ JS.String_of_Z status))
  else json body.

(** The route handler. *)
Inductive TokenSource := environment | client.

Record Payload := {
  payload_rate : Quota;
  payload_remaining : Z;
  payload_limit : Z;
  payload_reset : Z;
  payload_used : Z;
  hasEnvToken : bool;
  hasClientToken : bool;
  tokenSource : option TokenSource;
  payload_resources : Resources
}.

Inductive RouteResponse :=
| Json (status : Z) (payload : Payload)
| JsonError (status : Z) (error : string).

(** [clientToken] is [searchParams.get('token')].  The handler runs on
    the server, where [createGitHubHeaders] finds no [window]. *)
Definition GET_handler {S : Type} (answer : Request -> Response GitHubRateLimit)
    (env : ProcessEnv) (clientToken : option string) : M S RouteResponse :=
  try_catch
    (let hasEnvToken := JS.truthy (GITHUB_ACCESS_TOKEN env) in
     let hasPublicEnvToken := JS.truthy (NEXT_PUBLIC_GITHUB_ACCESS_TOKEN env) in
     let headers := githubToken.createGitHubHeaders env None in
     '(status, body) <-
        fetch answer (GET "https://api.github.com/rate_limit" headers) ;;
     if negb (ok status)
     then throw (Error ("GitHub API error: " ++ JS.String_of_Z status))
     else
       data <- json body ;;
       let tokenSource :=
         if 60 <? limit (rate data) then
           if hasEnvToken && (negb (JS.truthy clientToken) || negb hasPublicEnvToken)
           then Some environment
           else if JS.truthy clientToken then Some client
           else if hasPublicEnvToken then Some environment
           else None
         else None in
       ret (Json 200
              {| payload_rate := rate data;
                 payload_remaining := remaining (rate data);
                 payload_limit := limit (rate data);
                 payload_reset := reset (rate data);
                 payload_used := used (rate data);
                 hasEnvToken := hasEnvToken;
                 hasClientToken := JS.truthy clientToken;
                 tokenSource := tokenSource;
                 payload_resources := resources data |}))
    (fun _ => ret (JsonError 500 "Failed to check GitHub rate limit")).



End RateLimit.


(** ** Pinned repositories component: the two lists it can show *)

Module PinnedLists.

(** The repositories of the list that carry the pinned names, in the
    order of the pins; a name that no repository has is dropped. *)
Definition matched (repos : list Repository) (names : list string)
  : list Repository :=
  flat_map (fun pinnedItem =>
              match JS.find (fun repo => String.eqb (name repo) pinnedItem) repos with
              | Some fullRepo => [fullRepo]
              | None => []
              end) names.

(** The six best non-fork repositories by score. *)
Definition heuristic `{Host} (repos : list Repository) : list Repository :=
  firstn 6
    (filter (fun repo => negb (fork repo))
       (JS.sort (fun a b => Num.positive
                              (Num.sub (PinnedRepos.score b) (PinnedRepos.score a)))
          repos)).

(** The names the GraphQL endpoint answers with, if it does. *)
Definition pinned_names (answer : Fetch.Response (option (list string)))
  : option (list string) :=
  match answer with
  | Fetch.Http _ (Some (Some names)) => Some names
  | _ => None
  end.

End PinnedLists.


(** ** Counting in a dictionary *)

(** How many entries of [keys] equal [k]. *)
Definition occurrences (k : string) (keys : list string) : Z :=
  Z.of_nat (List.length (filter (String.eqb k) keys)).


(** Sample data for the activity graph: the first non-fork repository
    shows no owner activity, the second does, the third is never asked. *)
Module ActivitySamples.
Import Fetch ActivityGraph.

Definition quiet : Repository := pushed_repo "quiet" "2024-05-20T10:00:00Z".
Definition busy : Repository := pushed_repo "busy" "2024-05-10T10:00:00Z".
Definition later : Repository := pushed_repo "later" "2024-04-01T10:00:00Z".

Definition world_busy_second : World :=
  {| repos_of := fun _ => Http 200 (Some [quiet; busy; later]);
     participation := fun req =>
       if String.eqb (SimilarProfiles.url_of req)
            "https://api.github.com/repos/octocat/busy/stats/participation"
       then Http 200 (Some (Some [0; 3; 0; 5]))
       else Http 200 (Some (Some [0; 0; 0; 0])) |}.

Definition world_rate_limited : World :=
  {| repos_of := fun _ => Http 403 None;
     participation := fun _ => Http 403 None |}.

End ActivitySamples.


(** Sample data for the similar-profiles component. *)
Module SimilarSamples.
Import Fetch SimilarProfiles.

(** The language search cannot be reached. *)
Definition world_search_down : World :=
  {| search := fun _ => NetworkError;
     accounts := fun _ => Http 200 (Some []);
     users := fun _ => Http 404 None |}.

(** A repository with no language and no topic. *)
Definition bare_repo : Repository :=
  ProfilePage.sample_repo "notes" false 0 None "2024-05-01T10:00:00Z" None.

Definition polyglot : list Repository :=
  [ProfilePage.sample_repo "a" false 0 (Some "Go") "2024-05-01T10:00:00Z" None;
   ProfilePage.sample_repo "b" false 0 (Some "Rust") "2024-05-01T10:00:00Z" None;
   ProfilePage.sample_repo "c" false 0 None "2024-05-01T10:00:00Z" None;
   ProfilePage.sample_repo "d" false 0 (Some "Rust") "2024-05-01T10:00:00Z" None].

End SimilarSamples.


(** ** Profile page: what a pinned item becomes *)

Module PinnedEntry.
Import ProfilePage.

(** The fields a featured entry takes from the pinned item itself, and
    those it takes from the REST record of the same name when there is
    one. *)
Definition formatted (l : list Repository) (item : PinnedItem)
    (entry : Repository) : Prop :=
  id entry = IdName (pin_name item) /\
  name entry = pin_name item /\
  full_name entry = pin_owner_login item ++ "/" ++ pin_name item /\
  html_url entry = pin_url item /\
  fork entry = false /\
  stargazers_count entry = pin_stargazerCount item /\
  forks_count entry = pin_forkCount item /\
  topics entry = pin_repositoryTopics item /\
  language entry = JS.or_else (pin_primaryLanguage item) None /\
  forall repo,
    JS.find (fun repo => String.eqb (name repo) (pin_name item)) l = Some repo ->
    (created_at repo <> "" -> created_at entry = created_at repo) /\
    (updated_at repo <> "" -> updated_at entry = updated_at repo) /\
    (pushed_at repo <> "" -> pushed_at entry = pushed_at repo) /\
    homepage entry = JS.or_else (homepage repo) None.


(** The profile has no repository of its own and pins one of another
    owner. *)
Definition world_pins_only : World :=
  {| users := fun _ => Fetch.Http 200 (Some octocat);
     repos_of := fun _ => Fetch.Http 200 (Some (ReposArray []));
     graphql := fun _ => Fetch.Http 200 (Some (Some [sample_pin "elsewhere"])) |}.

End PinnedEntry.


(** ** Project detail page: the data it loads
    (app/[username]/projects/[repo]/page.tsx, continued) *)

Module ProjectDetailsPage.
Import Fetch.
Local Open Scope fetch_scope.

Record Contributor := {
  contributor_login : string;
  contributor_id : Z;
  contributor_avatar_url : string;
  contributor_html_url : string;
  contributions : Z
}.

(** [readme_of] answers with the [content] field of the README record. *)
Record World := {
  repo_of : Request -> Response Repository;
  readme_of : Request -> Response string;
  contributors_of : Request -> Response (list Contributor);
  languages_of : Request -> Response ProjectDetails.Languages
}.

Record PageState := {
  repoData : option Repository;
  readme : string;
  contributors : list Contributor;
  languages : ProjectDetails.Languages;
  loading : bool;
  error : string
}.

Definition initial : PageState :=
  {| repoData := None; readme := ""; contributors := []; languages := [];
     loading := true; error := "" |}.

Definition setRepoData (d : option Repository) : M PageState unit :=
  set (fun s => {| repoData := d; readme := readme s; contributors := contributors s;
                   languages := languages s; loading := loading s; error := error s |}).
Definition setReadme (t : string) : M PageState unit :=
  set (fun s => {| repoData := repoData s; readme := t; contributors := contributors s;
                   languages := languages s; loading := loading s; error := error s |}).
Definition setContributors (l : list Contributor) : M PageState unit :=
  set (fun s => {| repoData := repoData s; readme := readme s; contributors := l;
                   languages := languages s; loading := loading s; error := error s |}).
Definition setLanguages (l : ProjectDetails.Languages) : M PageState unit :=
  set (fun s => {| repoData := repoData s; readme := readme s;
                   contributors := contributors s;
                   languages := l; loading := loading s; error := error s |}).
Definition setLoading (b : bool) : M PageState unit :=
  set (fun s => {| repoData := repoData s; readme := readme s;
                   contributors := contributors s;
                   languages := languages s; loading := b; error := error s |}).
Definition setError (e : string) : M PageState unit :=
  set (fun s => {| repoData := repoData s; readme := readme s;
                   contributors := contributors s;
                   languages := languages s; loading := loading s; error := e |}).

Section WithDecoder.

(** [new TextDecoder('utf-8').decode] of the bytes of
    [atob(content.replace(/\s/g, ''))]; [None] when [atob] throws. *)
Variable decode_base64_utf8 : string -> option string.

Definition fetchRepoData (w : World) (env : ProcessEnv) (storage : option string)
    (username repoName : string) : M PageState unit :=
  if String.eqb username "" || String.eqb repoName "" then ret tt
  else
    setLoading true ;;
    setError "" ;;
    finally
      (try_catch
         (let headers := githubToken.createGitHubHeaders env (Some storage) in
          '(status, body) <-
             fetch (repo_of w)
               (GET ("https://api.github.com/repos/" ++ username ++ "/" ++ repoName)
                    headers) ;;
          if negb (ok status)
          then throw (Error ("Repository not found (" ++ JS.String_of_Z status ++ ")"))
          else
            repoData <- json body ;;
            setRepoData (Some repoData) ;;
            try_catch
              ('(status, body) <-
                 fetch (readme_of w)
                   (GET ("https://api.github.com/repos/" ++ username ++ "/" ++ repoName
                           ++ "/readme") headers) ;;
               if ok status then
                 content <- json body ;;
                 match decode_base64_utf8 content with
                 | Some decodedContent => setReadme decodedContent
                 | None => throw (Error "Invalid character")
                 end
               else ret tt)
              (fun _ => ret tt) ;;
            try_catch
              ('(status, body) <-
                 fetch (contributors_of w)
                   (GET ("https://api.github.com/repos/" ++ username ++ "/" ++ repoName
                           ++ "/contributors?per_page=10") headers) ;;
               if ok status then
                 contributorsData <- json body ;;
                 setContributors contributorsData
               else ret tt)
              (fun _ => ret tt) ;;
            try_catch
              ('(status, body) <-
                 fetch (languages_of w)
                   (GET ("https://api.github.com/repos/" ++ username ++ "/" ++ repoName
                           ++ "/languages") headers) ;;
               if ok status then
                 languagesData <- json body ;;
                 setLanguages languagesData
               else ret tt)
              (fun _ => ret tt))
         (fun error =>
            setError ("Error: " ++ message error) ;;
            setRepoData None))
      (setLoading false).

Definition pageView (w : World) (env : ProcessEnv) (storage : option string)
    (username repoName : string) : Run PageState :=
  snd (fetchRepoData w env storage username repoName (start initial)).

End WithDecoder.

(** [transformImageUri]: where an image of the README is loaded from. *)
Definition transformImageUri (username repoName : string)
    (repoData : option Repository) (src : string) : string :=
  if String.prefix "http" src then src
  else
    let repoBaseUrl :=
      "https://raw.githubusercontent.com/" ++ username ++ "/" ++ repoName ++ "/"
        ++ match repoData with
           | Some repo => if String.eqb (default_branch repo) "" then "main"
                          else default_branch repo
           | None => "main"
           end in
    let cleanSrc :=
      if String.prefix "/" src then JS.slice_from 1 src else src in
    repoBaseUrl ++ "/" ++ cleanSrc.

(** What a section of the page holds once its own request is answered:
    the body of a 2xx answer as [use] reads it, and [default], the
    initial value, for any other answer or a body that cannot be used. *)
Definition section_of {A B : Type} (use : A -> option B) (answer : Response A)
    (default : B) : B :=
  match answer with
  | Http status (Some a) =>
      if ok status then
        match use a with
        | Some b => b
        | None => default
        end
      else default
  | _ => default
  end.

Definition repo_request (env : ProcessEnv) (storage : option string)
    (username repoName : string) : Request :=
  GET ("https://api.github.com/repos/" ++ username ++ "/" ++ repoName)
      (githubToken.createGitHubHeaders env (Some storage)).
Definition readme_request (env : ProcessEnv) (storage : option string)
    (username repoName : string) : Request :=
  GET ("https://api.github.com/repos/" ++ username ++ "/" ++ repoName ++ "/readme")
      (githubToken.createGitHubHeaders env (Some storage)).
Definition contributors_request (env : ProcessEnv) (storage : option string)
    (username repoName : string) : Request :=
  GET ("https://api.github.com/repos/" ++ username ++ "/" ++ repoName
         ++ "/contributors?per_page=10")
      (githubToken.createGitHubHeaders env (Some storage)).
Definition languages_request (env : ProcessEnv) (storage : option string)
    (username repoName : string) : Request :=
  GET ("https://api.github.com/repos/" ++ username ++ "/" ++ repoName ++ "/languages")
      (githubToken.createGitHubHeaders env (Some storage)).

(** Sample data: a decoder that knows one README, a repository whose
    README cannot be reached and whose contributors are refused. *)
Definition sample_decoder (content : string) : option string :=
  if String.eqb content "IyBjbGk=" then Some "# cli" else None.

Definition world_partial : World :=
  {| repo_of := fun _ => Http 200 (Some SimilarProfiles.rust_cli);
     readme_of := fun _ => NetworkError;
     contributors_of := fun _ => Http 403 None;
     languages_of := fun _ => Http 200 (Some [("Rust", 900%N); ("Shell", 100%N)]) |}.

Definition world_no_languages : World :=
  {| repo_of := fun _ => Http 200 (Some SimilarProfiles.rust_cli);
     readme_of := fun _ => Http 200 (Some "IyBjbGk=");
     contributors_of := fun _ => Http 200 (Some []);
     languages_of := fun _ => Http 403 None |}.

Definition world_no_repo : World :=
  {| repo_of := fun _ => Http 404 None;
     readme_of := fun _ => Http 200 (Some "IyBjbGk=");
     contributors_of := fun _ => Http 200 (Some []);
     languages_of := fun _ => Http 200 (Some []) |}.

End ProjectDetailsPage.


(** ** components/CommitHistory.tsx *)

Module CommitHistory.
Import Fetch.
Local Open Scope fetch_scope.

Record Author := {
  author_login : string;
  author_avatar_url : string
}.

(** An entry of the commit list of the REST API, with the fields the
    component's [Commit] interface declares: [commit.message],
    [commit.author.name], [commit.author.date] and the nullable
    [author]. *)
Record ApiCommit := {
  api_sha : string;
  api_html_url : string;
  api_message : string;
  api_author_name : string;
  api_author_date : string;
  api_author : option Author
}.

Record Commit := {
  sha : string;
  commit_html_url : string;
  commit_message : string;
  commit_author_name : string;
  commit_author_date : string;
  author : option Author;
  repository : string;
  repo_url : string
}.

Record World := {
  commits_of : Request -> Response (list ApiCommit)
}.

Record State := {
  commits : list Commit;
  loading : bool;
  error : string
}.

Definition initial : State := {| commits := []; loading := true; error := "" |}.

Definition setCommits (l : list Commit) : M State unit :=
  set (fun s => {| commits := l; loading := loading s; error := error s |}).
Definition setLoading (b : bool) : M State unit :=
  set (fun s => {| commits := commits s; loading := b; error := error s |}).
Definition setError (e : string) : M State unit :=
  set (fun s => {| commits := commits s; loading := loading s; error := e |}).

(** [repo.id.toString()] *)
Definition id_toString (i : RepoId) : string :=
  match i with
  | IdNumber n => JS.String_of_Z n
  | IdName s => s
  end.

(** An entry of [fallbackCommits] *)
Definition fallbackCommit (username : string) (repo : Repository) : Commit :=
  {| sha := id_toString (id repo);
     commit_html_url := html_url repo;
     commit_message := "Repository created: " ++ name repo;
     commit_author_name := username;
     commit_author_date := created_at repo;
     author := None;
     repository := name repo;
     repo_url := html_url repo |}.

(** [commit.author?.login === username ||
     commit.commit?.author?.name === username] *)
Definition isUserCommit (username : string) (commit : ApiCommit) : bool :=
  match api_author commit with
  | Some a => String.eqb (author_login a) username
  | None => false
  end
  || String.eqb (api_author_name commit) username.

(** [{ ...commit, repository: repo.name, repo_url: repo.html_url }] *)
Definition withRepository (repo : Repository) (commit : ApiCommit) : Commit :=
  {| sha := api_sha commit;
     commit_html_url := api_html_url commit;
     commit_message := api_message commit;
     commit_author_name := api_author_name commit;
     commit_author_date := api_author_date commit;
     author := api_author commit;
     repository := name repo;
     repo_url := html_url repo |}.

(** The callback of [topRepos.map] *)
Definition fetchRepoCommits (w : World) (headers : Headers) (username : string)
    (repo : Repository) : M State (list Commit) :=
  try_catch
    ('(status, body) <-
       fetch (commits_of w)
         (GET ("https://api.github.com/repos/" ++ full_name repo
                 ++ "/commits?per_page=5") headers) ;;
     if negb (ok status) then ret []
     else
       data <- json body ;;
       let userCommits := filter (isUserCommit username) data in
       ret (map (withRepository repo) userCommits))
    (fun _ => ret []).

Section WithHost.
Context `{Host}.

Definition topRepos (repos : list Repository) : list Repository :=
  firstn 3
    (JS.sort (fun a b => 0 <? Date_getTime (pushed_at b) - Date_getTime (pushed_at a))
       repos).

Definition fetchCommits (w : World) (env : ProcessEnv) (storage : option string)
    (repos : list Repository) (username : string) : M State unit :=
  setLoading true ;;
  setError "" ;;
  finally
    (try_catch
       (if Nat.eqb (List.length repos) 0 then
          setCommits [] ;;
          setLoading false
        else
          let headers := githubToken.createGitHubHeaders env (Some storage) in
          let fallbackCommits := map (fallbackCommit username) (firstn 5 repos) in
          commitsArrays <- mapM (fetchRepoCommits w headers username) (topRepos repos) ;;
          let allCommits :=
            JS.sort (fun a b => 0 <? Date_getTime (commit_author_date b)
                                     - Date_getTime (commit_author_date a))
              (List.concat commitsArrays) in
          if (0 <? Z.of_nat (List.length allCommits))
          then setCommits (firstn 10 allCommits)
          else setCommits fallbackCommits)
       (fun _ => setError "Failed to load commit history"))
    (setLoading false).

(** The effect of the component *)
Definition component (w : World) (env : ProcessEnv) (storage : option string)
    (repos : list Repository) (username : string) : M State unit :=
  if (0 <? Z.of_nat (List.length repos))
  then fetchCommits w env storage repos username
  else setLoading false.

Definition history (w : World) (env : ProcessEnv) (storage : option string)
    (repos : list Repository) (username : string) : Run State :=
  snd (component w env storage repos username (start initial)).

End WithHost.

(** The request for the commits of one repository, and the commits of
    the user its answer carries. *)
Definition commits_request (env : ProcessEnv) (storage : option string)
    (repo : Repository) : Request :=
  GET ("https://api.github.com/repos/" ++ full_name repo ++ "/commits?per_page=5")
      (githubToken.createGitHubHeaders env (Some storage)).

Definition found (w : World) (env : ProcessEnv) (storage : option string)
    (username : string) (repo : Repository) : list Commit :=
  match commits_of w (commits_request env storage repo) with
  | Http status (Some data) =>
      if ok status
      then map (withRepository repo) (filter (isUserCommit username) data)
      else []
  | _ => []
  end.






End CommitHistory.


(** ** app/[username]/projects/page.tsx *)

Module ProjectsPage.
Import Fetch.
Local Open Scope fetch_scope.

Record World := {
  repos_of : Request -> Response (list Repository)
}.

Record PageState := {
  repos : list Repository;
  loading : bool;
  error : string
}.

Definition initial : PageState := {| repos := []; loading := true; error := "" |}.

Definition setRepos (l : list Repository) : M PageState unit :=
  set (fun s => {| repos := l; loading := loading s; error := error s |}).
Definition setLoading (b : bool) : M PageState unit :=
  set (fun s => {| repos := repos s; loading := b; error := error s |}).
Definition setError (e : string) : M PageState unit :=
  set (fun s => {| repos := repos s; loading := loading s; error := e |}).

Definition fetchRepos (w : World) (env : ProcessEnv) (storage : option string)
    (username : string) : M PageState unit :=
  if String.eqb username "" then ret tt
  else
    setLoading true ;;
    setError "" ;;
    finally
      (try_catch
         (let headers := githubToken.createGitHubHeaders env (Some storage) in
          '(status, body) <-
             fetch (repos_of w)
               (GET ("https://api.github.com/users/" ++ username
                       ++ "/repos?per_page=100&sort=pushed") headers) ;;
          if negb (ok status)
          then throw (Error ("Failed to fetch repositories: "
                               ++ JS.String_of_Z status))
          else
            reposData <- json body ;;
            setRepos reposData)
         (fun error =>
            setError ("Error: " ++ message error) ;;
            setRepos []))
      (setLoading false).

Definition loaded (w : World) (env : ProcessEnv) (storage : option string)
    (username : string) : Run PageState :=
  snd (fetchRepos w env storage username (start initial)).

Definition repos_request (env : ProcessEnv) (storage : option string)
    (username : string) : Request :=
  GET ("https://api.github.com/users/" ++ username
         ++ "/repos?per_page=100&sort=pushed")
      (githubToken.createGitHubHeaders env (Some storage)).

Inductive Filter := all | forked | source.
Inductive SortBy := stars | updated | by_name.

(** [s.includes(q)] *)
Fixpoint includes (s q : string) : bool :=
  String.prefix q s
  || match s with
     | EmptyString => false
     | String _ s' => includes s' q
     end.

Section FilterAndSort.
Context `{Host}.

(** [String.prototype.toLowerCase] and [String.prototype.localeCompare]
    are the engine's (Unicode case mapping, the collation of the host's
    locale). *)
Variable toLowerCase : string -> string.
Variable localeCompare : string -> string -> Z.

(** The filter-and-sort effect: the value it passes to
    [setFilteredRepos]. *)
Definition filteredRepos (repos : list Repository) (filter : Filter)
    (sortBy : SortBy) (searchQuery : string) : list Repository :=
  let result := repos in
  let result :=
    match filter with
    | forked => List.filter (fun repo => fork repo) result
    | source => List.filter (fun repo => negb (fork repo)) result
    | all => result
    end in
  let result :=
    if negb (String.eqb searchQuery "") then
      let query := toLowerCase searchQuery in
      List.filter
        (fun repo =>
           includes (toLowerCase (name repo)) query
           || match description repo with
              | Some d => negb (String.eqb d "") && includes (toLowerCase d) query
              | None => false
              end)
        result
    else result in
  match sortBy with
  | stars =>
      JS.sort (fun a b => 0 <? stargazers_count b - stargazers_count a) result
  | updated =>
      JS.sort (fun a b => 0 <? Date_getTime (updated_at b) - Date_getTime (updated_at a))
        result
  | by_name =>
      JS.sort (fun a b => 0 <? localeCompare (name a) (name b)) result
  end.

End FilterAndSort.

(** Sample data *)
Definition world_refused : World := {| repos_of := fun _ => Http 403 None |}.

Definition forked_repo : Repository :=
  ProfilePage.sample_repo "forked" true 9 (Some "Go") "2022-02-02T00:00:00Z" None.

Fixpoint ascii_lower (s : string) : string :=
  match s with
  | EmptyString => EmptyString
  | String c rest =>
      let n := N_of_ascii c in
      String (if (65 <=? n)%N && (n <=? 90)%N then ascii_of_N (n + 32) else c)
        (ascii_lower rest)
  end.

Definition ordinal_compare (a b : string) : Z :=
  match String.compare a b with
  | Lt => -1
  | Eq => 0
  | Gt => 1
  end.

End ProjectsPage.


(** ** Similar profiles: when the discovery does not throw *)

Module SimilarAnswers.
Import Fetch SimilarProfiles.

(** [await fetch(...)] resolves and, when the status is 2xx, so does
    [await response.json()]: reading this answer throws nothing. *)
Definition answered {A : Type} (answer : Response A) : bool :=
  match answer with
  | NetworkError => false
  | Http status body =>
      negb (ok status)
      || match body with
         | Some _ => true
         | None => false
         end
  end.

Definition language_search (headers : Headers) (lang : string) : Request :=
  GET ("https://api.github.com/search/repositories?q=language:" ++ lang
         ++ "+stars:>10&sort=stars&per_page=5") headers.

Definition topic_search (headers : Headers) (userTopics : list string) : Request :=
  GET ("https://api.github.com/search/repositories?q=topic:"
         ++ String.concat "+" (firstn 3 userTopics)
         ++ "+stars:>5&sort=stars&per_page=5") headers.

Definition followers_request (headers : Headers) (user : GitHubUser) : Request :=
  GET ("https://api.github.com/users/" ++ login user ++ "/followers?per_page=5")
      headers.

(** The three requests that are made outside an inner [try]: each is
    either not made or answered. *)
Definition language_answered (w : World) (headers : Headers)
    (primaryLanguage : option string) : bool :=
  match primaryLanguage with
  | Some lang =>
      if JS.truthy primaryLanguage
      then answered (search w (language_search headers lang))
      else true
  | None => true
  end.

Definition topics_answered (w : World) (headers : Headers)
    (userTopics : list string) : bool :=
  if 0 <? Z.of_nat (List.length userTopics)
  then answered (search w (topic_search headers userTopics))
  else true.

Definition followers_answered (w : World) (headers : Headers) (user : GitHubUser)
  : bool :=
  if 0 <? followers user
  then answered (accounts w (followers_request headers user))
  else true.

Definition discovery_answered (w : World) (headers : Headers) (user : GitHubUser)
    (repos : list Repository) : bool :=
  language_answered w headers (primaryLanguage_of repos)
  && topics_answered w headers (userTopics_of repos)
  && followers_answered w headers user.

End SimilarAnswers.

(* ================================================================== *)
(** * Part II: properties *)
(* ================================================================== *)

(** ** The built-ins on small inputs *)

Example Math_round_half_up :
  map Num.Math_round
      [Num.div (Num.of_Z 1) (Num.of_Z 2); Num.div (Num.of_Z 5) (Num.of_Z 2);
       Num.div (Num.of_Z (-5)) (Num.of_Z 2); Num.div (Num.of_Z 100) (Num.of_Z 3);
       Num.div (Num.of_Z (-2)) (Num.of_Z 5)]
  = [Num.of_Z 1; Num.of_Z 3; Num.of_Z (-2); Num.of_Z 33; S754_zero true].
Proof. vm_compute. reflexivity. Qed.

Example Math_round_keeps_non_numbers :
  map Num.Math_round [S754_nan; S754_infinity false; S754_infinity true]
  = [S754_nan; S754_infinity false; S754_infinity true].
Proof. reflexivity. Qed.

Example sort_is_stable :
  JS.sort (fun a b => 0 <? snd b - snd a)
          [("a", 1); ("b", 3); ("c", 1); ("d", 3); ("e", 2)]
  = [("b", 3); ("d", 3); ("e", 2); ("a", 1); ("c", 1)].
Proof. reflexivity. Qed.

Example split_on_dash :
  JS.split_on "-" "2024-05" = ["2024"; "05"]
  /\ JS.split_on "-" "-1-05" = [""; "1"; "05"]
  /\ JS.split_on "-" "" = [""].
Proof. repeat split. Qed.

Example padStart2_month :
  map JS.padStart2 ["5"; "12"; ""] = ["05"; "12"; "00"].
Proof. reflexivity. Qed.

Example set_add_keeps_first :
  fold_left JS.set_add ["Go"; "Rust"; "Go"; "C"; "Rust"] [] = ["Go"; "Rust"; "C"].
Proof. reflexivity. Qed.

Example UTC_getTime_epoch :
  UTC.getTime "1970-01-01T00:00:00Z" = 0
  /\ UTC.getTime "2024-05-01T10:00:00Z" = 1714557600000.
Proof. repeat split. Qed.

Example UTC_a_week_before_june :
  UTC.now_minus_days 0 7 = (4, 25) /\ UTC.now_minus_days 0 0 = (5, 1).
Proof. repeat split. Qed.

(** ** Credential resolution *)

Section CredentialFacts.
Variable env : ProcessEnv.

Lemma truthy_or_else_None (t : option string) :
  JS.truthy t = false -> JS.or_else t None = None.
Proof.
  unfold JS.or_else. intros H. now rewrite H.
Qed.

Lemma truthy_or_else_Some (t u : option string) :
  JS.truthy t = true -> JS.or_else t u = t.
Proof.
  unfold JS.or_else. intros H. now rewrite H.
Qed.

End CredentialFacts.

(** C4 (amended). The credential resolver [getGitHubToken] of
    lib/githubService.ts is a function of the server configuration and
    the caller-supplied token only: a present (non-empty) server token is
    returned whatever the caller supplied; with no server token a present
    caller token is returned; with neither the result is absent ([null]).
    The helper of the same name in lib/githubToken.ts, the one the pages
    and the route call, follows this rule only on the server, where it is
    the resolver with no caller token.  In the browser it never reads the
    server token: a present token of the public environment is returned,
    and otherwise the stored token is handed back as it is, [null] when
    nothing is stored and the empty string when that is what is stored. *)
Theorem getGitHubToken_priority (env : ProcessEnv) (clientToken : option string) :
  (JS.truthy (GITHUB_ACCESS_TOKEN env) = true ->
   githubService.getGitHubToken env clientToken = GITHUB_ACCESS_TOKEN env) /\
  (JS.truthy (GITHUB_ACCESS_TOKEN env) = false ->
   JS.truthy clientToken = true ->
   githubService.getGitHubToken env clientToken = clientToken) /\
  (JS.truthy (GITHUB_ACCESS_TOKEN env) = false ->
   JS.truthy clientToken = false ->
   githubService.getGitHubToken env clientToken = None) /\
  githubToken.getGitHubToken env None = githubService.getGitHubToken env None /\
  (JS.truthy (NEXT_PUBLIC_GITHUB_ACCESS_TOKEN env) = true ->
   githubToken.getGitHubToken env (Some clientToken)
     = NEXT_PUBLIC_GITHUB_ACCESS_TOKEN env) /\
  (JS.truthy (NEXT_PUBLIC_GITHUB_ACCESS_TOKEN env) = false ->
   githubToken.getGitHubToken env (Some clientToken) = clientToken).
Proof.
  unfold githubService.getGitHubToken, githubToken.getGitHubToken.
  split; [| split; [| split; [| split; [| split]]]].
  - intros Hs. now rewrite Hs.
  - intros Hs Hc. rewrite Hs. now apply truthy_or_else_Some.
  - intros Hs Hc. rewrite Hs. now apply truthy_or_else_None.
  - unfold JS.or_else.
    destruct (JS.truthy (GITHUB_ACCESS_TOKEN env)); reflexivity.
  - intros Hp. now rewrite Hp.
  - intros Hp. now rewrite Hp.
Qed.

Lemma getGitHubToken_priority_witness :
  githubService.getGitHubToken
    {| GITHUB_ACCESS_TOKEN := Some "srv"; NEXT_PUBLIC_GITHUB_ACCESS_TOKEN := None |}
    (Some "cli") = Some "srv" /\
  githubService.getGitHubToken
    {| GITHUB_ACCESS_TOKEN := None; NEXT_PUBLIC_GITHUB_ACCESS_TOKEN := None |}
    (Some "cli") = Some "cli" /\
  githubService.getGitHubToken
    {| GITHUB_ACCESS_TOKEN := None; NEXT_PUBLIC_GITHUB_ACCESS_TOKEN := None |}
    None = None /\
  githubToken.getGitHubToken
    {| GITHUB_ACCESS_TOKEN := None; NEXT_PUBLIC_GITHUB_ACCESS_TOKEN := Some "pub" |}
    (Some (Some "cli")) = Some "pub" /\
  githubToken.getGitHubToken
    {| GITHUB_ACCESS_TOKEN := None; NEXT_PUBLIC_GITHUB_ACCESS_TOKEN := None |}
    (Some (Some "cli")) = Some "cli".
Proof.
  split; [| split; [| split; [| split]]].
  - destruct (getGitHubToken_priority
                {| GITHUB_ACCESS_TOKEN := Some "srv";
                   NEXT_PUBLIC_GITHUB_ACCESS_TOKEN := None |} (Some "cli"))
      as (Hserver & _).
    apply Hserver. reflexivity.
  - destruct (getGitHubToken_priority
                {| GITHUB_ACCESS_TOKEN := None;
                   NEXT_PUBLIC_GITHUB_ACCESS_TOKEN := None |} (Some "cli"))
      as (_ & Hclient & _).
    apply Hclient; reflexivity.
  - destruct (getGitHubToken_priority
                {| GITHUB_ACCESS_TOKEN := None;
                   NEXT_PUBLIC_GITHUB_ACCESS_TOKEN := None |} None)
      as (_ & _ & Hneither & _).
    apply Hneither; reflexivity.
  - destruct (getGitHubToken_priority
                {| GITHUB_ACCESS_TOKEN := None;
                   NEXT_PUBLIC_GITHUB_ACCESS_TOKEN := Some "pub" |} (Some "cli"))
      as (_ & _ & _ & _ & Hpublic & _).
    apply Hpublic. reflexivity.
  - destruct (getGitHubToken_priority
                {| GITHUB_ACCESS_TOKEN := None;
                   NEXT_PUBLIC_GITHUB_ACCESS_TOKEN := None |} (Some "cli"))
      as (_ & _ & _ & _ & _ & Hstored).
    apply Hstored. reflexivity.
Defined.

(** C4, as stated, fails for the helper of lib/githubToken.ts in the
    browser: with a server token configured and a token stored, the
    stored one is returned, not the server's; and with no token present
    anywhere but an empty string stored, the result is that empty string,
    not [null]. *)
Lemma browser_helper_returns_stored_token :
  githubToken.getGitHubToken
    {| GITHUB_ACCESS_TOKEN := Some "srv"; NEXT_PUBLIC_GITHUB_ACCESS_TOKEN := None |}
    (Some (Some "cli")) = Some "cli" /\
  githubService.getGitHubToken
    {| GITHUB_ACCESS_TOKEN := Some "srv"; NEXT_PUBLIC_GITHUB_ACCESS_TOKEN := None |}
    (Some "cli") = Some "srv" /\
  JS.truthy (Some "") = false /\
  githubToken.getGitHubToken
    {| GITHUB_ACCESS_TOKEN := None; NEXT_PUBLIC_GITHUB_ACCESS_TOKEN := None |}
    (Some (Some "")) = Some "" /\
  githubService.getGitHubToken
    {| GITHUB_ACCESS_TOKEN := None; NEXT_PUBLIC_GITHUB_ACCESS_TOKEN := None |}
    (Some "") = None.
Proof. repeat split. Qed.

(** ** Language percentages *)

Section LanguageFacts.
Import ProjectDetails.

Lemma sum_bytes_zero_all_zero (languages : Languages) :
  ProjectDetails.sum_bytes languages = 0%N -> Forall (fun e => snd e = 0%N) languages.
Proof.
  unfold ProjectDetails.sum_bytes.
  induction languages as [| [l b] rest IH]; simpl; intros H.
  - constructor.
  - assert (b = 0%N /\ fold_right N.add 0%N (map snd rest) = 0%N) as [Hb Hr] by lia.
    constructor; [exact Hb | now apply IH].
Qed.

Lemma total_of_zeros (bs : list N) :
  Forall (fun b => b = 0%N) bs ->
  fold_left (fun sum value => Num.add sum (Num.of_N value)) bs (Num.of_Z 0)
    = S754_zero false.
Proof.
  change (Num.of_Z 0) with (S754_zero false).
  induction 1 as [| b bs Hb _ IH]; simpl.
  - reflexivity.
  - subst b. exact IH.
Qed.

Lemma calculateLanguagePercentages_length (languages : Languages) :
  List.length (calculateLanguagePercentages languages) = List.length languages.
Proof.
  unfold calculateLanguagePercentages. now rewrite length_map.
Qed.

End LanguageFacts.

(** C8. Every language is mapped to
    [Math.round(bytes / total * 100)], keeping its name and byte count;
    byte counts 30 and 70 give the percentages 30 and 70; three equal byte
    counts give 33 each, which sum to 99, and the list is returned as
    computed, with no correction of the drift. *)
Theorem calculateLanguagePercentages_rounds :
  (forall languages : ProjectDetails.Languages,
     let total :=
       fold_left (fun sum value => Num.add sum (Num.of_N value))
                 (map snd languages) (Num.of_Z 0) in
     map (fun p => (ProjectDetails.language p, ProjectDetails.bytes p,
                    ProjectDetails.percentage p))
         (ProjectDetails.calculateLanguagePercentages languages)
     = map (fun e =>
              (fst e, snd e,
               Num.Math_round
                 (Num.mul (Num.div (Num.of_N (snd e)) total) (Num.of_Z 100))))
           languages) /\
  map (fun p => (ProjectDetails.language p, ProjectDetails.percentage p))
      (ProjectDetails.calculateLanguagePercentages ProjectDetails.sample_30_70)
    = [("A", Num.of_Z 30); ("B", Num.of_Z 70)] /\
  map (fun p => (ProjectDetails.language p, ProjectDetails.percentage p))
      (ProjectDetails.calculateLanguagePercentages ProjectDetails.sample_thirds)
    = [("A", Num.of_Z 33); ("B", Num.of_Z 33); ("C", Num.of_Z 33)] /\
  fold_left Num.add
      (map ProjectDetails.percentage
         (ProjectDetails.calculateLanguagePercentages ProjectDetails.sample_thirds))
      (Num.of_Z 0)
    = Num.of_Z 99.
Proof.
  split; [| repeat split; vm_compute; reflexivity].
  intros languages total.
  unfold ProjectDetails.calculateLanguagePercentages.
  rewrite map_map. apply map_ext. intros [l b]. reflexivity.
Qed.

(** C10. The division by the total is unguarded: for a non-empty
    language map whose byte counts sum to zero the languages section is
    rendered (the only guard is non-emptiness of the map) and every
    computed percentage is NaN. *)
Theorem zero_total_percentages_are_NaN (languages : ProjectDetails.Languages) :
  languages <> [] ->
  ProjectDetails.sum_bytes languages = 0%N ->
  ProjectDetails.languagesSection languages
    = Some (ProjectDetails.calculateLanguagePercentages languages) /\
  List.length (ProjectDetails.calculateLanguagePercentages languages)
    = List.length languages /\
  Forall (fun p => ProjectDetails.percentage p = S754_nan)
         (ProjectDetails.calculateLanguagePercentages languages).
Proof.
  intros Hne Hsum. split; [| split].
  - unfold ProjectDetails.languagesSection.
    destruct languages as [| e rest]; [contradiction |].
    reflexivity.
  - apply calculateLanguagePercentages_length.
  - pose proof (sum_bytes_zero_all_zero _ Hsum) as Hz.
    unfold ProjectDetails.calculateLanguagePercentages.
    rewrite total_of_zeros.
    + apply Forall_map. eapply Forall_impl; [| exact Hz].
      intros [l b] Hb. simpl in Hb. subst b. reflexivity.
    + apply Forall_map. exact Hz.
Qed.

Lemma zero_total_percentages_are_NaN_witness :
  ProjectDetails.languagesSection [("Text", 0%N); ("Markdown", 0%N)]
    = Some (ProjectDetails.calculateLanguagePercentages
              [("Text", 0%N); ("Markdown", 0%N)]) /\
  List.length (ProjectDetails.calculateLanguagePercentages
                 [("Text", 0%N); ("Markdown", 0%N)]) = 2%nat /\
  Forall (fun p => ProjectDetails.percentage p = S754_nan)
         (ProjectDetails.calculateLanguagePercentages
            [("Text", 0%N); ("Markdown", 0%N)]).
Proof.
  apply (zero_total_percentages_are_NaN [("Text", 0%N); ("Markdown", 0%N)]).
  - discriminate.
  - reflexivity.
Defined.

(** ** Sorting and sets *)

Section SortFacts.
Context {A : Type}.

Lemma sort_insert_perm (gt : A -> A -> bool) (x : A) (l : list A) :
  Permutation (JS.sort_insert gt x l) (x :: l).
Proof.
  induction l as [| y l IH]; simpl.
  - apply Permutation_refl.
  - destruct (gt x y).
    + eapply perm_trans; [apply perm_skip, IH | apply perm_swap].
    + apply Permutation_refl.
Qed.

Lemma sort_perm (gt : A -> A -> bool) (l : list A) :
  Permutation (JS.sort gt l) l.
Proof.
  induction l as [| x l IH]; simpl.
  - constructor.
  - eapply perm_trans; [apply sort_insert_perm | now apply perm_skip].
Qed.

Lemma sort_length (gt : A -> A -> bool) (l : list A) :
  List.length (JS.sort gt l) = List.length l.
Proof. apply Permutation_length, sort_perm. Qed.

(** Comparators of the form [(a, b) => key(b) - key(a)]. *)
Variable key : A -> Z.
Let desc (a b : A) : bool := 0 <? key b - key a.
Let ge_key (a b : A) : Prop := key b <= key a.

Lemma sort_insert_desc_sorted (x : A) (l : list A) :
  StronglySorted ge_key l -> StronglySorted ge_key (JS.sort_insert desc x l).
Proof.
  induction 1 as [| y l Hs IH Hy]; simpl.
  - repeat constructor.
  - unfold desc at 1. destruct (Z.ltb_spec 0 (key y - key x)) as [Hlt | Hge].
    + constructor; [exact IH |].
      eapply Permutation_Forall; [symmetry; apply sort_insert_perm |].
      constructor; [unfold ge_key; lia | exact Hy].
    + constructor; [now constructor |].
      constructor; [unfold ge_key; lia |].
      eapply Forall_impl; [| exact Hy]. unfold ge_key. intros a Ha. lia.
Qed.

Lemma sort_desc_sorted (l : list A) :
  StronglySorted ge_key (JS.sort desc l).
Proof.
  induction l as [| x l IH]; simpl.
  - constructor.
  - now apply sort_insert_desc_sorted.
Qed.

Lemma sort_insert_desc_stable (k : Z) (x : A) (l : list A) :
  filter (fun a => key a =? k) (JS.sort_insert desc x l)
  = filter (fun a => key a =? k) (x :: l).
Proof.
  induction l as [| y l IH]; simpl.
  - reflexivity.
  - unfold desc at 1. destruct (Z.ltb_spec 0 (key y - key x)) as [Hlt | Hge].
    + simpl. rewrite IH. simpl.
      destruct (Z.eqb_spec (key x) k), (Z.eqb_spec (key y) k);
        try reflexivity; lia.
    + reflexivity.
Qed.

(** Entries with equal keys keep their upstream order. *)
Lemma sort_desc_stable (k : Z) (l : list A) :
  filter (fun a => key a =? k) (JS.sort desc l)
  = filter (fun a => key a =? k) l.
Proof.
  induction l as [| x l IH]; simpl.
  - reflexivity.
  - rewrite sort_insert_desc_stable. simpl. now rewrite IH.
Qed.

End SortFacts.

Section SetFacts.

Lemma filter_both {A : Type} (p q : A -> bool) (l : list A) :
  filter p (filter q l) = filter (fun x => q x && p x) l.
Proof.
  induction l as [| x l IH]; simpl.
  - reflexivity.
  - destruct (q x); simpl; [destruct (p x) |]; now rewrite IH.
Qed.

Lemma filter_first_by {A : Type} (key : A -> string) (q : string -> bool)
    (l : list A) :
  first_by key (filter (fun a => q (key a)) l)
  = filter (fun a => q (key a)) (first_by key l).
Proof.
  induction l as [| x l IH]; simpl.
  - reflexivity.
  - destruct (q (key x)) eqn:Qx; simpl.
    + rewrite IH. f_equal. rewrite !filter_both.
      apply filter_ext. intros y. apply andb_comm.
    + rewrite IH, filter_both. apply filter_ext. intros y.
      destruct (String.eqb_spec (key x) (key y)) as [E | Hne]; simpl.
      * now rewrite <- E, Qx.
      * reflexivity.
Qed.

Lemma first_by_In {A : Type} (key : A -> string) (x : A) (l : list A) :
  In x (first_by key l) -> In x l.
Proof.
  induction l as [| y l IH]; simpl.
  - tauto.
  - rewrite filter_In. intros [E | [Hin _]]; [now left | right; now apply IH].
Qed.

Lemma first_by_key_In {A : Type} (key : A -> string) (x : A) (l : list A) :
  In x l -> In (key x) (map key (first_by key l)).
Proof.
  induction l as [| y l IH]; simpl.
  - tauto.
  - intros [-> | Hin]; [now left |].
    destruct (String.eqb_spec (key y) (key x)) as [E | Hne]; [now left | right].
    specialize (IH Hin). apply in_map_iff in IH. destruct IH as (z & Ez & Hz).
    apply in_map_iff. exists z. split; [exact Ez |].
    apply filter_In. split; [exact Hz |].
    rewrite <- Ez in Hne. now destruct (String.eqb_spec (key y) (key z)).
Qed.

Lemma first_by_NoDup {A : Type} (key : A -> string) (l : list A) :
  NoDup (map key (first_by key l)).
Proof.
  induction l as [| x l IH]; simpl.
  - constructor.
  - constructor.
    + rewrite in_map_iff. intros (y & Ey & Hy).
      apply filter_In in Hy. destruct Hy as [_ Hy].
      now rewrite Ey, String.eqb_refl in Hy.
    + clear -IH. induction (first_by key l) as [| y d IHd]; simpl.
      * constructor.
      * inversion IH; subst.
        destruct (negb (String.eqb (key x) (key y))); simpl; [| now apply IHd].
        constructor; [| now apply IHd].
        rewrite in_map_iff. intros (z & Ez & Hz).
        apply filter_In in Hz. destruct Hz as [Hz _].
        match goal with Hn : ~ In _ _ |- _ => apply Hn end.
        rewrite <- Ez. now apply in_map.
Qed.

(** An entry kept by [first_by] is the first of the list with its key. *)
Lemma first_by_is_first {A : Type} (key : A -> string) (x : A) (l : list A) :
  In x (first_by key l) ->
  List.find (fun c => String.eqb (key c) (key x)) l = Some x.
Proof.
  induction l as [| y l IH]; simpl.
  - tauto.
  - rewrite filter_In. intros [-> | [Hin Hne]].
    + now rewrite String.eqb_refl.
    + destruct (String.eqb_spec (key y) (key x)) as [E | _].
      * discriminate.
      * now apply IH.
Qed.

Lemma fold_set_add (l acc : list string) :
  fold_left JS.set_add l acc
  = List.app acc
      (ProfilePage.first_appearances
         (filter (fun x => negb (existsb (String.eqb x) acc)) l)).
Proof.
  unfold ProfilePage.first_appearances.
  revert acc. induction l as [| x l IH]; intros acc; simpl.
  - now rewrite app_nil_r.
  - unfold JS.set_add at 2. destruct (existsb (String.eqb x) acc) eqn:E; simpl.
    + apply IH.
    + rewrite IH, <- app_assoc. simpl. do 2 f_equal.
      rewrite <- (filter_first_by (fun x => x)
                    (fun y => negb (String.eqb x y))).
      f_equal.
      rewrite filter_both. apply filter_ext. intros y.
      rewrite existsb_app. simpl. rewrite orb_false_r, negb_orb.
      now rewrite (String.eqb_sym y x).
Qed.

Lemma first_appearances_In (x : string) (l : list string) :
  In x (ProfilePage.first_appearances l) <-> In x l.
Proof.
  unfold ProfilePage.first_appearances. split.
  - apply first_by_In.
  - intros Hin. apply (first_by_key_In (fun x => x)) in Hin.
    now rewrite map_id in Hin.
Qed.

Lemma first_appearances_NoDup (l : list string) :
  NoDup (ProfilePage.first_appearances l).
Proof.
  unfold ProfilePage.first_appearances.
  rewrite <- (map_id (first_by (fun x => x) l)). apply first_by_NoDup.
Qed.

Lemma firstn_NoDup {A : Type} (n : nat) (l : list A) :
  NoDup l -> NoDup (firstn n l).
Proof.
  intros Hl. rewrite <- (firstn_skipn n l) in Hl.
  now apply NoDup_app_remove_r in Hl.
Qed.

Lemma In_firstn_inv {A : Type} (n : nat) (x : A) (l : list A) :
  In x (firstn n l) -> In x l.
Proof.
  intros Hx. rewrite <- (firstn_skipn n l). apply in_or_app. now left.
Qed.

End SetFacts.

(** ** Profile page *)

Section ProfilePageFacts.
Import Fetch ProfilePage.
Context `{Host}.

Lemma run_eta {S : Type} (r : Run S) :
  {| state := state r; trace := trace r; ticks := ticks r + 0 |} = r.
Proof. destruct r; simpl. now rewrite Nat.add_0_r. Qed.

Lemma or_now_run (value : option string) (r : Run PageState) :
  exists (v : string) (n : nat),
    or_now value r
      = (Return v, {| state := state r; trace := trace r; ticks := ticks r + n |}) /\
    (JS.truthy value = false ->
     n = 1%nat /\ v = Date_now_toISOString (ticks r)).
Proof.
  unfold or_now, now, ret.
  destruct value as [v |].
  - destruct (JS.truthy (Some v)) eqn:T.
    + exists v, 0%nat. rewrite run_eta. split; [reflexivity | discriminate].
    + exists (Date_now_toISOString (ticks r)), 1%nat.
      rewrite Nat.add_1_r. now split.
  - exists (Date_now_toISOString (ticks r)), 1%nat.
    rewrite Nat.add_1_r. now split.
Qed.

Lemma find_none_iff (l : list Repository) (n : string) :
  JS.find (fun repo => String.eqb (name repo) n) l = None
  <-> (forall repo, In repo l -> name repo <> n).
Proof.
  unfold JS.find. split.
  - intros Hf repo Hin E.
    apply (find_none _ _ Hf) in Hin. simpl in Hin.
    rewrite E, String.eqb_refl in Hin. discriminate.
  - intros Hall. induction l as [| repo l IH]; simpl.
    + reflexivity.
    + destruct (String.eqb_spec (name repo) n) as [E | _].
      * exfalso. apply (Hall repo); [now left | exact E].
      * apply IH. intros r' Hin. apply Hall. now right.
Qed.

Lemma formatPinnedRepo_run (l : list Repository) (item : PinnedItem)
    (r : Run PageState) :
  exists (entry : Repository) (n : nat),
    formatPinnedRepo (ReposArray l) item r
      = (Return entry,
         {| state := state r; trace := trace r; ticks := ticks r + n |}) /\
    reconciled l (ticks r) (ticks r + n) item entry.
Proof.
  unfold formatPinnedRepo, reconciled, placeholder_entry.
  destruct (JS.find (fun repo => String.eqb (name repo) (pin_name item)) l)
    as [repo |] eqn:F.
  - destruct (or_now_run (option_map created_at (Some repo)) r)
      as (v1 & n1 & E1 & _).
    destruct (or_now_run (option_map updated_at (Some repo))
                {| state := state r; trace := trace r; ticks := ticks r + n1 |})
      as (v2 & n2 & E2 & _).
    destruct (or_now_run (option_map pushed_at (Some repo))
                {| state := state r; trace := trace r;
                   ticks := ticks r + n1 + n2 |})
      as (v3 & n3 & E3 & _).
    cbn [state trace ticks] in E2, E3.
    eexists. exists (n1 + n2 + n3)%nat.
    unfold bind. rewrite E1, E2, E3. unfold ret.
    rewrite !Nat.add_assoc. split; [reflexivity |].
    split; [reflexivity |].
    intros Hall. apply find_none_iff in Hall. congruence.
  - eexists. exists 3%nat. unfold bind, or_now, now, ret. cbn.
    replace (ticks r + 3)%nat with (S (S (S (ticks r)))) by lia.
    split; [reflexivity |]. cbn.
    split; [reflexivity |]. intros _.
    split; [reflexivity |].
    exists (ticks r). repeat split; try lia.
    + now rewrite Nat.add_1_r.
    + now replace (ticks r + 2)%nat with (S (S (ticks r))) by lia.
Qed.

Lemma reconciled_weaken (l : list Repository) (lo lo' hi hi' : nat)
    (item : PinnedItem) (entry : Repository) :
  (lo' <= lo)%nat -> (hi <= hi')%nat ->
  reconciled l lo hi item entry -> reconciled l lo' hi' item entry.
Proof.
  unfold reconciled, placeholder_entry.
  intros Hlo Hhi [Hn Hp]. split; [exact Hn |].
  intros Hall. destruct (Hp Hall) as (Hh & k & ? & ? & ? & ? & ?).
  split; [exact Hh |]. exists k. repeat split; try assumption; lia.
Qed.

Lemma mapM_formatPinnedRepo_run (l : list Repository) (items : list PinnedItem)
    (r : Run PageState) :
  exists (out : list Repository) (n : nat),
    mapM (formatPinnedRepo (ReposArray l)) items r
      = (Return out,
         {| state := state r; trace := trace r; ticks := ticks r + n |}) /\
    Forall2 (reconciled l (ticks r) (ticks r + n)) items out.
Proof.
  revert r. induction items as [| item items IH]; intros r.
  - exists [], 0%nat. simpl. unfold ret. rewrite run_eta. now split.
  - destruct (formatPinnedRepo_run l item r) as (entry & n1 & E1 & R1).
    destruct (IH {| state := state r; trace := trace r; ticks := ticks r + n1 |})
      as (out & n2 & E2 & R2).
    cbn [state trace ticks] in E2, R2.
    exists (entry :: out), (n1 + n2)%nat.
    cbn [mapM]. unfold bind at 1. rewrite E1. unfold bind at 1. rewrite E2.
    unfold ret. rewrite Nat.add_assoc. split; [reflexivity |].
    constructor.
    + eapply reconciled_weaken; [| | exact R1]; lia.
    + eapply Forall2_impl; [| exact R2].
      intros a b. apply reconciled_weaken; lia.
Qed.

Lemma extractSkills_languages (l : list Repository) (acc : list string) :
  fold_left (fun languages repo =>
               match language repo with
               | Some lang => if JS.truthy (language repo)
                              then JS.set_add languages lang
                              else languages
               | None => languages
               end) l acc
  = fold_left JS.set_add (languages_of l) acc.
Proof.
  revert acc. induction l as [| repo l IH]; intros acc; simpl.
  - reflexivity.
  - rewrite fold_left_app, IH. f_equal.
    destruct (language repo) as [lang |]; simpl; [| reflexivity].
    now destruct (String.eqb lang "").
Qed.

Lemma skills_of_repos (l : list Repository) :
  firstn 6
    (fold_left (fun languages repo =>
                  match language repo with
                  | Some lang => if JS.truthy (language repo)
                                 then JS.set_add languages lang
                                 else languages
                  | None => languages
                  end) l [])
  = firstn 6 (first_appearances (languages_of l)).
Proof.
  rewrite extractSkills_languages, fold_set_add. cbn [List.app].
  do 2 f_equal. induction (languages_of l) as [| x d IH]; simpl.
  - reflexivity.
  - f_equal. exact IH.
Qed.

End ProfilePageFacts.

Section ProfilePageRuns.
Import Fetch ProfilePage.
Context `{Host}.
Variables (w : World) (env : ProcessEnv) (storage : option string).
Variable username : string.
Hypothesis username_given : username <> "".

Ltac step := cbn [state trace ticks fst snd List.app negb stage1_items].

Ltac open_run :=
  unfold pageView, fetchGitHubProfile;
  destruct (String.eqb_spec username "") as [E | _]; [contradiction |];
  unfold finally, try_catch, bind, fetch, json, setLoading, setError,
    setUserData, setRepos, setPinnedRepos, extractSkills, fallbackRepos,
    setSkills, set, start, ret, throw;
  step; fold (user_request env storage username).

Lemma run_profile_fetch_refused (status : Z) (body : option GitHubUser) :
  users w (user_request env storage username) = Http status body ->
  ok status = false ->
  pageView w env storage username =
    {| state := {| userData := None; repos := ReposArray []; pinnedRepos := [];
                   loading := false;
                   error := "Error: User not found (" ++ JS.String_of_Z status ++ ")";
                   skills := [] |};
       trace := [user_request env storage username];
       ticks := 0 |}.
Proof.
  intros Hresp Hok. open_run.
  rewrite Hresp. cbn. rewrite Hok. reflexivity.
Qed.

Variables (u : GitHubUser) (l : list Repository) (st1 st2 : Z).
Hypothesis user_found :
  users w (user_request env storage username) = Http st1 (Some u).
Hypothesis user_ok : ok st1 = true.
Hypothesis repos_listed :
  repos_of w (repos_request env storage username) = Http st2 (Some (ReposArray l)).

Ltac open_successful_run :=
  open_run; rewrite user_found; step; rewrite user_ok; step;
  fold (repos_request env storage username); rewrite repos_listed; step;
  fold (graphql_request env storage username).

Local Abbreviation settled := (ProfilePage.settled env storage username u l).

Lemma run_graphql_throws :
  (graphql w (graphql_request env storage username) = NetworkError \/
   exists st3, graphql w (graphql_request env storage username) = Http st3 None) ->
  pageView w env storage username =
    settled (firstn 6 (by_stars l)) 0.
Proof.
  intros Hg. open_successful_run.
  destruct Hg as [Hg | [st3 Hg]]; rewrite Hg; step;
    rewrite skills_of_repos; reflexivity.
Qed.

Lemma run_graphql_answers (st3 : Z) (nodes : option (list PinnedItem)) :
  graphql w (graphql_request env storage username) = Http st3 (Some nodes) ->
  exists (pinned : list Repository) (n : nat),
    pageView w env storage username = settled pinned n /\
    Forall2 (reconciled l 0 n)
            (stage1_items (Http st3 (Some nodes))) pinned.
Proof.
  intros Hg. open_successful_run. rewrite Hg. step.
  match goal with
  | |- context [mapM (formatPinnedRepo (ReposArray l)) ?items ?r] =>
      destruct (mapM_formatPinnedRepo_run l items r) as (out & n & E & F);
      rewrite E
  end.
  cbn [state trace ticks] in F. step. rewrite skills_of_repos.
  exists out, n. split; [reflexivity |].
  destruct nodes; exact F.
Qed.

Lemma run_settles :
  exists (pinned : list Repository) (n : nat),
    pageView w env storage username = settled pinned n.
Proof.
  destruct (graphql w (graphql_request env storage username))
    as [| st3 [nodes |]] eqn:Hg.
  - eexists. exists 0%nat. apply run_graphql_throws. now left.
  - destruct (run_graphql_answers st3 nodes Hg) as (pinned & n & E & _).
    now exists pinned, n.
  - eexists. exists 0%nat. apply run_graphql_throws. right. now exists st3.
Qed.

(** Whatever credential is at hand, the third request of a page view is
    the GraphQL query. *)
Lemma graphql_request_always_issued :
  trace (pageView w env storage username)
  = [user_request env storage username;
     repos_request env storage username;
     graphql_request env storage username].
Proof.
  destruct run_settles as (pinned & n & E). now rewrite E.
Qed.

Lemma firstn_nil_inv {A : Type} (n : nat) (x : list A) :
  firstn (S n) x = [] -> x = [].
Proof. destruct x; [reflexivity | discriminate]. Qed.

Lemma render_settled (pinned : list Repository) (n : nat) :
  featured_of (render (state (settled pinned n)))
  = match l, pinned with
    | [], _ => []
    | _ :: _, [] => firstn 4 (by_push l)
    | _ :: _, _ :: _ => pinned
    end.
Proof.
  unfold render, ProfilePage.settled. cbn [state loading userData error repos
    pinnedRepos skills String.eqb negb].
  destruct l as [| r0 l0]; [reflexivity |].
  destruct pinned; reflexivity.
Qed.

(** C2 (amended). When the GraphQL answer decodes and carries no pinned
    item (no valid credential, or nothing pinned) the featured list is
    the non-fork repositories in descending order of push time, ties in
    upstream order, cut to the first 4; when the GraphQL request throws
    the featured list is the non-fork repositories in descending order of
    stars, cut to the first 6. *)
Theorem featured_fallbacks :
  (forall (st3 : Z) (nodes : option (list PinnedItem)),
     graphql w (graphql_request env storage username) = Http st3 (Some nodes) ->
     stage1_items (Http st3 (Some nodes)) = [] ->
     featured_of (render (state (pageView w env storage username)))
       = firstn 4 (by_push l) /\
     Permutation (by_push l) (filter (fun repo => negb (fork repo)) l) /\
     StronglySorted
       (fun a b => Date_getTime (pushed_at b) <= Date_getTime (pushed_at a))
       (by_push l) /\
     (forall t : Z,
        filter (fun a => Date_getTime (pushed_at a) =? t) (by_push l)
        = filter (fun a => Date_getTime (pushed_at a) =? t)
            (filter (fun repo => negb (fork repo)) l))) /\
  ((graphql w (graphql_request env storage username) = NetworkError \/
    exists st3, graphql w (graphql_request env storage username) = Http st3 None) ->
   featured_of (render (state (pageView w env storage username)))
     = firstn 6 (by_stars l) /\
   Permutation (by_stars l) (filter (fun repo => negb (fork repo)) l) /\
   StronglySorted (fun a b => stargazers_count b <= stargazers_count a)
     (by_stars l)).
Proof.
  split.
  - intros st3 nodes Hg Hnone.
    destruct (run_graphql_answers st3 nodes Hg) as (pinned & n & E & F).
    rewrite Hnone in F. inversion F; subst.
    rewrite E, render_settled.
    split; [| split; [| split]].
    + destruct l; reflexivity.
    + apply sort_perm.
    + apply (sort_desc_sorted (fun a => Date_getTime (pushed_at a))).
    + intros t. apply (sort_desc_stable (fun a => Date_getTime (pushed_at a))).
  - intros Hg. rewrite (run_graphql_throws Hg), render_settled.
    split; [| split].
    + destruct l as [| r0 l0] eqn:El; [reflexivity |].
      destruct (firstn 6 (by_stars (r0 :: l0))) eqn:Ef; [| reflexivity].
      apply firstn_nil_inv in Ef.
      assert (P : Permutation (by_stars (r0 :: l0))
                    (filter (fun repo => negb (fork repo)) (r0 :: l0)))
        by apply sort_perm.
      rewrite Ef in P. apply Permutation_nil in P.
      unfold by_push. rewrite P. reflexivity.
    + apply sort_perm.
    + apply (sort_desc_sorted stargazers_count).
Qed.

(** C3. When the profile request is answered with a non-2xx status
    (404 in particular) the page view ends in the "Profile Not Found"
    state with the message naming the status, and the profile request is
    the only request issued: the repository list is never asked for. *)
Theorem profile_not_found_is_fatal (status : Z) (body : option GitHubUser) :
  users w (user_request env storage username) = Http status body ->
  ok status = false ->
  render (state (pageView w env storage username)) = ProfileNotFound /\
  error (state (pageView w env storage username))
    = "Error: User not found (" ++ JS.String_of_Z status ++ ")" /\
  trace (pageView w env storage username) = [user_request env storage username].
Proof.
  intros Hresp Hok.
  rewrite (run_profile_fetch_refused status body Hresp Hok).
  repeat split.
Qed.

(** C5 (amended). For every repository list the skills are the distinct
    non-null, non-empty [language] values in order of first appearance,
    cut to the first 6: no value occurs twice, there are at most 6, each
    is the language of a repository, and an empty repository list gives
    an empty skills list with no error. *)
Theorem skills_first_six_distinct_languages :
  let final := state (pageView w env storage username) in
  error final = "" /\
  skills final = firstn 6 (first_appearances (languages_of l)) /\
  NoDup (skills final) /\
  (List.length (skills final) <= 6)%nat /\
  (forall x, In x (skills final) ->
     x <> "" /\ exists repo, In repo l /\ language repo = Some x) /\
  (l = [] -> skills final = []).
Proof.
  destruct run_settles as (pinned & n & E). rewrite E.
  cbn [state error skills ProfilePage.settled].
  split; [reflexivity |]. split; [reflexivity |].
  split; [apply firstn_NoDup, first_appearances_NoDup |].
  split; [apply firstn_le_length |].
  split.
  - intros x Hx. apply In_firstn_inv in Hx.
    apply -> first_appearances_In in Hx.
    unfold languages_of in Hx. apply in_flat_map in Hx.
    destruct Hx as (repo & Hin & Hx).
    destruct (language repo) as [lang |] eqn:El; [| contradiction].
    destruct (String.eqb_spec lang "") as [-> | Hne]; [contradiction |].
    destruct Hx as [<- | []]. split; [exact Hne |].
    exists repo. now split.
  - intros ->. reflexivity.
Qed.

Lemma Forall2_nth_error_l {A B : Type} (R : A -> B -> Prop)
    (xs : list A) (ys : list B) (i : nat) (x : A) :
  Forall2 R xs ys -> nth_error xs i = Some x ->
  exists y, nth_error ys i = Some y /\ R x y.
Proof.
  intros F. revert i. induction F as [| a b xs ys Hab F IH]; intros i Hi.
  - destruct i; discriminate.
  - destruct i as [| i]; simpl in *.
    + injection Hi as ->. now exists b.
    + now apply IH.
Qed.

(** C6. When the GraphQL answer lists pinned items, the reconciliation
    succeeds (no error, one featured entry per pinned item, in order),
    and an item whose name is the name of no REST repository gets an
    entry with that name, no homepage, and readings of the clock taken
    during the run as its three timestamps. *)
Theorem unmatched_pin_gets_placeholders (st3 : Z) (nodes : list PinnedItem) :
  graphql w (graphql_request env storage username)
    = Http st3 (Some (Some nodes)) ->
  let final := pageView w env storage username in
  error (state final) = "" /\
  List.length (pinnedRepos (state final)) = List.length nodes /\
  forall (i : nat) (item : PinnedItem),
    nth_error nodes i = Some item ->
    (forall repo, In repo l -> name repo <> pin_name item) ->
    exists entry,
      nth_error (pinnedRepos (state final)) i = Some entry /\
      name entry = pin_name item /\
      placeholder_entry 0 (ticks final) entry.
Proof.
  intros Hg.
  destruct (run_graphql_answers st3 (Some nodes) Hg) as (pinned & n & E & F).
  cbn [stage1_items] in F. rewrite E.
  cbn [state error pinnedRepos ticks ProfilePage.settled].
  split; [reflexivity |].
  split; [symmetry; exact (Forall2_length F) |].
  intros i item Hi Hno.
  destruct (Forall2_nth_error_l _ _ _ _ _ F Hi) as (entry & He & Hn & Hp).
  exists entry. split; [exact He |]. split; [exact Hn |]. now apply Hp.
Qed.

End ProfilePageRuns.

(** *** The profile page on sample data *)

Import Fetch ProfilePage.

Lemma octocat_given : "octocat" <> "".
Proof. discriminate. Qed.

Lemma featured_fallbacks_witness :
  featured_of
    (render (H := UTC.host)
       (Fetch.state
          (pageView (H := UTC.host) world_no_pins no_credentials None "octocat")))
    = [recent_repo; starred_repo] /\
  featured_of
    (render (H := UTC.host)
       (Fetch.state
          (pageView (H := UTC.host) world_graphql_down no_credentials None
             "octocat")))
    = [starred_repo; recent_repo].
Proof.
  split.
  - destruct (featured_fallbacks (H := UTC.host) world_no_pins no_credentials
                None "octocat" octocat_given octocat [starred_repo; recent_repo]
                200 200 eq_refl eq_refl eq_refl) as [A _].
    destruct (A 200 (Some []) eq_refl eq_refl) as [E _].
    rewrite E. reflexivity.
  - destruct (featured_fallbacks (H := UTC.host) world_graphql_down
                no_credentials None "octocat" octocat_given octocat
                [recent_repo; starred_repo] 200 200 eq_refl eq_refl eq_refl)
      as [_ B].
    destruct (B (or_introl eq_refl)) as [E _].
    rewrite E. reflexivity.
Defined.

(** C2, as stated, fails: the GraphQL request fails, stage 1 has no
    pinned item, and the featured list is in order of stars, not of push
    time. *)
Lemma featured_after_failed_query_not_by_push :
  stage1_items
    (graphql world_graphql_down (graphql_request no_credentials None "octocat"))
    = [] /\
  featured_of
    (render (H := UTC.host)
       (Fetch.state
          (pageView (H := UTC.host) world_graphql_down no_credentials None
             "octocat")))
    = [starred_repo; recent_repo] /\
  firstn 4 (by_push (H := UTC.host) [recent_repo; starred_repo])
    = [recent_repo; starred_repo] /\
  featured_of
    (render (H := UTC.host)
       (Fetch.state
          (pageView (H := UTC.host) world_graphql_down no_credentials None
             "octocat")))
    <> firstn 4 (by_push (H := UTC.host) [recent_repo; starred_repo]).
Proof.
  repeat split; try reflexivity.
  vm_compute. discriminate.
Qed.

Lemma profile_not_found_is_fatal_witness :
  render (H := UTC.host)
    (Fetch.state
       (pageView (H := UTC.host) world_no_such_user no_credentials None "ghost"))
    = ProfileNotFound /\
  error
    (Fetch.state
       (pageView (H := UTC.host) world_no_such_user no_credentials None "ghost"))
    = "Error: User not found (404)" /\
  Fetch.trace
    (pageView (H := UTC.host) world_no_such_user no_credentials None "ghost")
    = [Fetch.GET "https://api.github.com/users/ghost"
         [("Accept", "application/vnd.github.v3+json");
          ("User-Agent", "GitHubFolio")]].
Proof.
  apply (profile_not_found_is_fatal (H := UTC.host) world_no_such_user
           no_credentials None "ghost" ltac:(discriminate) 404 None);
    reflexivity.
Defined.

Lemma skills_first_six_distinct_languages_witness :
  skills
    (Fetch.state
       (pageView (H := UTC.host) world_pinned no_credentials None "octocat"))
    = ["Rust"; "Go"].
Proof.
  destruct (skills_first_six_distinct_languages (H := UTC.host) world_pinned
              no_credentials None "octocat" octocat_given octocat
              [recent_repo; starred_repo] 200 200 eq_refl eq_refl eq_refl)
    as (_ & E & _).
  rewrite E. reflexivity.
Defined.

(** C5, as stated, fails for a missing list: the repositories request
    is answered with an error object, and the page view ends in the error
    state instead of a portfolio with no skills. *)
Lemma missing_repository_list_is_a_failure :
  let final :=
    Fetch.state
      (pageView (H := UTC.host) world_repos_refused no_credentials None "octocat") in
  error final = "Error: reposData.forEach is not a function" /\
  userData final = None /\
  render (H := UTC.host) final = ProfileNotFound.
Proof.
  repeat split.
Qed.

Lemma unmatched_pin_gets_placeholders_witness :
  exists entry,
    nth_error
      (pinnedRepos
         (Fetch.state
            (pageView (H := UTC.host) world_pinned no_credentials None "octocat")))
      0 = Some entry /\
    name entry = "elsewhere" /\
    placeholder_entry (H := UTC.host) 0
      (Fetch.ticks
         (pageView (H := UTC.host) world_pinned no_credentials None "octocat"))
      entry.
Proof.
  destruct (unmatched_pin_gets_placeholders (H := UTC.host) world_pinned
              no_credentials None "octocat" octocat_given octocat
              [recent_repo; starred_repo] 200 200 eq_refl eq_refl eq_refl
              200 [sample_pin "elsewhere"; sample_pin "starred"] eq_refl)
    as (_ & _ & P).
  apply (P 0%nat (sample_pin "elsewhere") eq_refl).
  intros repo [<- | [<- | []]]; discriminate.
Defined.

(** ** Similar profiles *)

Section SimilarProfilesFacts.
Import Fetch SimilarProfiles.
Variables (w : World) (headers : Headers) (user : GitHubUser).

Lemma map_set_absent (m : UserMap) (k : string) (v : SimilarUser) :
  has m k = false -> map_set m k v = List.app m [(k, v)].
Proof.
  unfold has. induction m as [| [k' v'] m IH]; simpl.
  - reflexivity.
  - intros Hk. apply orb_false_elim in Hk. destruct Hk as [Hk Hm].
    rewrite Hk. now rewrite IH.
Qed.

Lemma has_app (m m' : UserMap) (k : string) :
  has (List.app m m') k = has m k || has m' k.
Proof. unfold has. apply existsb_app. Qed.

Lemma fold_consider (reason : string) (l : list Account) (m : UserMap) :
  fold_left (consider user reason) l m
  = fold_left add_candidate (map (candidate reason) (filter (not_self user) l)) m.
Proof.
  revert m. induction l as [| a l IH]; intros m; simpl.
  - reflexivity.
  - unfold consider at 2, not_self at 1.
    destruct (String.eqb (account_login a) (login user)); simpl.
    + apply IH.
    + rewrite IH. f_equal. unfold add_candidate. simpl.
      destruct (has m (account_login a)) eqn:Hm; simpl.
      * reflexivity.
      * now apply map_set_absent.
Qed.

Lemma fold_add_candidate (cs : list SimilarUser) (m : UserMap) :
  fold_left add_candidate cs m
  = List.app m
      (keyed (first_by su_login
                (filter (fun c => negb (has m (su_login c))) cs))).
Proof.
  revert m. induction cs as [| c cs IH]; intros m; simpl.
  - now rewrite app_nil_r.
  - unfold add_candidate at 2. destruct (has m (su_login c)) eqn:Hm; simpl.
    + apply IH.
    + rewrite IH, <- app_assoc. simpl. do 3 f_equal.
      rewrite <- (filter_first_by su_login
                    (fun k => negb (String.eqb (su_login c) k))).
      f_equal. rewrite filter_both. apply filter_ext. intros y.
      rewrite has_app. unfold has at 2. simpl.
      now rewrite orb_false_r, negb_orb.
Qed.

Lemma values_keyed (cs : list SimilarUser) : values (keyed cs) = cs.
Proof.
  unfold values, keyed. rewrite map_map. simpl. apply map_id.
Qed.

Lemma merged_values (cs : list SimilarUser) :
  values (fold_left add_candidate cs []) = first_by su_login cs.
Proof.
  rewrite fold_add_candidate. simpl. rewrite values_keyed. f_equal.
  induction cs as [| c cs IH]; simpl; [reflexivity | now rewrite IH].
Qed.

Lemma bind_return {S A B : Type} (m : M S A) (k : A -> M S B)
    (r r' : Run S) (a : A) :
  m r = (Return a, r') -> bind m k r = k a r'.
Proof. unfold bind. now intros ->. Qed.

Lemma bind_throw {S A B : Type} (m : M S A) (k : A -> M S B)
    (r r' : Run S) (e : Exn) :
  m r = (Throw e, r') -> bind m k r = (Throw e, r').
Proof. unfold bind. now intros ->. Qed.

(** One turn of a loop that asks for an account list and considers the
    accounts [pick] keeps; a failed request leaves the map as it is. *)
Lemma account_list_step (req : Request) (pick : list Account -> list Account)
    (reason : string) (m : UserMap) (r : Run State) :
  pick [] = [] ->
  try_catch
    (bind (fetch (accounts w) req)
       (fun x0 => let '(status, body) := x0 in
          if ok status then
            bind (json body)
              (fun l => ret (fold_left (consider user reason) (pick l) m))
          else ret m))
    (fun _ => ret m) r
  = (Return (fold_left (consider user reason) (pick (listed w req)) m),
     {| state := state r; trace := List.app (trace r) [req]; ticks := ticks r |}).
Proof.
  intros Hpick.
  unfold try_catch, bind, fetch, listed, json, ret, throw.
  destruct (accounts w req) as [| status [l |]];
    try destruct (ok status); rewrite ?Hpick; reflexivity.
Qed.

Lemma foldM_account_lists {X : Type} (request : X -> Request)
    (pick : list Account -> list Account) (reason : string)
    (xs : list X) (m : UserMap) (r : Run State) :
  pick [] = [] ->
  exists r' : Run State,
    state r' = state r /\
    foldM (fun m x =>
             try_catch
               (bind (fetch (accounts w) (request x))
                  (fun x0 => let '(status, body) := x0 in
                     if ok status then
                       bind (json body)
                         (fun l => ret (fold_left (consider user reason) (pick l) m))
                     else ret m))
               (fun _ => ret m))
          xs m r
    = (Return (fold_left (consider user reason)
                 (flat_map (fun x => pick (listed w (request x))) xs) m), r').
Proof.
  intros Hpick. revert m r. induction xs as [| x xs IH]; intros m r.
  - exists r. now split.
  - cbn [foldM flat_map]. rewrite fold_left_app.
    rewrite (bind_return _ _ _ _ _
               (account_list_step (request x) pick reason m r Hpick)).
    match goal with
    | |- context [foldM ?f xs ?m' ?r0] =>
        destruct (IH m' r0) as (r' & Hs & E); exists r'; split;
          [exact Hs | exact E]
    end.
Qed.

Ltac returned := eexists; eexists; split; [reflexivity | split; [reflexivity | left; reflexivity]].
Ltac thrown := eexists; eexists; split; [reflexivity | split; [reflexivity | right; eexists; reflexivity]].

Lemma byLanguage_run (primaryLanguage : option string) (m : UserMap)
    (r : Run State) :
  exists (r' : Run State) (o : Outcome UserMap),
    byLanguage w headers user primaryLanguage m r = (o, r') /\
    state r' = state r /\
    (o = Return (fold_left add_candidate
                   (discovered_byLanguage w headers user primaryLanguage) m)
     \/ exists e, o = Throw e).
Proof.
  unfold byLanguage, discovered_byLanguage, searched.
  destruct primaryLanguage as [lang |];
    [destruct (JS.truthy (Some lang)) |]; try returned.
  unfold bind at 1. unfold fetch at 1.
  destruct (search w _) as [| status [items |]].
  - thrown.
  - destruct (ok status); [| returned].
    unfold bind at 1. unfold json. unfold ret at 1.
    match goal with
    | |- context [foldM _ _ m ?r0] =>
        destruct (foldM_account_lists
                    (fun repo => GET (contributors_url repo) headers)
                    (firstn 5) (reason_language lang) (firstn 3 items) m r0
                    eq_refl) as (r' & Hs & E)
    end.
    exists r'. eexists. split; [exact E |]. split; [exact Hs | left].
    now rewrite fold_consider.
  - destruct (ok status); [thrown | returned].
Qed.

Lemma byTopics_run (userTopics : list string) (m : UserMap) (r : Run State) :
  exists (r' : Run State) (o : Outcome UserMap),
    byTopics w headers user userTopics m r = (o, r') /\
    state r' = state r /\
    (o = Return (fold_left add_candidate
                   (discovered_byTopics w headers user userTopics) m)
     \/ exists e, o = Throw e).
Proof.
  unfold byTopics, discovered_byTopics, searched.
  destruct (0 <? Z.of_nat (List.length userTopics)); [| returned].
  unfold bind at 1. unfold fetch at 1.
  destruct (search w _) as [| status [items |]].
  - thrown.
  - destruct (ok status); [| returned].
    eexists. eexists. split; [reflexivity |]. split; [reflexivity | left].
    now rewrite fold_consider.
  - destruct (ok status); [thrown | returned].
Qed.

Lemma byFollowers_run (m : UserMap) (r : Run State) :
  exists (r' : Run State) (o : Outcome UserMap),
    byFollowers w headers user m r = (o, r') /\
    state r' = state r /\
    (o = Return (fold_left add_candidate
                   (discovered_byFollowers w headers user) m)
     \/ exists e, o = Throw e).
Proof.
  unfold byFollowers, discovered_byFollowers.
  destruct (0 <? followers user); [| returned].
  unfold bind at 1. unfold fetch at 1. unfold listed at 2.
  destruct (accounts w _) as [| status [l |]].
  - thrown.
  - destruct (ok status); [| returned].
    unfold bind at 1. unfold json. unfold ret at 1.
    match goal with
    | |- context [foldM _ _ m ?r0] => set (r1 := r0)
    end.
    destruct (foldM_account_lists
                (fun follower =>
                   GET ("https://api.github.com/users/"
                          ++ account_login follower
                          ++ "/following?per_page=5") headers)
                (fun l => l) reason_followers l m r1 eq_refl)
      as (r' & Hs & E).
    exists r'. eexists. split; [exact E |]. split; [exact Hs | left].
    now rewrite fold_consider.
  - destruct (ok status); [thrown | returned].
Qed.

(** With its one unguarded request answered, a method returns: nothing
    inside a guarded request makes it throw. *)
Lemma byLanguage_answered (primaryLanguage : option string) (m : UserMap)
    (r : Run State) :
  SimilarAnswers.language_answered w headers primaryLanguage = true ->
  exists r' : Run State,
    byLanguage w headers user primaryLanguage m r
    = (Return (fold_left add_candidate
                 (discovered_byLanguage w headers user primaryLanguage) m), r') /\
    state r' = state r.
Proof.
  unfold SimilarAnswers.language_answered, SimilarAnswers.answered,
    SimilarAnswers.language_search, byLanguage, discovered_byLanguage, searched.
  destruct primaryLanguage as [lang |];
    [destruct (JS.truthy (Some lang)) |]; intros Ha;
    try (eexists; split; reflexivity).
  unfold bind at 1. unfold fetch at 1.
  destruct (search w _) as [| status [items |]]; [discriminate | |].
  - destruct (ok status); [| eexists; split; reflexivity].
    unfold bind at 1. unfold json. unfold ret at 1.
    match goal with
    | |- context [foldM _ _ m ?r0] =>
        destruct (foldM_account_lists
                    (fun repo => GET (contributors_url repo) headers)
                    (firstn 5) (reason_language lang) (firstn 3 items) m r0
                    eq_refl) as (r' & Hs & E)
    end.
    exists r'. split; [| exact Hs].
    etransitivity; [exact E | now rewrite fold_consider].
  - destruct (ok status); [discriminate | eexists; split; reflexivity].
Qed.

Lemma byTopics_answered (userTopics : list string) (m : UserMap) (r : Run State) :
  SimilarAnswers.topics_answered w headers userTopics = true ->
  exists r' : Run State,
    byTopics w headers user userTopics m r
    = (Return (fold_left add_candidate
                 (discovered_byTopics w headers user userTopics) m), r') /\
    state r' = state r.
Proof.
  unfold SimilarAnswers.topics_answered, SimilarAnswers.answered,
    SimilarAnswers.topic_search, byTopics, discovered_byTopics, searched.
  destruct (0 <? Z.of_nat (List.length userTopics)); intros Ha;
    [| eexists; split; reflexivity].
  unfold bind at 1. unfold fetch at 1.
  destruct (search w _) as [| status [items |]]; [discriminate | |].
  - destruct (ok status); [| eexists; split; reflexivity].
    eexists. split; [unfold bind, json, ret; now rewrite fold_consider | reflexivity].
  - destruct (ok status); [discriminate | eexists; split; reflexivity].
Qed.

Lemma byFollowers_answered (m : UserMap) (r : Run State) :
  SimilarAnswers.followers_answered w headers user = true ->
  exists r' : Run State,
    byFollowers w headers user m r
    = (Return (fold_left add_candidate
                 (discovered_byFollowers w headers user) m), r') /\
    state r' = state r.
Proof.
  unfold SimilarAnswers.followers_answered, SimilarAnswers.answered,
    SimilarAnswers.followers_request, byFollowers, discovered_byFollowers.
  destruct (0 <? followers user); intros Ha; [| eexists; split; reflexivity].
  unfold bind at 1. unfold fetch at 1. unfold listed at 2.
  destruct (accounts w _) as [| status [l |]]; [discriminate | |].
  - destruct (ok status); [| eexists; split; reflexivity].
    unfold bind at 1. unfold json. unfold ret at 1.
    match goal with
    | |- context [foldM _ _ m ?r0] => set (r1 := r0)
    end.
    destruct (foldM_account_lists
                (fun follower =>
                   GET ("https://api.github.com/users/"
                          ++ account_login follower
                          ++ "/following?per_page=5") headers)
                (fun l => l) reason_followers l m r1 eq_refl)
      as (r' & Hs & E).
    exists r'. split; [| exact Hs].
    etransitivity; [exact E | now rewrite fold_consider].
  - destruct (ok status); [discriminate | eexists; split; reflexivity].
Qed.

Lemma enhance_run (c : SimilarUser) (r : Run State) :
  enhance w headers c r
  = (Return (enriched w headers c),
     {| state := state r;
        trace := List.app (trace r) [profile_request headers c];
        ticks := ticks r |}).
Proof.
  unfold enhance, enriched, profile_request, try_catch, bind, fetch, json,
    ret, throw.
  destruct (users w _) as [| status [userData |]];
    try destruct (ok status); reflexivity.
Qed.

Lemma mapM_enhance_run (cs : list SimilarUser) (r : Run State) :
  exists r' : Run State,
    state r' = state r /\
    mapM (enhance w headers) cs r = (Return (map (enriched w headers) cs), r').
Proof.
  revert r. induction cs as [| c cs IH]; intros r.
  - exists r. now split.
  - cbn [mapM map].
    rewrite (bind_return _ _ _ _ _ (enhance_run c r)).
    destruct (IH {| state := state r;
                    trace := List.app (trace r) [profile_request headers c];
                    ticks := ticks r |}) as (r' & Hs & E).
    exists r'. split; [exact Hs |].
    now rewrite (bind_return _ _ _ _ _ E).
Qed.

Lemma enriched_login (c : SimilarUser) :
  su_login (enriched w headers c) = su_login c.
Proof.
  unfold enriched. destruct (users w _) as [| status [userData |]];
    try destruct (ok status); reflexivity.
Qed.

Lemma enriched_reason (c : SimilarUser) :
  similarity_reason (enriched w headers c) = similarity_reason c.
Proof.
  unfold enriched. destruct (users w _) as [| status [userData |]];
    try destruct (ok status); reflexivity.
Qed.

Lemma enriched_failure (c : SimilarUser) :
  enrichment_fails w headers c -> enriched w headers c = c.
Proof.
  unfold enriched, enrichment_fails.
  destruct (users w _) as [| status [userData |]]; try reflexivity.
  now intros ->.
Qed.

Lemma discovered_unnamed (repos : list Repository) (c : SimilarUser) :
  In c (discovered w headers user repos) -> su_name c = None.
Proof.
  unfold discovered, discovered_byLanguage, discovered_byTopics,
    discovered_byFollowers.
  rewrite !in_app_iff.
  intros [Hc | [Hc | Hc]];
    repeat match type of Hc with
           | In _ (match ?x with _ => _ end) => destruct x
           | In _ (if ?x then _ else _) => destruct x
           end;
    try contradiction;
    apply in_map_iff in Hc; destruct Hc as (a & <- & _); reflexivity.
Qed.

End SimilarProfilesFacts.

Section SimilarProfilesRuns.
Import Fetch SimilarProfiles.
Variables (w : World) (env : ProcessEnv) (storage : option string).
Variables (user : GitHubUser) (repos : list Repository).

Let headers : Headers := githubToken.createGitHubHeaders env (Some storage).
Let final : State := state (component w env storage user repos).
Let found : list SimilarUser :=
  first_by su_login (discovered w headers user repos).

Lemma set_run {S : Type} (f : S -> S) (r : Run S) :
  set f r = (Return tt, {| state := f (state r); trace := trace r; ticks := ticks r |}).
Proof. reflexivity. Qed.

(** How a run of the component ends: with nothing to show (no
    repositories, no signal, or a failed search or followers request),
    or with the first six discoveries, each with its display name. *)
Lemma findSimilarProfiles_outcome :
  (similarUsers final = [] /\
   (repos = [] \/ has_signal repos = false
    \/ error final = "Failed to find similar profiles")) \/
  (error final = "" /\
   similarUsers final = map (enriched w headers) (firstn 6 found)).
Proof.
  unfold final, found, component.
  destruct repos as [| r0 rs] eqn:Erepos.
  - left. split; [reflexivity | now left].
  - rewrite <- Erepos.
    replace (0 <? Z.of_nat (List.length repos)) with true
      by (symmetry; apply Z.ltb_lt; rewrite Erepos; cbn [List.length]; lia).
    unfold findSimilarProfiles, setLoading, setError, setSimilarUsers.
    rewrite (bind_return _ _ _ _ _ (set_run _ _)).
    rewrite (bind_return _ _ _ _ _ (set_run _ _)).
    unfold finally, try_catch. fold headers.
    destruct ((Z.of_nat (List.length (userLanguages_of repos)) =? 0)
              && (Z.of_nat (List.length (userTopics_of repos)) =? 0)) eqn:Hsig.
    + left. split; [reflexivity |]. right. left.
      unfold has_signal. now rewrite Hsig.
    + match goal with
      | |- context [bind (byLanguage w headers user ?pl ?m) ?k ?r1] =>
          destruct (byLanguage_run w headers user pl m r1)
            as (r2 & o2 & E2 & S2 & [-> | [e2 ->]]);
          [rewrite (bind_return _ _ _ _ _ E2)
          | rewrite (bind_throw _ _ _ _ _ E2); left; split;
            [cbn; now rewrite S2 | right; right; reflexivity]]
      end.
      match goal with
      | |- context [bind (byTopics w headers user ?ts ?m) ?k ?r1] =>
          destruct (byTopics_run w headers user ts m r1)
            as (r3 & o3 & E3 & S3 & [-> | [e3 ->]]);
          [rewrite (bind_return _ _ _ _ _ E3)
          | rewrite (bind_throw _ _ _ _ _ E3); left; split;
            [cbn; now rewrite S3, S2 | right; right; reflexivity]]
      end.
      match goal with
      | |- context [bind (byFollowers w headers user ?m) ?k ?r1] =>
          destruct (byFollowers_run w headers user m r1)
            as (r4 & o4 & E4 & S4 & [-> | [e4 ->]]);
          [rewrite (bind_return _ _ _ _ _ E4)
          | rewrite (bind_throw _ _ _ _ _ E4); left; split;
            [cbn; now rewrite S4, S3, S2 | right; right; reflexivity]]
      end.
      match goal with
      | |- context [bind (mapM (enhance w headers) ?cs) ?k ?r1] =>
          destruct (mapM_enhance_run w headers cs r1) as (r5 & S5 & E5);
          rewrite (bind_return _ _ _ _ _ E5)
      end.
      right. cbn. rewrite S5, S4, S3, S2. cbn.
      split; [reflexivity |].
      rewrite <- !fold_left_app, merged_values.
      unfold discovered. now rewrite app_assoc.
Qed.

(** A run with repositories and a signal, in which the language search,
    the topic search and the followers request are each either not made
    or answered, ends without error and shows the first six discoveries,
    each as its profile request leaves it: a request inside the
    enrichment never ends the run. *)
Lemma findSimilarProfiles_answered :
  repos <> [] -> has_signal repos = true ->
  SimilarAnswers.discovery_answered w headers user repos = true ->
  error final = "" /\
  similarUsers final = map (enriched w headers) (firstn 6 found).
Proof.
  intros Hrepos Hsig Hans.
  unfold SimilarAnswers.discovery_answered in Hans.
  apply andb_true_iff in Hans. destruct Hans as [Hans Hf].
  apply andb_true_iff in Hans. destruct Hans as [Hl Ht].
  unfold final, found, component.
  replace (0 <? Z.of_nat (List.length repos)) with true.
  2:{ symmetry. apply Z.ltb_lt.
      assert (List.length repos <> 0%nat)
        by (intros E0; now apply length_zero_iff_nil in E0).
      lia. }
  unfold findSimilarProfiles, setLoading, setError, setSimilarUsers.
  rewrite (bind_return _ _ _ _ _ (set_run _ _)).
  rewrite (bind_return _ _ _ _ _ (set_run _ _)).
  unfold finally, try_catch. fold headers.
  unfold has_signal in Hsig. apply negb_true_iff in Hsig. rewrite Hsig.
  match goal with
  | |- context [bind (byLanguage w headers user ?pl ?m) ?k ?r1] =>
      destruct (byLanguage_answered w headers user pl m r1 Hl) as (r2 & E2 & S2);
      rewrite (bind_return _ _ _ _ _ E2)
  end.
  match goal with
  | |- context [bind (byTopics w headers user ?ts ?m) ?k ?r1] =>
      destruct (byTopics_answered w headers user ts m r1 Ht) as (r3 & E3 & S3);
      rewrite (bind_return _ _ _ _ _ E3)
  end.
  match goal with
  | |- context [bind (byFollowers w headers user ?m) ?k ?r1] =>
      destruct (byFollowers_answered w headers user m r1 Hf) as (r4 & E4 & S4);
      rewrite (bind_return _ _ _ _ _ E4)
  end.
  match goal with
  | |- context [bind (mapM (enhance w headers) ?cs) ?k ?r1] =>
      destruct (mapM_enhance_run w headers cs r1) as (r5 & S5 & E5);
      rewrite (bind_return _ _ _ _ _ E5)
  end.
  cbn. rewrite S5, S4, S3, S2. cbn.
  split; [reflexivity |].
  rewrite <- !fold_left_app, merged_values.
  unfold discovered. now rewrite app_assoc.
Qed.

(** C7 (amended). No login occurs twice in the result and the result
    has at most 6 candidates; every candidate of the result is the first
    discovery of its login, in the order language, topics, followers, and
    carries the reason of that discovery; a candidate whose profile
    request fails stays in the result as discovered, with no display
    name; and when the run completes the logins of the result are the
    first six distinct logins discovered, so a login discovered more than
    once appears exactly once when it is among them and not at all
    otherwise.  The run completes, without error, whenever the language
    search, the topic search and the followers request are each either
    not made or answered; the result is then the first six discoveries,
    each as its profile request leaves it, so that a candidate whose
    profile request fails, whatever the failure, is in the result as
    discovered and with no display name. *)
Theorem similar_profiles_first_reason_wins :
  NoDup (map su_login (similarUsers final)) /\
  (List.length (similarUsers final) <= 6)%nat /\
  (forall s, In s (similarUsers final) ->
     exists c,
       List.find (fun c => String.eqb (su_login c) (su_login s))
                 (discovered w headers user repos) = Some c /\
       su_login s = su_login c /\
       similarity_reason s = similarity_reason c /\
       (enrichment_fails w headers c -> s = c /\ su_name s = None)) /\
  (error final = "" -> repos <> [] -> has_signal repos = true ->
   map su_login (similarUsers final)
   = firstn 6 (map su_login (first_by su_login (discovered w headers user repos)))) /\
  (repos <> [] -> has_signal repos = true ->
   SimilarAnswers.discovery_answered w headers user repos = true ->
   error final = "" /\
   similarUsers final
   = map (enriched w headers)
       (firstn 6 (first_by su_login (discovered w headers user repos))) /\
   forall c,
     In c (firstn 6 (first_by su_login (discovered w headers user repos))) ->
     enrichment_fails w headers c ->
     In c (similarUsers final) /\ su_name c = None).
Proof.
  assert (Hcompleted :
            repos <> [] -> has_signal repos = true ->
            SimilarAnswers.discovery_answered w headers user repos = true ->
            error final = "" /\
            similarUsers final
            = map (enriched w headers)
                (firstn 6 (first_by su_login (discovered w headers user repos))) /\
            forall c,
              In c (firstn 6 (first_by su_login (discovered w headers user repos))) ->
              enrichment_fails w headers c ->
              In c (similarUsers final) /\ su_name c = None).
  { intros Hrepos Hsig Hans.
    destruct (findSimilarProfiles_answered Hrepos Hsig Hans) as [He E].
    split; [exact He |]. split; [exact E |].
    intros c Hc Hf. rewrite E. split.
    - apply in_map_iff. exists c. split; [now apply enriched_failure | exact Hc].
    - apply (discovered_unnamed w headers user repos).
      apply In_firstn_inv in Hc. now apply first_by_In in Hc. }
  cut (NoDup (map su_login (similarUsers final)) /\
       (List.length (similarUsers final) <= 6)%nat /\
       (forall s, In s (similarUsers final) ->
          exists c,
            List.find (fun c => String.eqb (su_login c) (su_login s))
                      (discovered w headers user repos) = Some c /\
            su_login s = su_login c /\
            similarity_reason s = similarity_reason c /\
            (enrichment_fails w headers c -> s = c /\ su_name s = None)) /\
       (error final = "" -> repos <> [] -> has_signal repos = true ->
        map su_login (similarUsers final)
        = firstn 6 (map su_login
                      (first_by su_login (discovered w headers user repos))))).
  { intros (H1 & H2 & H3 & H4).
    split; [exact H1 |]. split; [exact H2 |]. split; [exact H3 |].
    split; [exact H4 | exact Hcompleted]. }
  clear Hcompleted.
  destruct findSimilarProfiles_outcome as [[E D] | [Herr E]]; rewrite E.
  - split; [constructor |]. split; [cbn; lia |].
    split; [intros s [] |].
    intros He Hr Hs. destruct D as [D | [D | D]]; congruence.
  - assert (Hlogins : map su_login (map (enriched w headers) (firstn 6 found))
                      = firstn 6 (map su_login found)).
    { rewrite map_map, firstn_map. apply map_ext. apply enriched_login. }
    split; [| split; [| split]].
    + rewrite Hlogins. apply firstn_NoDup, first_by_NoDup.
    + rewrite length_map. apply firstn_le_length.
    + intros s Hs. apply in_map_iff in Hs. destruct Hs as (c & <- & Hc).
      apply In_firstn_inv in Hc. exists c.
      rewrite enriched_login, enriched_reason.
      split; [now apply first_by_is_first |].
      split; [reflexivity |]. split; [reflexivity |].
      intros Hf. rewrite (enriched_failure _ _ _ Hf).
      split; [reflexivity |].
      apply (discovered_unnamed w headers user repos).
      now apply first_by_In in Hc.
    + intros _ _ _. exact Hlogins.
Qed.

End SimilarProfilesRuns.

Lemma similar_profiles_first_reason_wins_witness :
  map SimilarProfiles.su_login
    (SimilarProfiles.similarUsers
       (Fetch.state
          (SimilarProfiles.component SimilarProfiles.world_crowded no_credentials
             None octocat [SimilarProfiles.rust_cli])))
  = ["alice"; "bob"; "carol"; "dave"; "erin"; "frank"] /\
  In {| SimilarProfiles.su_login := "alice";
        SimilarProfiles.su_avatar_url := "https://avatars.example/alice";
        SimilarProfiles.su_html_url := "https://github.com/alice";
        SimilarProfiles.su_name := None;
        SimilarProfiles.similarity_reason := "Also works with Rust" |}
     (SimilarProfiles.similarUsers
        (Fetch.state
           (SimilarProfiles.component SimilarProfiles.world_crowded no_credentials
              None octocat [SimilarProfiles.rust_cli]))).
Proof.
  destruct (similar_profiles_first_reason_wins SimilarProfiles.world_crowded
              no_credentials None octocat [SimilarProfiles.rust_cli])
    as (_ & _ & _ & E & A).
  split.
  - rewrite E; [reflexivity | reflexivity | discriminate | reflexivity].
  - destruct (A ltac:(discriminate) eq_refl eq_refl) as (_ & _ & Hkeep).
    apply Hkeep.
    + left. reflexivity.
    + exact I.
Defined.

(** C7, as stated, fails: "grace" is discovered by the topic search and
    again through a follower, after six other logins, and no candidate of
    the result has that login. *)
Lemma crowded_out_login_is_missing :
  let headers := githubToken.createGitHubHeaders no_credentials (Some None) in
  In "grace"
     (map SimilarProfiles.su_login
        (SimilarProfiles.discovered_byTopics SimilarProfiles.world_crowded headers
           octocat (SimilarProfiles.userTopics_of [SimilarProfiles.rust_cli]))) /\
  In "grace"
     (map SimilarProfiles.su_login
        (SimilarProfiles.discovered_byFollowers SimilarProfiles.world_crowded
           headers octocat)) /\
  filter (fun s => String.eqb (SimilarProfiles.su_login s) "grace")
    (SimilarProfiles.similarUsers
       (Fetch.state
          (SimilarProfiles.component SimilarProfiles.world_crowded no_credentials
             None octocat [SimilarProfiles.rust_cli])))
  = [].
Proof.
  cbv zeta. split; [| split].
  - vm_compute. now left.
  - vm_compute. now left.
  - vm_compute. reflexivity.
Qed.

(** ** Pinned repositories component *)

(** The component asks the GraphQL endpoint only with a token at hand. *)
Lemma PinnedRepos_skips_graphql_without_token `{Host}
    (w : PinnedRepos.World) (env : ProcessEnv) (token : option string)
    (username : string) (repos : list Repository) :
  JS.truthy (JS.or_else (GITHUB_ACCESS_TOKEN env) token) = false ->
  Fetch.trace (PinnedRepos.component w env token username repos) = [].
Proof.
  intros Hno. unfold PinnedRepos.component.
  destruct (negb (String.eqb username "") && (0 <? Z.of_nat (List.length repos)));
    [| reflexivity].
  unfold PinnedRepos.fetchPinnedRepos.
  destruct (JS.or_else (GITHUB_ACCESS_TOKEN env) token) as [t |] eqn:Et;
    [rewrite Hno |]; reflexivity.
Qed.

(** C1. With no credential at all (nothing in [localStorage], nothing in
    the environment) the profile page still issues the GraphQL query, as
    its third request and with the authorization ["Bearer undefined"];
    the pinned-repositories component, on the same input, issues no
    request. *)
Theorem graphql_attempted_without_credential :
  githubService.getGitHubToken no_credentials None = None /\
  githubToken.getGitHubToken no_credentials (Some None) = None /\
  Fetch.trace (pageView (H := UTC.host) world_no_pins no_credentials None "octocat")
  = [user_request no_credentials None "octocat";
     repos_request no_credentials None "octocat";
     Fetch.GraphQL_pinnedItems "Bearer undefined" "octocat"] /\
  existsb is_graphql
    (Fetch.trace
       (pageView (H := UTC.host) world_no_pins no_credentials None "octocat"))
  = true /\
  Fetch.trace
    (PinnedRepos.component (H := UTC.host) PinnedRepos.world_nothing_pinned
       no_credentials None "octocat" [starred_repo; recent_repo])
  = [].
Proof.
  repeat split.
Qed.

(** ** Activity graph *)

Section ActivityFacts.
Import Fetch ActivityGraph.
Context `{Host}.
Variables (w : World) (headers : Headers).

Lemma selected_cons (repo : Repository) (rest : list Repository) :
  selected w headers (repo :: rest)
  = match owner_activity (participation w (participation_request headers repo)) with
    | Some owner_weeks => Some {| commit_repo := name repo; data := owner_weeks |}
    | None => selected w headers rest
    end.
Proof.
  unfold selected. cbn [List.find]. unfold active at 1.
  destruct (owner_activity (participation w (participation_request headers repo)))
    as [owner_weeks |] eqn:E; cbn beta iota; [rewrite E |]; reflexivity.
Qed.

Lemma scan_run (candidates : list Repository) (r : Run State) :
  scan w headers candidates r
  = (Return (selected w headers candidates),
     {| state := state r;
        trace := List.app (trace r)
                   (map (participation_request headers)
                      (consulted w headers candidates));
        ticks := ticks r |}).
Proof.
  revert r. induction candidates as [| repo rest IH]; intros r.
  - cbn. rewrite app_nil_r. now destruct r.
  - rewrite selected_cons. cbn [scan consulted].
    unfold bind at 1, try_catch, bind, fetch, json, ret, throw, active,
      owner_activity.
    destruct (participation w (participation_request headers repo))
      as [| status [[owner_weeks |] |]];
      try destruct (ok status); cbn [andb];
      try destruct (existsb (fun val => 0 <? val) owner_weeks);
      cbn [map List.app];
      try (rewrite IH; cbn [state trace ticks]; rewrite <- app_assoc;
           reflexivity);
      reflexivity.
Qed.

Lemma firstn_min_length {A : Type} (l : list A) :
  firstn (Nat.min (List.length l) 3) l = firstn 3 l.
Proof.
  destruct (Nat.le_ge_cases (List.length l) 3) as [Hle | Hge].
  - rewrite Nat.min_l by exact Hle. now rewrite firstn_all, firstn_all2.
  - now rewrite Nat.min_r.
Qed.

Lemma byWeeks_run (n index : nat) (counts : list Z) (r : Run State) :
  exists (points : list ActivityPoint) (r' : Run State),
    byWeeks n index counts r = (Return points, r') /\
    state r' = state r /\ trace r' = trace r /\
    map commits points = counts.
Proof.
  revert index r. induction counts as [| count rest IH]; intros index r.
  - exists [], r. repeat split.
  - cbn [byWeeks]. unfold bind at 1, today_minus.
    destruct (Date_now_minus_days (ticks r) ((Z.of_nat n - 1 - Z.of_nat index) * 7))
      as [month day].
    match goal with
    | |- context [bind (byWeeks n (S index) rest) ?k ?r0] =>
        destruct (IH (S index) r0) as (points & r' & E & Hs & Ht & Hc);
        rewrite (bind_return _ _ _ _ _ E)
    end.
    eexists. exists r'. unfold ret. split; [reflexivity |].
    repeat split; try assumption. cbn. now rewrite Hc.
Qed.

End ActivityFacts.

Section ActivityRuns.
Import Fetch ActivityGraph.
Context `{Host}.
Variables (w : World) (env : ProcessEnv) (storage : option string).
Variable username : string.
Hypothesis username_given : username <> "".
Variables (repos : list Repository) (status : Z).
Hypothesis repos_listed :
  repos_of w (repos_request env storage username) = Http status (Some repos).
Hypothesis repos_ok : ok status = true.

Let headers : Headers := githubToken.createGitHubHeaders env (Some storage).
Let nonForkRepos : list Repository := filter (fun repo => negb (fork repo)) repos.
Let final : Run State := component w env storage username.

Lemma activity_run :
  exists (shown : list ActivityPoint) (n : nat),
    component w env storage username
    = {| state := {| activityData := shown; loading := false; error := "" |};
         trace := repos_request env storage username
                    :: map (participation_request headers)
                         (consulted w headers (firstn 3 nonForkRepos));
         ticks := n |} /\
    (nonForkRepos = [] -> shown = []) /\
    (nonForkRepos <> [] -> selected w headers (firstn 3 nonForkRepos) = None ->
     shown = byPushDates repos) /\
    (forall found, selected w headers (firstn 3 nonForkRepos) = Some found ->
     exists points,
       map commits points = data found /\
       shown = filter (fun item => 0 <? commits item) points).
Proof.
  unfold component.
  destruct (String.eqb_spec username "") as [E | _]; [contradiction |].
  cbn [negb]. unfold fetchActivityData, setLoading, setError, setActivityData.
  rewrite (bind_return _ _ _ _ _ (set_run _ _)).
  rewrite (bind_return _ _ _ _ _ (set_run _ _)).
  unfold finally, try_catch. unfold bind at 1. unfold fetch at 1.
  fold (repos_request env storage username). rewrite repos_listed.
  rewrite repos_ok. cbn [negb]. unfold bind at 1. unfold json, ret at 1.
  fold headers. fold nonForkRepos.
  destruct (Z.of_nat (List.length repos) =? 0) eqn:Elen.
  { assert (Hr : repos = []).
    { apply Z.eqb_eq in Elen. apply length_zero_iff_nil. lia. }
    assert (Hnf : nonForkRepos = []).
    { unfold nonForkRepos. now rewrite Hr. }
    rewrite Hnf. cbn. eexists. eexists.
    split; [reflexivity |]. split; [reflexivity |].
    split; [intros Hne; now contradiction Hne | discriminate]. }
  destruct (Z.of_nat (List.length nonForkRepos) =? 0) eqn:Enf.
  { assert (Hnf : nonForkRepos = []).
    { apply Z.eqb_eq in Enf. apply length_zero_iff_nil. lia. }
    rewrite Hnf. cbn. eexists. eexists.
    split; [reflexivity |]. split; [reflexivity |].
    split; [intros Hne; now contradiction Hne | discriminate]. }
  assert (Hne : nonForkRepos <> []).
  { intros Hnil. rewrite Hnil in Enf. discriminate. }
  rewrite firstn_min_length.
  rewrite (bind_return _ _ _ _ _ (scan_run w headers _ _)).
  destruct (selected w headers (firstn 3 nonForkRepos)) as [found |] eqn:Esel.
  - match goal with
    | |- context [bind (byWeeks ?n ?i ?c) ?k ?r0] =>
        destruct (byWeeks_run n i c r0) as (points & r' & E & Hs & Ht & Hc);
        rewrite (bind_return _ _ _ _ _ E)
    end.
    cbn. rewrite Hs, Ht. cbn. eexists. eexists.
    split; [reflexivity |]. split; [intros Hnil; contradiction |].
    split; [discriminate |].
    intros found' [= <-]. now exists points.
  - cbn. eexists. eexists.
    split; [reflexivity |]. split; [intros Hnil; contradiction |].
    split; [reflexivity | discriminate].
Qed.

(** The scan: at most the first three non-fork repositories are asked
    for their participation statistic, in upstream order, and none after
    the first that shows owner activity; that one is selected.  With no
    selection the activity is the push dates by month; with no
    repository, or only forks, it is the empty state, without error. *)
Lemma activity_scan_first_match :
  error (state final) = "" /\
  loading (state final) = false /\
  trace final
  = repos_request env storage username
      :: map (participation_request headers)
           (consulted w headers (firstn 3 nonForkRepos)) /\
  (nonForkRepos = [] ->
   activityData (state final) = [] /\ card (state final) = NoActivityData) /\
  (nonForkRepos <> [] -> selected w headers (firstn 3 nonForkRepos) = None ->
   activityData (state final) = byPushDates repos) /\
  (forall found, selected w headers (firstn 3 nonForkRepos) = Some found ->
   exists points,
     map commits points = data found /\
     activityData (state final) = filter (fun item => 0 <? commits item) points).
Proof.
  destruct activity_run as (shown & n & E & Hnil & Hpush & Hweeks).
  unfold final. rewrite E. cbn [state trace error loading activityData].
  split; [reflexivity |]. split; [reflexivity |]. split; [reflexivity |].
  split; [| split; assumption].
  intros Hnf. rewrite (Hnil Hnf). now split.
Qed.

Lemma consulted_at_most_three (candidates : list Repository) :
  (List.length (consulted w headers (firstn 3 candidates)) <= 3)%nat.
Proof.
  assert (Hc : forall l, (List.length (consulted w headers l) <= List.length l)%nat).
  { induction l as [| repo rest IH]; cbn; [lia |].
    destruct (active w headers repo); cbn; lia. }
  eapply Nat.le_trans; [apply Hc | apply firstn_le_length].
Qed.

End ActivityRuns.

(** C9. The fallback keeps every month that has a push, however old,
    up to twelve of them: with two repositories pushed in January 2015
    and May 2024 and no participation data, on the first of June 2024,
    both months are shown; the repository list is scanned in order, and
    an empty list gives the empty state with no error. *)
Theorem activity_fallback_keeps_old_months :
  Date_now_toISOString (Host := UTC.host) 0 = "2024-06-01T12:00:00.000Z" /\
  map ActivityGraph.date
    (ActivityGraph.activityData
       (Fetch.state
          (ActivityGraph.component (H := UTC.host) ActivityGraph.world_old_and_new
             no_credentials None "octocat")))
  = ["2015-01"; "2024-05"] /\
  map ActivityGraph.point_name
    (ActivityGraph.activityData
       (Fetch.state
          (ActivityGraph.component (H := UTC.host) ActivityGraph.world_old_and_new
             no_credentials None "octocat")))
  = ["01/15"; "05/24"] /\
  ActivityGraph.card
    (Fetch.state
       (ActivityGraph.component (H := UTC.host) ActivityGraph.world_no_repos
          no_credentials None "octocat"))
  = ActivityGraph.NoActivityData.
Proof.
  repeat split.
Qed.

(* ================================================================== *)
(** * Part III: further properties of the code *)
(* ================================================================== *)

(** ** Request headers *)

Lemma Obj_get_set_same {V : Type} (o : list (string * V)) (k : string) (v : V) :
  Obj.get (Obj.set o k v) k = Some v.
Proof.
  unfold Obj.get. induction o as [| [k' v'] o IH]; simpl.
  - now rewrite String.eqb_refl.
  - destruct (String.eqb k' k) eqn:E; simpl; rewrite E; [reflexivity | exact IH].
Qed.

Lemma Obj_get_set_other {V : Type} (o : list (string * V)) (k k' : string) (v : V) :
  k <> k' -> Obj.get (Obj.set o k v) k' = Obj.get o k'.
Proof.
  intros Hne. unfold Obj.get. induction o as [| [k0 v0] o IH]; simpl.
  - destruct (String.eqb_spec k k'); [contradiction | reflexivity].
  - destruct (String.eqb_spec k0 k) as [-> | Hk]; simpl.
    + destruct (String.eqb_spec k k'); [contradiction | reflexivity].
    + destruct (String.eqb k0 k'); [reflexivity | exact IH].
Qed.

(** X1. The headers of every request name the client and the API version,
    and carry an authorization exactly when a non-empty credential
    resolved, as ["token <credential>"]: an empty-string token sends no
    authorization header.  This holds for the helper of
    lib/githubService.ts and for the one of lib/githubToken.ts. *)
Theorem createGitHubHeaders_authorization (env : ProcessEnv)
    (clientToken : option string) (window : option (option string)) :
  let service := githubService.createGitHubHeaders env clientToken in
  let helper := githubToken.createGitHubHeaders env window in
  Obj.get service "Accept" = Some "application/vnd.github.v3+json" /\
  Obj.get service "User-Agent" = Some "GitHubFolio" /\
  Obj.get service "Authorization"
    = (if JS.truthy (githubService.getGitHubToken env clientToken)
       then option_map (fun t => "token " ++ t)
              (githubService.getGitHubToken env clientToken)
       else None) /\
  Obj.get helper "Accept" = Some "application/vnd.github.v3+json" /\
  Obj.get helper "User-Agent" = Some "GitHubFolio" /\
  Obj.get helper "Authorization"
    = (if JS.truthy (githubToken.getGitHubToken env window)
       then option_map (fun t => "token " ++ t)
              (githubToken.getGitHubToken env window)
       else None).
Proof.
  cbv zeta.
  unfold githubService.createGitHubHeaders, githubToken.createGitHubHeaders.
  destruct (githubService.getGitHubToken env clientToken) as [t |];
    [destruct (JS.truthy (Some t)) |];
    (destruct (githubToken.getGitHubToken env window) as [t' |];
     [destruct (JS.truthy (Some t')) |]);
    repeat split.
Qed.

Section RequestLayer.
Import Fetch RateLimit.

Lemma Obj_get_spread {V : Type} (a b : list (string * V)) (k : string) :
  NoDup (map fst b) ->
  Obj.get (Obj.spread a b) k
  = match Obj.get b k with
    | Some v => Some v
    | None => Obj.get a k
    end.
Proof.
  unfold Obj.spread. revert a. induction b as [| [k' v'] b IH]; intros a Hb.
  - reflexivity.
  - inversion Hb as [| ? ? Hnotin Hb']; subst. cbn [fold_left fst snd].
    rewrite (IH _ Hb'). unfold Obj.get at 3. cbn [List.find fst].
    destruct (String.eqb_spec k' k) as [-> | Hne].
    + assert (Hnone : Obj.get b k = None).
      { unfold Obj.get. destruct (List.find _ b) as [[k0 v0] |] eqn:F;
          [| reflexivity].
        apply find_some in F. destruct F as [Hin Hk]. cbn in Hk.
        apply String.eqb_eq in Hk. subst k0. exfalso. apply Hnotin.
        change k with (fst (k, v0)). now apply in_map. }
      rewrite Hnone. cbn. apply Obj_get_set_same.
    + fold (Obj.get b k). destruct (Obj.get b k); [reflexivity |].
      now apply Obj_get_set_other.
Qed.

Lemma createGitHubHeaders_keys (env : ProcessEnv) (clientToken : option string) :
  NoDup (map fst (githubService.createGitHubHeaders env clientToken)).
Proof.
  unfold githubService.createGitHubHeaders.
  destruct (githubService.getGitHubToken env clientToken) as [t |];
    [destruct (JS.truthy (Some t)) |]; cbn;
    repeat constructor; cbn; intuition discriminate.
Qed.

(** X2. [githubFetch]: whatever headers the caller passes in its options, a
    header set by [createGitHubHeaders] (the client name, the API
    version, and the authorization when a credential resolved) reaches
    [fetch] with the value [createGitHubHeaders] gave it; any other
    header of the caller is passed on, and the defaults fill the rest.
    Method and body are the caller's. *)
Theorem githubFetch_headers_precedence (env : ProcessEnv) (options : RequestInit)
    (clientToken : option string) (k : string) :
  NoDup (map fst (init_headers options)) ->
  let merged := mergedOptions env options clientToken in
  Obj.get (init_headers merged) k
  = match Obj.get (githubService.createGitHubHeaders env clientToken) k with
    | Some v => Some v
    | None =>
        match Obj.get (init_headers options) k with
        | Some v => Some v
        | None => Obj.get (init_headers defaultOptions) k
        end
    end /\
  init_method merged = init_method options /\
  init_body merged = init_body options.
Proof.
  intros Hopt. cbv zeta. unfold mergedOptions. cbn [init_headers init_method init_body].
  split; [| split].
  - rewrite Obj_get_spread by apply createGitHubHeaders_keys.
    now rewrite Obj_get_spread by exact Hopt.
  - now destruct (init_method options).
  - now destruct (init_body options).
Qed.

Lemma githubFetch_headers_precedence_witness :
  Obj.get
    (init_headers
       (mergedOptions
          {| GITHUB_ACCESS_TOKEN := Some "srv"; NEXT_PUBLIC_GITHUB_ACCESS_TOKEN := None |}
          {| init_method := Some "POST";
             init_headers := [("Authorization", "token mine"); ("X-Trace", "1")];
             init_body := None |}
          None))
    "Authorization"
  = Some "token srv".
Proof.
  destruct (githubFetch_headers_precedence
              {| GITHUB_ACCESS_TOKEN := Some "srv";
                 NEXT_PUBLIC_GITHUB_ACCESS_TOKEN := None |}
              {| init_method := Some "POST";
                 init_headers := [("Authorization", "token mine"); ("X-Trace", "1")];
                 init_body := None |}
              None "Authorization") as [E _].
  - cbn. repeat constructor; cbn; intuition discriminate.
  - rewrite E. reflexivity.
Defined.

(** X3. [fetchRateLimit] issues one request, to the rate-limit endpoint,
    with exactly the headers of [createGitHubHeaders]; it returns the
    decoded body of a 2xx answer and throws
    ["Failed to fetch rate limit: <status>"] on any other status, without
    looking at the body. *)
Theorem fetchRateLimit_outcome {S : Type}
    (answer : Request -> Response GitHubRateLimit) (env : ProcessEnv)
    (clientToken : option string) (r : Run S) :
  let req := GET "https://api.github.com/rate_limit"
                 (githubService.createGitHubHeaders env clientToken) in
  let run := fetchRateLimit answer env clientToken r in
  trace (snd run) = List.app (trace r) [req] /\
  state (snd run) = state r /\
  (forall status body, answer req = Http status body -> ok status = false ->
     fst run = Throw (Error ("Failed to fetch rate limit: " ++ JS.String_of_Z status))) /\
  (forall status data, answer req = Http status (Some data) -> ok status = true ->
     fst run = Return data).
Proof.
  cbv zeta. unfold fetchRateLimit, bind, fetch, json, ret, throw.
  assert (Hh : init_headers (mergedOptions env no_options clientToken)
               = githubService.createGitHubHeaders env clientToken).
  { unfold mergedOptions, githubService.createGitHubHeaders. cbn [init_headers].
    destruct (githubService.getGitHubToken env clientToken) as [t |];
      [destruct (JS.truthy (Some t)) |]; reflexivity. }
  rewrite Hh.
  destruct (answer _) as [| status body]; cbn.
  - repeat split; intros; discriminate.
  - destruct (ok status) eqn:Eok; cbn; [destruct body as [data |]; cbn |];
      (split; [reflexivity |]); (split; [reflexivity |]);
      split; intros st b E Hok; inversion E; subst; congruence.
Qed.

Lemma fetchRateLimit_outcome_witness :
  fst (fetchRateLimit (S := unit) (fun _ => Http 403 None) no_credentials None
         (start tt))
  = Throw (Error "Failed to fetch rate limit: 403").
Proof.
  destruct (fetchRateLimit_outcome (S := unit) (fun _ => Http 403 None)
              no_credentials None (start tt)) as (_ & _ & Hbad & _).
  apply (Hbad 403 None); reflexivity.
Defined.

(** X4. The rate-limit route never lets its caller's token reach GitHub:
    the one request it issues is the same whatever token the query
    carries, authorized by the server's own token only.  It never throws:
    a network failure, a non-2xx status or an undecodable body all give
    the 500 response with the fixed message. *)
Theorem rate_limit_route_ignores_client_token {S : Type}
    (answer : Request -> Response GitHubRateLimit) (env : ProcessEnv)
    (clientToken : option string) (r : Run S) :
  let req := GET "https://api.github.com/rate_limit"
                 (githubToken.createGitHubHeaders env None) in
  let run := GET_handler answer env clientToken r in
  trace (snd run) = List.app (trace r) [req] /\
  trace (snd run) = trace (snd (GET_handler answer env None r)) /\
  (exists response, fst run = Return response) /\
  ((answer req = NetworkError \/
    (exists status body, answer req = Http status body /\ ok status = false) \/
    (exists status, answer req = Http status None)) ->
   fst run = Return (JsonError 500 "Failed to check GitHub rate limit")).
Proof.
  cbv zeta. unfold GET_handler, try_catch, bind, fetch, json, ret, throw.
  destruct (answer _) as [| status [data |]]; cbn.
  - split; [reflexivity |]. split; [reflexivity |]. split; eauto.
  - destruct (ok status) eqn:Eok; cbn;
      (split; [reflexivity |]); (split; [reflexivity |]); (split; [eauto |]).
    + intros [E | [(st & b & E & Hok) | (st & E)]]; inversion E; subst;
        congruence.
    + reflexivity.
  - destruct (ok status) eqn:Eok; cbn;
      (split; [reflexivity |]); (split; [reflexivity |]); split; eauto.
Qed.

Lemma rate_limit_route_ignores_client_token_witness :
  fst (GET_handler (S := unit) (fun _ => Http 502 None) no_credentials
         (Some "ghp_client") (start tt))
  = Return (JsonError 500 "Failed to check GitHub rate limit").
Proof.
  destruct (rate_limit_route_ignores_client_token (S := unit)
              (fun _ => Http 502 None) no_credentials (Some "ghp_client")
              (start tt)) as (_ & _ & _ & Hfail).
  apply Hfail. right. left. exists 502, None. now split.
Defined.



End RequestLayer.

(** ** Pinned repositories component, continued *)

Section PinnedReposRuns.
Import Fetch PinnedRepos PinnedLists.
Context `{Host}.
Variables (w : World) (env : ProcessEnv) (token : option string).
Variables (username : string) (repos : list Repository).
Hypothesis username_given : username <> "".
Hypothesis repos_given : repos <> [].

Let activeToken : option string := JS.or_else (GITHUB_ACCESS_TOKEN env) token.

Lemma component_runs :
  component w env token username repos
  = snd (fetchPinnedRepos w env token username repos (start initial)).
Proof.
  unfold component.
  destruct (String.eqb_spec username "") as [E | _]; [contradiction |].
  destruct repos as [| r0 rs]; [contradiction | reflexivity].
Qed.

(** How a run ends: with the matches of the pinned names when a token
    is at hand, the endpoint answers with names and at least one of them
    is the name of a repository of the list; with the heuristic list
    otherwise. *)
Lemma PinnedRepos_run :
  exists tr : list Request,
    component w env token username repos
    = {| state := {| pinnedRepos :=
                       match (if JS.truthy activeToken
                              then pinned_names
                                     (graphql w
                                        (GraphQL_pinnedItems
                                           ("bearer " ++ JS.template_undefined activeToken)
                                           username))
                              else None) with
                       | Some names =>
                           match matched repos names with
                           | [] => heuristic repos
                           | found => found
                           end
                       | None => heuristic repos
                       end;
                     loading := false; error := "" |};
         trace := tr; ticks := 0 |} /\
    tr = (if JS.truthy activeToken
          then [GraphQL_pinnedItems ("bearer " ++ JS.template_undefined activeToken)
                  username]
          else []).
Proof.
  rewrite component_runs. unfold fetchPinnedRepos. fold activeToken.
  unfold setLoading, setError, setPinnedRepos, finally, try_catch, bind, fetch,
    json, set, ret, throw, start, pinned_names, heuristic.
  destruct activeToken as [t |] eqn:Et; cbn [JS.template_undefined].
  - destruct (JS.truthy (Some t)); cbn.
    + destruct (graphql w _) as [| status [[names |] |]]; cbn;
        try (eexists; split; reflexivity).
      fold (matched repos names).
      destruct (matched repos names) as [| m ms] eqn:Em; cbn;
        eexists; split; reflexivity.
    + eexists; split; reflexivity.
  - cbn. eexists; split; reflexivity.
Qed.

Lemma matched_In (names : list string) (r : Repository) :
  In r (matched repos names) -> In r repos /\ In (name r) names.
Proof.
  unfold matched. rewrite in_flat_map. intros (n & Hn & Hr).
  destruct (JS.find _ repos) as [full |] eqn:F; [| contradiction].
  destruct Hr as [<- | []]. apply find_some in F. destruct F as [Hin Hname].
  apply String.eqb_eq in Hname. rewrite Hname. now split.
Qed.

Lemma heuristic_In (r : Repository) :
  In r (heuristic repos) -> In r repos /\ fork r = false.
Proof.
  unfold heuristic. intros Hr. apply In_firstn_inv in Hr.
  apply filter_In in Hr. destruct Hr as [Hin Hf]. split.
  - eapply Permutation_in; [apply sort_perm | exact Hin].
  - now destruct (fork r).
Qed.

(** X6. The component only ever shows repositories of the list it was
    given and never ends in its error state.  With a token at hand, when
    the GraphQL endpoint answers the pinned-items query with names of
    which at least one is the name of a repository of the list, it shows
    the repositories of the list that carry those names, in the order of
    the pins; in every other case (no token, no answer, no names, or no
    name of the list) it shows the heuristic list, which has at most six
    entries, none of them a fork. *)
Theorem PinnedRepos_shows_given_repositories :
  let final := state (component w env token username repos) in
  let answer :=
    graphql w
      (GraphQL_pinnedItems ("bearer " ++ JS.template_undefined activeToken)
         username) in
  error final = "" /\ loading final = false /\
  Forall (fun r => In r repos) (pinnedRepos final) /\
  (forall names,
     JS.truthy activeToken = true -> pinned_names answer = Some names ->
     matched repos names <> [] ->
     pinnedRepos final = matched repos names /\
     Forall (fun r => In (name r) names) (pinnedRepos final)) /\
  (JS.truthy activeToken = false \/ pinned_names answer = None \/
   (exists names, pinned_names answer = Some names /\ matched repos names = []) ->
   pinnedRepos final = heuristic repos) /\
  (List.length (heuristic repos) <= 6)%nat /\
  Forall (fun r => fork r = false) (heuristic repos).
Proof.
  cbv zeta. destruct PinnedRepos_run as (tr & E & _). rewrite E.
  cbn [state error loading pinnedRepos].
  split; [reflexivity |]. split; [reflexivity |].
  assert (Hheur : Forall (fun r => In r repos) (heuristic repos)).
  { apply Forall_forall. intros r Hr. now apply heuristic_In in Hr. }
  split; [| split; [| split; [| split]]].
  - destruct (JS.truthy activeToken); [| exact Hheur].
    destruct (pinned_names _) as [names |]; [| exact Hheur].
    destruct (matched repos names) as [| m ms] eqn:Em; [exact Hheur |].
    rewrite <- Em. apply Forall_forall. intros r Hr.
    now apply matched_In in Hr.
  - intros names Ht Hnames Hm. rewrite Ht, Hnames.
    destruct (matched repos names) as [| m ms] eqn:Em; [contradiction |].
    split; [reflexivity |]. rewrite <- Em.
    apply Forall_forall. intros r Hr. now apply matched_In in Hr.
  - intros [Ht | [Hnone | (names & Hnames & Hm)]].
    + now rewrite Ht.
    + rewrite Hnone. now destruct (JS.truthy activeToken).
    + rewrite Hnames. destruct (JS.truthy activeToken); [rewrite Hm |]; reflexivity.
  - unfold heuristic. apply firstn_le_length.
  - apply Forall_forall. intros r Hr. now apply heuristic_In in Hr.
Qed.

(** X7. With no token, neither in the environment nor as a property, the
    component issues no request at all and shows the heuristic list. *)
Theorem PinnedRepos_without_token_uses_heuristic :
  JS.truthy activeToken = false ->
  trace (component w env token username repos) = [] /\
  pinnedRepos (state (component w env token username repos)) = heuristic repos.
Proof.
  intros Hno. destruct PinnedRepos_run as (tr & E & Htr). rewrite E.
  cbn [state trace pinnedRepos]. rewrite Htr, Hno. now split.
Qed.

End PinnedReposRuns.

Lemma PinnedRepos_shows_given_repositories_witness :
  PinnedRepos.pinnedRepos
    (Fetch.state
       (PinnedRepos.component (H := UTC.host)
          {| PinnedRepos.graphql :=
               fun _ => Fetch.Http 200 (Some (Some ["recent"; "gone"])) |}
          no_credentials (Some "ghp_x") "octocat" [starred_repo; recent_repo]))
  = [recent_repo].
Proof.
  destruct (PinnedRepos_shows_given_repositories (H := UTC.host)
              {| PinnedRepos.graphql :=
                   fun _ => Fetch.Http 200 (Some (Some ["recent"; "gone"])) |}
              no_credentials (Some "ghp_x") "octocat" [starred_repo; recent_repo]
              octocat_given ltac:(discriminate))
    as (_ & _ & _ & Hpins & _).
  destruct (Hpins ["recent"; "gone"] eq_refl eq_refl ltac:(discriminate))
    as (Hshown & _).
  exact Hshown.
Defined.

Lemma PinnedRepos_without_token_uses_heuristic_witness :
  Fetch.trace
    (PinnedRepos.component (H := UTC.host) PinnedRepos.world_nothing_pinned
       no_credentials None "octocat" [starred_repo; recent_repo]) = [] /\
  PinnedRepos.pinnedRepos
    (Fetch.state
       (PinnedRepos.component (H := UTC.host) PinnedRepos.world_nothing_pinned
          no_credentials None "octocat" [starred_repo; recent_repo]))
  = PinnedLists.heuristic (H := UTC.host) [starred_repo; recent_repo].
Proof.
  apply (PinnedRepos_without_token_uses_heuristic (H := UTC.host)
           PinnedRepos.world_nothing_pinned no_credentials None "octocat"
           [starred_repo; recent_repo] octocat_given ltac:(discriminate)).
  reflexivity.
Defined.

(** ** Activity graph, continued *)

Section ScanFacts.
Import Fetch ActivityGraph.
Variables (w : World) (headers : Headers).

Lemma selected_none_iff (l : list Repository) :
  selected w headers l = None <-> Forall (fun repo => active w headers repo = false) l.
Proof.
  induction l as [| repo rest IH].
  - split; [constructor | reflexivity].
  - rewrite selected_cons. unfold active at 1.
    destruct (owner_activity _) as [weeks |] eqn:E.
    + split; [discriminate |]. intros Hall. inversion Hall; subst.
      unfold active in *. rewrite E in *. discriminate.
    + rewrite IH. split.
      * intros Hrest. constructor; [| exact Hrest]. unfold active. now rewrite E.
      * intros Hall. now inversion Hall.
Qed.

(** The repositories asked for their statistic are an initial segment of
    the candidates; all but the last asked show no owner activity; when
    nothing is selected every candidate was asked; when one is selected
    it is the last one asked, and it shows owner activity. *)
Lemma consulted_spec (l : list Repository) :
  (exists rest, l = List.app (consulted w headers l) rest) /\
  Forall (fun repo => active w headers repo = false)
         (removelast (consulted w headers l)) /\
  (selected w headers l = None -> consulted w headers l = l) /\
  (forall found, selected w headers l = Some found ->
     exists before repo,
       consulted w headers l = List.app before [repo] /\
       active w headers repo = true /\
       commit_repo found = name repo /\
       owner_activity (participation w (participation_request headers repo))
         = Some (data found)).
Proof.
  induction l as [| repo rest (IHp & IHi & IHn & IHs)].
  - split; [now exists [] |]. split; [constructor |].
    split; [reflexivity | discriminate].
  - rewrite selected_cons. cbn [consulted].
    destruct (owner_activity (participation w (participation_request headers repo)))
      as [weeks |] eqn:E.
    + assert (Ha : active w headers repo = true) by (unfold active; now rewrite E).
      rewrite Ha.
      split; [now exists rest |]. split; [constructor |].
      split; [discriminate |].
      intros found [= <-]. exists [], repo. cbn.
      split; [reflexivity |]. split; [exact Ha |].
      split; [reflexivity | exact E].
    + assert (Ha : active w headers repo = false) by (unfold active; now rewrite E).
      rewrite Ha.
      split; [destruct IHp as (r' & Hr'); exists r'; cbn; now f_equal |].
      split.
      * destruct (consulted w headers rest) as [| c cs] eqn:Ec;
          [constructor |].
        cbn [removelast]. cbn [removelast] in IHi.
        constructor; [exact Ha | exact IHi].
      * split.
        -- intros Hn. now rewrite (IHn Hn).
        -- intros found Hf. destruct (IHs found Hf) as (before & r0 & Hc & Hr0).
           exists (repo :: before), r0. cbn. rewrite Hc. now split.
Qed.

End ScanFacts.

Section ActivityRuns2.
Import Fetch ActivityGraph.
Context `{Host}.
Variables (w : World) (env : ProcessEnv) (storage : option string).
Variable username : string.
Hypothesis username_given : username <> "".

Let headers : Headers := githubToken.createGitHubHeaders env (Some storage).
Let final : Run State := component w env storage username.

(** X8. When the repository list cannot be had (the request fails, is
    answered with a non-2xx status, or its body does not decode) the
    component ends in its error state with the fixed message, shows no
    activity, and asks for no participation statistic. *)
Theorem activity_repos_failure_is_an_error :
  (repos_of w (repos_request env storage username) = NetworkError \/
   (exists status body,
      repos_of w (repos_request env storage username) = Http status body /\
      ok status = false) \/
   (exists status,
      repos_of w (repos_request env storage username) = Http status None)) ->
  error (state final) = "Failed to load activity data" /\
  activityData (state final) = [] /\
  loading (state final) = false /\
  card (state final) = ErrorText "Failed to load activity data" /\
  trace final = [repos_request env storage username].
Proof.
  intros Hfail. unfold final, component.
  destruct (String.eqb_spec username "") as [E | _]; [contradiction |].
  cbn [negb].
  unfold fetchActivityData, setLoading, setError, setActivityData, finally,
    try_catch, bind, fetch, json, set, ret, throw, start, card.
  fold (repos_request env storage username).
  destruct (repos_of w _) as [| status [repos |]]; cbn.
  - repeat split.
  - destruct (ok status) eqn:Eok; cbn; [| repeat split].
    exfalso. destruct Hfail as [E | [(st & b & E & Hok) | (st & E)]];
      inversion E; subst; congruence.
  - destruct (ok status); repeat split.
Qed.

Variables (repos : list Repository) (status : Z).
Hypothesis repos_listed :
  repos_of w (repos_request env storage username) = Http status (Some repos).
Hypothesis repos_ok : ok status = true.

Let candidates : list Repository :=
  firstn 3 (filter (fun repo => negb (fork repo)) repos).

(** X9. The scan asks at most three repositories for their participation
    statistic: an initial segment of the first three non-fork
    repositories in upstream order, ending with the first one that shows
    owner activity if there is one; no repository after that one is
    asked, and a fork never is. *)
Theorem participation_scan_stops_at_first_match :
  exists asked rest : list Repository,
    trace final
    = repos_request env storage username
        :: map (participation_request headers) asked /\
    candidates = List.app asked rest /\
    (List.length asked <= 3)%nat /\
    Forall (fun repo => fork repo = false) asked /\
    Forall (fun repo => active w headers repo = false) (removelast asked) /\
    (Forall (fun repo => active w headers repo = false) asked -> rest = []) /\
    (forall repo, In repo asked -> active w headers repo = true ->
       exists before, asked = List.app before [repo]).
Proof.
  destruct (activity_run w env storage username username_given repos status
              repos_listed repos_ok) as (shown & n & E & _).
  fold candidates in E. fold headers in E.
  destruct (consulted_spec w headers candidates) as ((rest & Hrest) & Hinact & Hnone & Hsome).
  exists (consulted w headers candidates), rest.
  unfold final. rewrite E. cbn [trace].
  split; [reflexivity |]. split; [exact Hrest |].
  assert (Hsub : forall repo, In repo (consulted w headers candidates) ->
                              In repo candidates).
  { intros repo Hin. rewrite Hrest. apply in_or_app. now left. }
  split; [apply consulted_at_most_three |].
  split.
  { apply Forall_forall. intros repo Hin. apply Hsub in Hin.
    unfold candidates in Hin. apply In_firstn_inv in Hin.
    apply filter_In in Hin. destruct Hin as [_ Hf]. now destruct (fork repo). }
  split; [exact Hinact |].
  split.
  - intros Hall.
    destruct (selected w headers candidates) as [found |] eqn:Es.
    + destruct (Hsome found eq_refl) as (before & r0 & Hc & Ha & _).
      rewrite Hc in Hall. apply Forall_app in Hall. destruct Hall as [_ Hl].
      inversion Hl; subst. congruence.
    + specialize (Hnone eq_refl). rewrite Hnone in Hrest.
      rewrite <- (app_nil_r candidates) in Hrest at 1.
      now apply app_inv_head in Hrest.
  - intros repo Hin Hact.
    destruct (selected w headers candidates) as [found |] eqn:Es.
    + destruct (Hsome found eq_refl) as (before & r0 & Hc & Ha & _).
      rewrite Hc in Hin, Hinact |- *. rewrite removelast_last in Hinact.
      apply in_app_or in Hin. destruct Hin as [Hb | [<- | []]].
      * rewrite Forall_forall in Hinact. specialize (Hinact _ Hb). congruence.
      * now exists before.
    + apply selected_none_iff in Es. rewrite Forall_forall in Es.
      specialize (Es repo (Hsub repo Hin)). congruence.
Qed.

Lemma map_filter_commute {A B : Type} (f : A -> B) (p : B -> bool) (l : list A) :
  map f (filter (fun a => p (f a)) l) = filter p (map f l).
Proof.
  induction l as [| a l IH]; cbn; [reflexivity |].
  destruct (p (f a)); cbn; now rewrite IH.
Qed.

(** X10. When a repository is selected, the chart shows its owner weeks with
    a positive count, in order; a week with no commit is left out. *)
Theorem activity_shows_positive_owner_weeks (found : CommitData) :
  selected w headers candidates = Some found ->
  map commits (activityData (state final))
    = filter (fun count => 0 <? count) (data found) /\
  Forall (fun point => 0 < commits point) (activityData (state final)) /\
  error (state final) = "".
Proof.
  intros Hsel.
  destruct (activity_run w env storage username username_given repos status
              repos_listed repos_ok) as (shown & n & E & _ & _ & Hweeks).
  fold candidates in Hweeks. fold headers in Hweeks.
  destruct (Hweeks found Hsel) as (points & Hc & Hshown).
  unfold final. rewrite E. cbn [state activityData error]. subst shown.
  split; [| split; [| reflexivity]].
  - rewrite (map_filter_commute commits (fun count => 0 <? count)).
    now rewrite Hc.
  - apply Forall_forall. intros p Hp. apply filter_In in Hp.
    destruct Hp as [_ Hp]. now apply Z.ltb_lt in Hp.
Qed.

End ActivityRuns2.

Lemma participation_scan_stops_at_first_match_witness :
  Fetch.trace
    (ActivityGraph.component (H := UTC.host) ActivitySamples.world_busy_second
       no_credentials None "octocat")
  = ActivityGraph.repos_request no_credentials None "octocat"
      :: map (ActivityGraph.participation_request
                (githubToken.createGitHubHeaders no_credentials (Some None)))
             [ActivitySamples.quiet; ActivitySamples.busy].
Proof.
  destruct (participation_scan_stops_at_first_match (H := UTC.host)
              ActivitySamples.world_busy_second no_credentials None "octocat"
              octocat_given
              [ActivitySamples.quiet; ActivitySamples.busy; ActivitySamples.later]
              200 eq_refl eq_refl) as (asked & rest & E & _).
  reflexivity.
Defined.

Lemma activity_shows_positive_owner_weeks_witness :
  map ActivityGraph.commits
    (ActivityGraph.activityData
       (Fetch.state
          (ActivityGraph.component (H := UTC.host)
             ActivitySamples.world_busy_second no_credentials None "octocat")))
  = [3; 5].
Proof.
  destruct (activity_shows_positive_owner_weeks (H := UTC.host)
              ActivitySamples.world_busy_second no_credentials None "octocat"
              octocat_given
              [ActivitySamples.quiet; ActivitySamples.busy; ActivitySamples.later]
              200 eq_refl eq_refl
              {| ActivityGraph.commit_repo := "busy";
                 ActivityGraph.data := [0; 3; 0; 5] |} eq_refl) as (E & _).
  rewrite E. reflexivity.
Defined.

Lemma activity_repos_failure_is_an_error_witness :
  ActivityGraph.card
    (Fetch.state
       (ActivityGraph.component (H := UTC.host)
          ActivitySamples.world_rate_limited no_credentials None "octocat"))
  = ActivityGraph.ErrorText "Failed to load activity data".
Proof.
  apply (activity_repos_failure_is_an_error (H := UTC.host)
           ActivitySamples.world_rate_limited no_credentials None "octocat"
           octocat_given).
  right. left. exists 403, None. now split.
Defined.

(** *** Push dates by month *)

Section PushDates.
Import ActivityGraph.
Context `{Host}.

Lemma lookup_count_key (m : list (string * Z)) (k k' : string) :
  lookup (count_key m k) k'
  = if String.eqb k k' then lookup m k' + 1 else lookup m k'.
Proof.
  unfold lookup. induction m as [| [k0 v0] m IH]; cbn.
  - now destruct (String.eqb k k').
  - destruct (String.eqb_spec k0 k) as [-> | Hk]; cbn.
    + destruct (String.eqb_spec k k') as [-> | Hne]; [| reflexivity].
      destruct (Z.eqb_spec v0 0) as [-> | _]; reflexivity.
    + destruct (String.eqb_spec k0 k') as [-> | Hk'].
      * destruct (String.eqb_spec k k'); [congruence | reflexivity].
      * exact IH.
Qed.

Lemma count_key_keys (m : list (string * Z)) (k k' : string) :
  In k' (map fst (count_key m k)) <-> k' = k \/ In k' (map fst m).
Proof.
  induction m as [| [k0 v0] m IH]; cbn.
  - intuition.
  - destruct (String.eqb_spec k0 k) as [-> | Hk]; cbn; [intuition |].
    rewrite IH. intuition.
Qed.

Lemma count_key_NoDup (m : list (string * Z)) (k : string) :
  NoDup (map fst m) -> NoDup (map fst (count_key m k)).
Proof.
  induction m as [| [k0 v0] m IH]; cbn; intros Hm.
  - repeat constructor. intros [].
  - inversion Hm as [| ? ? Hnotin Hm']; subst.
    destruct (String.eqb_spec k0 k) as [-> | Hk]; cbn.
    + now constructor.
    + constructor; [| now apply IH].
      rewrite count_key_keys. intros [-> | Hin]; [congruence | contradiction].
Qed.

Lemma count_key_length (m : list (string * Z)) (k : string) :
  (List.length (count_key m k) <= S (List.length m))%nat.
Proof.
  induction m as [| [k0 v0] m IH]; cbn; [lia |].
  destruct (String.eqb k0 k); cbn; lia.
Qed.

Lemma fold_count_key (keys : list string) (m : list (string * Z)) :
  let m' := fold_left count_key keys m in
  (forall k, lookup m' k = lookup m k + occurrences k keys) /\
  (forall k, In k (map fst m') <-> In k keys \/ In k (map fst m)) /\
  (NoDup (map fst m) -> NoDup (map fst m')) /\
  (List.length m' <= List.length keys + List.length m)%nat.
Proof.
  cbv zeta. revert m. induction keys as [| k0 keys IH]; intros m; cbn [fold_left].
  - unfold occurrences. cbn. repeat split; intros; try lia; intuition.
  - destruct (IH (count_key m k0)) as (Hl & Hk & Hn & Hlen).
    split; [| split; [| split]].
    + intros k. rewrite Hl, lookup_count_key. unfold occurrences. cbn [filter].
      rewrite (String.eqb_sym k k0).
      destruct (String.eqb k0 k); cbn [List.length]; lia.
    + intros k. rewrite Hk, count_key_keys. cbn. intuition.
    + intros Hm. now apply Hn, count_key_NoDup.
    + pose proof (count_key_length m k0). cbn [List.length]. lia.
Qed.

Lemma fold_left_map_keys {A : Type} (f : A -> string) (l : list A)
    (m : list (string * Z)) :
  fold_left (fun activityMap a => count_key activityMap (f a)) l m
  = fold_left count_key (map f l) m.
Proof.
  revert m. induction l as [| a l IH]; intros m; cbn; [reflexivity | apply IH].
Qed.

Lemma skipn_In {A : Type} (n : nat) (x : A) (l : list A) :
  In x (skipn n l) -> In x l.
Proof.
  intros Hx. rewrite <- (firstn_skipn n l). apply in_or_app. now right.
Qed.

Lemma skipn_NoDup {A : Type} (n : nat) (l : list A) :
  NoDup l -> NoDup (skipn n l).
Proof.
  intros Hl. rewrite <- (firstn_skipn n l) in Hl.
  now apply NoDup_app_remove_l in Hl.
Qed.

(** X11. The fallback of the activity graph: at most twelve points, no month
    twice, and each point counts the repositories pushed in its month
    (at least one); with at most twelve repositories every month that
    has a push is shown. *)
Theorem byPushDates_counts_each_month (repos : list Repository) :
  let points := byPushDates repos in
  let keys := map dateKey_of repos in
  (List.length points <= 12)%nat /\
  NoDup (map date points) /\
  (forall point, In point points ->
     In (date point) keys /\
     commits point = occurrences (date point) keys /\
     1 <= commits point) /\
  ((List.length repos <= 12)%nat ->
   forall repo, In repo repos -> In (dateKey_of repo) (map date points)).
Proof.
  cbv zeta. unfold byPushDates. rewrite fold_left_map_keys.
  set (keys := map dateKey_of repos).
  destruct (fold_count_key keys []) as (Hl & Hk & Hn & Hlen).
  set (m := fold_left count_key keys []) in *.
  set (sorted := JS.sort (fun a b => String.ltb b a) (map fst m)).
  assert (Hperm : Permutation sorted (map fst m)) by apply sort_perm.
  set (g := fun dateKey : string => _).
  assert (Hdate : forall l, map date (map g l) = l).
  { intros l. rewrite map_map. rewrite <- (map_id l) at 2. apply map_ext.
    intros k. unfold g. now destruct (JS.split_on "-" k) as [| y [| mth ?]]. }
  assert (Hcommits : forall k, commits (g k) = lookup m k).
  { intros k. unfold g. now destruct (JS.split_on "-" k) as [| y [| mth ?]]. }
  unfold JS.slice_last.
  split; [| split; [| split]].
  - rewrite length_skipn. lia.
  - rewrite <- skipn_map, Hdate. apply skipn_NoDup.
    eapply Permutation_NoDup; [symmetry; exact Hperm |].
    apply Hn. constructor.
  - intros point Hp. apply skipn_In in Hp. apply in_map_iff in Hp.
    destruct Hp as (k & <- & Hkin).
    assert (Hkeys : In k keys).
    { apply (Permutation_in _ Hperm) in Hkin. apply Hk in Hkin.
      destruct Hkin as [Hkin | []]. exact Hkin. }
    assert (Hd : date (g k) = k).
    { unfold g. now destruct (JS.split_on "-" k) as [| y [| mth ?]]. }
    rewrite Hd, Hcommits, Hl. cbn [lookup List.find].
    split; [exact Hkeys |]. split; [unfold lookup; cbn; lia |].
    unfold lookup, occurrences. cbn.
    assert (Hin : In k (filter (String.eqb k) keys)).
    { apply filter_In. split; [exact Hkeys | apply String.eqb_refl]. }
    destruct (filter (String.eqb k) keys); [contradiction | cbn; lia].
  - intros Hfew repo Hrepo.
    assert (Hall : (List.length (map g sorted) <= 12)%nat).
    { rewrite length_map. unfold sorted. rewrite sort_length, length_map.
      unfold keys in Hlen. rewrite length_map in Hlen. cbn in Hlen. lia. }
    replace (List.length (map g sorted) - 12)%nat with 0%nat by lia.
    cbn [skipn]. rewrite Hdate.
    apply (Permutation_in _ (Permutation_sym Hperm)). apply Hk. left.
    unfold keys. now apply in_map.
Qed.

End PushDates.

Lemma byPushDates_counts_each_month_witness :
  In (ActivityGraph.dateKey_of (H := UTC.host) ActivitySamples.busy)
     (map ActivityGraph.date
        (ActivityGraph.byPushDates (H := UTC.host)
           [ActivitySamples.quiet; ActivitySamples.busy; ActivitySamples.later])).
Proof.
  destruct (byPushDates_counts_each_month (H := UTC.host)
              [ActivitySamples.quiet; ActivitySamples.busy; ActivitySamples.later])
    as (_ & _ & _ & Hall).
  apply Hall.
  - cbn. lia.
  - right. now left.
Defined.

(** ** Similar profiles, continued *)

Section SimilarProfilesMore.
Import Fetch SimilarProfiles.
Variables (w : World) (env : ProcessEnv) (storage : option string).
Variables (user : GitHubUser) (repos : list Repository).

Let headers : Headers := githubToken.createGitHubHeaders env (Some storage).
Let final : Run State := component w env storage user repos.

(** X12. With no repository, or with repositories that carry neither a
    language nor a topic, the component issues no request at all and has
    nothing to show, without error. *)
Theorem similar_profiles_without_signal_asks_nothing :
  repos = [] \/ has_signal repos = false ->
  trace final = [] /\ similarUsers (state final) = [] /\ error (state final) = "".
Proof.
  unfold final, component. intros [-> | Hsig]; [repeat split |].
  destruct (0 <? Z.of_nat (List.length repos)); [| repeat split].
  unfold has_signal in Hsig. apply negb_false_iff in Hsig.
  unfold findSimilarProfiles. rewrite Hsig.
  repeat split.
Qed.

Lemma discovered_not_self (c : SimilarUser) :
  In c (discovered w headers user repos) -> su_login c <> login user.
Proof.
  assert (Hmap : forall reason l,
             In c (map (candidate reason) (filter (not_self user) l)) ->
             su_login c <> login user).
  { intros reason l Hc. apply in_map_iff in Hc. destruct Hc as (a & <- & Ha).
    apply filter_In in Ha. destruct Ha as [_ Ha]. unfold not_self in Ha. cbn.
    now destruct (String.eqb_spec (account_login a) (login user)). }
  unfold discovered, discovered_byLanguage, discovered_byTopics,
    discovered_byFollowers.
  rewrite !in_app_iff.
  intros [Hc | [Hc | Hc]];
    repeat match type of Hc with
           | In _ (match ?x with _ => _ end) => destruct x
           | In _ (if ?x then _ else _) => destruct x
           end;
    try contradiction; eapply Hmap; exact Hc.
Qed.

(** X13. The user whose profile is shown is never among the suggestions,
    whatever the searches and the follower lists return. *)
Theorem similar_profiles_never_suggest_the_user :
  Forall (fun s => su_login s <> login user) (similarUsers (state final)).
Proof.
  destruct (findSimilarProfiles_outcome w env storage user repos)
    as [[E _] | [_ E]]; unfold final; rewrite E.
  - constructor.
  - apply Forall_forall. intros s Hs. apply in_map_iff in Hs.
    destruct Hs as (c & <- & Hc). rewrite enriched_login.
    apply In_firstn_inv, first_by_In in Hc.
    now apply discovered_not_self.
Qed.

(** X14. A language search that cannot be reached ends the run: the error
    state is set, nothing is suggested, and neither the topic search nor
    the follower lists are asked for. *)
Theorem similar_profiles_search_failure_aborts (lang : string) :
  repos <> [] -> has_signal repos = true ->
  primaryLanguage_of repos = Some lang -> lang <> "" ->
  search w
    (GET ("https://api.github.com/search/repositories?q=language:" ++ lang
            ++ "+stars:>10&sort=stars&per_page=5") headers) = NetworkError ->
  error (state final) = "Failed to find similar profiles" /\
  similarUsers (state final) = [] /\
  loading (state final) = false /\
  trace final
  = [GET ("https://api.github.com/search/repositories?q=language:" ++ lang
            ++ "+stars:>10&sort=stars&per_page=5") headers].
Proof.
  intros Hrepos Hsig Hlang Hne Hdown.
  assert (Hby : forall (m : UserMap) (r : Run State),
             byLanguage w headers user (Some lang) m r
             = (Throw failed_to_fetch,
                {| state := state r;
                   trace := List.app (trace r)
                     [GET ("https://api.github.com/search/repositories?q=language:"
                             ++ lang ++ "+stars:>10&sort=stars&per_page=5") headers];
                   ticks := ticks r |})).
  { intros m r. unfold byLanguage.
    replace (JS.truthy (Some lang)) with true
      by (cbn; now destruct (String.eqb_spec lang "")).
    unfold bind at 1. unfold fetch at 1. now rewrite Hdown. }
  assert (E : final
              = {| state := {| similarUsers := []; loading := false;
                               error := "Failed to find similar profiles" |};
                   trace := [GET ("https://api.github.com/search/repositories?q=language:"
                                    ++ lang ++ "+stars:>10&sort=stars&per_page=5")
                                 headers];
                   ticks := 0 |}).
  { unfold final, component.
    replace (0 <? Z.of_nat (List.length repos)) with true
      by (symmetry; apply Z.ltb_lt; destruct repos; [contradiction | cbn; lia]).
    unfold has_signal in Hsig. apply negb_true_iff in Hsig.
    unfold findSimilarProfiles, setLoading, setError, setSimilarUsers.
    rewrite (bind_return _ _ _ _ _ (set_run _ _)).
    rewrite (bind_return _ _ _ _ _ (set_run _ _)).
    unfold finally, try_catch. fold headers. rewrite Hsig, Hlang.
    rewrite (bind_throw _ _ _ _ _ (Hby _ _)). reflexivity. }
  rewrite E. repeat split.
Qed.

End SimilarProfilesMore.

Lemma similar_profiles_without_signal_asks_nothing_witness :
  Fetch.trace
    (SimilarProfiles.component SimilarProfiles.world_crowded no_credentials None
       octocat [SimilarSamples.bare_repo]) = [].
Proof.
  apply (similar_profiles_without_signal_asks_nothing SimilarProfiles.world_crowded
           no_credentials None octocat [SimilarSamples.bare_repo]).
  right. reflexivity.
Defined.

Lemma similar_profiles_search_failure_aborts_witness :
  SimilarProfiles.error
    (Fetch.state
       (SimilarProfiles.component SimilarSamples.world_search_down no_credentials
          None octocat [SimilarProfiles.rust_cli]))
  = "Failed to find similar profiles".
Proof.
  apply (similar_profiles_search_failure_aborts SimilarSamples.world_search_down
           no_credentials None octocat [SimilarProfiles.rust_cli] "Rust");
    solve [reflexivity | discriminate].
Defined.

Section PrimaryLanguage.
Import SimilarProfiles.

Lemma count_language_is_count_key (m : list (string * Z)) (k : string) :
  count_language m k = ActivityGraph.count_key m k.
Proof.
  induction m as [| [k0 v0] m IH]; cbn; [reflexivity |].
  now rewrite IH.
Qed.

Lemma languageCounts_fold (repos : list Repository) (m : list (string * Z)) :
  fold_left (fun languageCounts repo =>
               match language repo with
               | Some lang => if JS.truthy (language repo)
                              then count_language languageCounts lang
                              else languageCounts
               | None => languageCounts
               end) repos m
  = fold_left ActivityGraph.count_key (ProfilePage.languages_of repos) m.
Proof.
  revert m. induction repos as [| repo repos IH]; intros m; cbn.
  - reflexivity.
  - rewrite fold_left_app, IH. f_equal.
    destruct (language repo) as [lang |]; cbn; [| reflexivity].
    destruct (String.eqb lang ""); cbn; [reflexivity |].
    apply count_language_is_count_key.
Qed.

Lemma lookup_In (m : list (string * Z)) (k : string) (v : Z) :
  NoDup (map fst m) -> In (k, v) m -> ActivityGraph.lookup m k = v.
Proof.
  unfold ActivityGraph.lookup. induction m as [| [k0 v0] m IH]; cbn.
  - intros _ [].
  - intros Hm [[= -> ->] | Hin].
    + now rewrite String.eqb_refl.
    + inversion Hm as [| ? ? Hnotin Hm']; subst.
      destruct (String.eqb_spec k0 k) as [-> | _].
      * exfalso. apply Hnotin. change k with (fst (k, v)). now apply in_map.
      * now apply IH.
Qed.

Lemma occurrences_nonneg (k : string) (keys : list string) :
  0 <= occurrences k keys.
Proof. unfold occurrences. lia. Qed.

(** X15. The primary language is a language of the most repositories: there
    is none exactly when no repository has a language, and otherwise no
    language is the language of more repositories than the primary one. *)
Theorem primaryLanguage_is_most_frequent (repos : list Repository) :
  let langs := ProfilePage.languages_of repos in
  (primaryLanguage_of repos = None <-> langs = []) /\
  (forall lang, primaryLanguage_of repos = Some lang ->
     In lang langs /\
     forall other, occurrences other langs <= occurrences lang langs).
Proof.
  cbv zeta. unfold primaryLanguage_of. rewrite languageCounts_fold.
  set (langs := ProfilePage.languages_of repos).
  destruct (fold_count_key langs []) as (Hl & Hk & Hn & _).
  set (m := fold_left ActivityGraph.count_key langs []) in *.
  specialize (Hn ltac:(constructor)).
  pose proof (sort_perm (fun a b : string * Z => 0 <? snd b - snd a) m) as Hperm.
  pose proof (sort_desc_sorted (fun a : string * Z => snd a) m) as Hsorted.
  cbv zeta in Hsorted.
  destruct (JS.sort (fun a b : string * Z => 0 <? snd b - snd a) m)
    as [| [lang v] rest] eqn:Es; cbn [map hd_error fst].
  - apply Permutation_nil in Hperm.
    split.
    + split; [| reflexivity]. intros _.
      destruct langs as [| l0 ls] eqn:El; [reflexivity |].
      assert (Hin : In l0 (map fst m)) by (apply Hk; left; now left).
      rewrite Hperm in Hin. contradiction.
    + discriminate.
  - assert (Hhead : In (lang, v) m).
    { eapply Permutation_in; [exact Hperm | now left]. }
    assert (Hlang : In lang langs).
    { assert (Hin : In lang (map fst m)).
      { change lang with (fst (lang, v)). now apply in_map. }
      apply Hk in Hin. destruct Hin as [Hin | []]. exact Hin. }
    split.
    + split; [discriminate |]. intros Hnil. rewrite Hnil in Hlang. contradiction.
    + intros lang' [= <-]. split; [exact Hlang |].
      intros other.
      assert (Hv : occurrences lang langs = v).
      { rewrite <- (lookup_In m lang v Hn Hhead), Hl. cbn. lia. }
      rewrite Hv.
      destruct (in_dec string_dec other (map fst m)) as [Hin | Hnotin].
      * apply in_map_iff in Hin. destruct Hin as ([k' v'] & Hk' & Hin).
        cbn in Hk'. subst k'.
        assert (Hv' : occurrences other langs = v').
        { rewrite <- (lookup_In m other v' Hn Hin), Hl. cbn. lia. }
        rewrite Hv'.
        apply (Permutation_in _ (Permutation_sym Hperm)) in Hin.
        destruct Hin as [[= _ ->] | Hin]; [lia |].
        inversion Hsorted as [| ? ? _ Hall]; subst.
        rewrite Forall_forall in Hall. exact (Hall _ Hin).
      * assert (Hz : occurrences other langs = 0).
        { unfold occurrences.
          destruct (filter (String.eqb other) langs) as [| x xs] eqn:Ef;
            [reflexivity |].
          exfalso. apply Hnotin. apply Hk. left.
          assert (Hx : In x (filter (String.eqb other) langs))
            by (rewrite Ef; now left).
          apply filter_In in Hx. destruct Hx as [Hx He].
          apply String.eqb_eq in He. now subst. }
        rewrite Hz, <- Hv. apply occurrences_nonneg.
Qed.

End PrimaryLanguage.

Lemma primaryLanguage_is_most_frequent_witness :
  In "Rust" (ProfilePage.languages_of SimilarSamples.polyglot) /\
  forall other,
    occurrences other (ProfilePage.languages_of SimilarSamples.polyglot)
    <= occurrences "Rust" (ProfilePage.languages_of SimilarSamples.polyglot).
Proof.
  apply (primaryLanguage_is_most_frequent SimilarSamples.polyglot).
  reflexivity.
Defined.

(** ** Profile page, continued *)

Section ProfilePageMore.
Import Fetch ProfilePage PinnedEntry.
Context `{Host}.
Variables (w : World) (env : ProcessEnv) (storage : option string).
Variable username : string.
Hypothesis username_given : username <> "".

Ltac step := cbn [state trace ticks fst snd List.app negb stage1_items].

Ltac open_run :=
  unfold pageView, fetchGitHubProfile;
  destruct (String.eqb_spec username "") as [E | _]; [contradiction |];
  unfold finally, try_catch, bind, fetch, json, setLoading, setError,
    setUserData, setRepos, setPinnedRepos, extractSkills, fallbackRepos,
    setSkills, set, start, ret, throw;
  step; fold (user_request env storage username).

Lemma or_now_keeps (value : string) (r : Run PageState) :
  value <> "" -> fst (or_now (Some value) r) = Return value.
Proof.
  intros Hne. unfold or_now. cbn.
  destruct (String.eqb_spec value ""); [contradiction | reflexivity].
Qed.

Lemma formatPinnedRepo_formatted (l : list Repository) (item : PinnedItem)
    (r r' : Run PageState) (entry : Repository) :
  formatPinnedRepo (ReposArray l) item r = (Return entry, r') ->
  formatted l item entry.
Proof.
  unfold formatPinnedRepo, formatted.
  destruct (JS.find (fun repo => String.eqb (name repo) (pin_name item)) l)
    as [repo |] eqn:F.
  - cbn [option_map].
    destruct (or_now_run (Some (created_at repo)) r) as (v1 & n1 & E1 & _).
    pose proof (or_now_keeps (created_at repo) r) as K1. rewrite E1 in K1.
    unfold bind at 1. rewrite E1.
    match goal with
    | |- context [bind (or_now (Some (updated_at repo))) _ ?r1] =>
        destruct (or_now_run (Some (updated_at repo)) r1) as (v2 & n2 & E2 & _);
        pose proof (or_now_keeps (updated_at repo) r1) as K2; rewrite E2 in K2;
        unfold bind at 1; rewrite E2
    end.
    match goal with
    | |- context [bind (or_now (Some (pushed_at repo))) _ ?r2] =>
        destruct (or_now_run (Some (pushed_at repo)) r2) as (v3 & n3 & E3 & _);
        pose proof (or_now_keeps (pushed_at repo) r2) as K3; rewrite E3 in K3;
        unfold bind at 1; rewrite E3
    end.
    unfold ret. intros [= <- _]. cbn.
    repeat (split; [reflexivity |]).
    intros repo' [= <-]. cbn in K1, K2, K3.
    split; [intros Hc; specialize (K1 Hc); congruence |].
    split; [intros Hc; specialize (K2 Hc); congruence |].
    split; [intros Hc; specialize (K3 Hc); congruence | reflexivity].
  - unfold bind, or_now, now, ret. cbn. intros [= <- _]. cbn.
    repeat (split; [reflexivity |]). discriminate.
Qed.

Lemma mapM_formatPinnedRepo_formatted (l : list Repository)
    (items : list PinnedItem) (r r' : Run PageState) (out : list Repository) :
  mapM (formatPinnedRepo (ReposArray l)) items r = (Return out, r') ->
  Forall2 (formatted l) items out.
Proof.
  revert r r' out. induction items as [| item items IH]; intros r r' out.
  - cbn. unfold ret. intros [= <- _]. constructor.
  - cbn [mapM]. unfold bind at 1.
    destruct (formatPinnedRepo (ReposArray l) item r) as [[entry | e] r1] eqn:E1;
      [| discriminate].
    unfold bind at 1.
    destruct (mapM (formatPinnedRepo (ReposArray l)) items r1)
      as [[out' | e] r2] eqn:E2; [| discriminate].
    unfold ret. intros [= <- _].
    constructor; [eapply formatPinnedRepo_formatted; exact E1 | eapply IH; exact E2].
Qed.


Variables (u : GitHubUser) (l : list Repository) (st1 st2 : Z).
Hypothesis user_found :
  users w (user_request env storage username) = Http st1 (Some u).
Hypothesis user_ok : ok st1 = true.
Hypothesis repos_listed :
  repos_of w (repos_request env storage username) = Http st2 (Some (ReposArray l)).

Lemma run_graphql_maps (st3 : Z) (nodes : list PinnedItem) :
  graphql w (graphql_request env storage username) = Http st3 (Some (Some nodes)) ->
  exists (pinned : list Repository) (r0 r' : Run PageState),
    pinnedRepos (state (pageView w env storage username)) = pinned /\
    mapM (formatPinnedRepo (ReposArray l)) nodes r0 = (Return pinned, r').
Proof.
  intros Hg. open_run. rewrite user_found. step. rewrite user_ok. step.
  fold (repos_request env storage username). rewrite repos_listed. step.
  fold (graphql_request env storage username). rewrite Hg. step.
  match goal with
  | |- context [mapM (formatPinnedRepo (ReposArray l)) nodes ?r] =>
      destruct (mapM_formatPinnedRepo_run l nodes r) as (out & n & E & _);
      exists out, r; eexists; rewrite E
  end.
  split; [reflexivity | reflexivity].
Qed.

(** X17. A pinned item is shown with the name, url, stars, forks, topics and
    language of the GraphQL answer, is never marked as a fork, and, when
    the REST list has a repository of its name, carries that
    repository's non-empty timestamps and its homepage. *)
Theorem matched_pin_copies_rest_record (st3 : Z) (nodes : list PinnedItem)
    (i : nat) (item : PinnedItem) :
  graphql w (graphql_request env storage username) = Http st3 (Some (Some nodes)) ->
  nth_error nodes i = Some item ->
  exists entry,
    nth_error (pinnedRepos (state (pageView w env storage username))) i
      = Some entry /\
    formatted l item entry.
Proof.
  intros Hg Hi.
  destruct (run_graphql_maps st3 nodes Hg) as (pinned & r0 & r' & Hp & Hm).
  rewrite Hp. apply mapM_formatPinnedRepo_formatted in Hm.
  exact (Forall2_nth_error_l _ _ _ _ _ Hm Hi).
Qed.

(** X18. A profile with no repository shows "No Repositories Found",
    whatever the GraphQL endpoint answers, pins included, and with no
    skill. *)
Theorem no_repositories_state :
  l = [] ->
  render (state (pageView w env storage username))
  = Portfolio u [] NoRepositoriesFound.
Proof.
  intros ->.
  destruct (run_settles w env storage username username_given u [] st1 st2
              user_found user_ok repos_listed) as (pinned & n & E).
  rewrite E. reflexivity.
Qed.

End ProfilePageMore.


Lemma matched_pin_copies_rest_record_witness :
  exists entry,
    nth_error
      (pinnedRepos
         (Fetch.state
            (pageView (H := UTC.host) world_pinned no_credentials None "octocat")))
      1 = Some entry /\
    PinnedEntry.formatted [recent_repo; starred_repo] (sample_pin "starred") entry.
Proof.
  apply (matched_pin_copies_rest_record (H := UTC.host) world_pinned
           no_credentials None "octocat" octocat_given octocat
           [recent_repo; starred_repo] 200 200 eq_refl eq_refl eq_refl
           200 [sample_pin "elsewhere"; sample_pin "starred"] 1%nat
           (sample_pin "starred") eq_refl eq_refl).
Defined.

Lemma no_repositories_state_witness :
  render (H := UTC.host)
    (Fetch.state
       (pageView (H := UTC.host) PinnedEntry.world_pins_only no_credentials None
          "octocat"))
  = Portfolio octocat [] NoRepositoriesFound.
Proof.
  apply (no_repositories_state (H := UTC.host) PinnedEntry.world_pins_only
           no_credentials None "octocat" octocat_given octocat [] 200 200
           eq_refl eq_refl eq_refl eq_refl).
Defined.

(** ** Project detail page, continued *)

Section ProjectDetailsRuns.
Import Fetch ProjectDetailsPage.
Variable decode : string -> option string.
Variables (w : World) (env : ProcessEnv) (storage : option string).
Variables (username repoName : string).
Hypothesis username_given : username <> "".
Hypothesis repoName_given : repoName <> "".

Let final : Run PageState := pageView decode w env storage username repoName.

Ltac open_detail_run :=
  unfold final, pageView, fetchRepoData;
  destruct (String.eqb_spec username "") as [E | _]; [contradiction |];
  destruct (String.eqb_spec repoName "") as [E | _]; [contradiction |];
  cbn [orb];
  unfold setLoading, setError, setRepoData, setReadme, setContributors,
    setLanguages;
  rewrite (bind_return _ _ _ _ _ (set_run _ _));
  rewrite (bind_return _ _ _ _ _ (set_run _ _));
  unfold finally; unfold try_catch at 1; unfold bind at 1; unfold fetch at 1;
  fold (repo_request env storage username repoName).

(** X19. The repository request is required: when it is answered with a
    non-2xx status the page ends with the message naming the status, no
    repository data, and none of the README, contributors and languages
    requests issued. *)
Theorem repository_not_found_is_fatal (status : Z) (body : option Repository) :
  repo_of w (repo_request env storage username repoName) = Http status body ->
  ok status = false ->
  error (state final)
    = "Error: Repository not found (" ++ JS.String_of_Z status ++ ")" /\
  repoData (state final) = None /\
  loading (state final) = false /\
  readme (state final) = "" /\ contributors (state final) = [] /\
  languages (state final) = [] /\
  trace final = [repo_request env storage username repoName].
Proof.
  intros Hrepo Hok.
  assert (E : final
              = {| state := {| repoData := None; readme := ""; contributors := [];
                               languages := []; loading := false;
                               error := "Error: Repository not found ("
                                          ++ JS.String_of_Z status ++ ")" |};
                   trace := [repo_request env storage username repoName];
                   ticks := 0 |}).
  { open_detail_run. rewrite Hrepo. cbn. rewrite Hok. reflexivity. }
  rewrite E. repeat split.
Qed.

(** One optional section: its request is issued, and the setter is
    applied to the decoded value of a 2xx answer and not at all
    otherwise; nothing is thrown. *)
Lemma optional_section_run {A B : Type} (answer : Request -> Response A)
    (req : Request) (use : A -> option B) (setter : B -> PageState -> PageState)
    (r : Run PageState) :
  try_catch
    (bind (fetch answer req)
       (fun x => let '(status, body) := x in
          if ok status then
            bind (json body)
              (fun a => match use a with
                        | Some b => set (setter b)
                        | None => throw (Error "Invalid character")
                        end)
          else ret tt))
    (fun _ => ret tt) r
  = (Return tt,
     {| state := match answer req with
                 | Http status (Some a) =>
                     if ok status then
                       match use a with
                       | Some b => setter b (state r)
                       | None => state r
                       end
                     else state r
                 | _ => state r
                 end;
        trace := List.app (trace r) [req];
        ticks := ticks r |}).
Proof.
  unfold try_catch, bind, fetch, json, set, ret, throw.
  destruct (answer req) as [| status [a |]]; try destruct (ok status);
    try destruct (use a); reflexivity.
Qed.

Lemma detail_run (status : Z) (repo : Repository) :
  repo_of w (repo_request env storage username repoName) = Http status (Some repo) ->
  ok status = true ->
  final
  = {| state :=
         {| repoData := Some repo;
            readme :=
              section_of decode
                (readme_of w (readme_request env storage username repoName)) "";
            contributors :=
              section_of Some
                (contributors_of w
                   (contributors_request env storage username repoName)) [];
            languages :=
              section_of Some
                (languages_of w (languages_request env storage username repoName)) [];
            loading := false; error := "" |};
       trace := [repo_request env storage username repoName;
                 readme_request env storage username repoName;
                 contributors_request env storage username repoName;
                 languages_request env storage username repoName];
       ticks := 0 |}.
Proof.
  intros Hrepo Hok.
  open_detail_run. rewrite Hrepo, Hok. cbn [negb].
  unfold bind at 1. unfold json at 1. unfold ret at 1.
  rewrite (bind_return _ _ _ _ _ (set_run _ _)).
  fold (readme_request env storage username repoName).
  fold (contributors_request env storage username repoName).
  fold (languages_request env storage username repoName).
  rewrite (bind_return _ _ _ _ _
             (optional_section_run (readme_of w) _ decode
                (fun t s => {| repoData := repoData s; readme := t;
                               contributors := contributors s;
                               languages := languages s; loading := loading s;
                               error := error s |}) _)).
  rewrite (bind_return _ _ _ _ _
             (optional_section_run (contributors_of w) _ (fun l => Some l)
                (fun l s => {| repoData := repoData s; readme := readme s;
                               contributors := l;
                               languages := languages s; loading := loading s;
                               error := error s |}) _)).
  rewrite (optional_section_run (languages_of w) _ (fun l => Some l)
             (fun l s => {| repoData := repoData s; readme := readme s;
                            contributors := contributors s;
                            languages := l; loading := loading s;
                            error := error s |}) _).
  unfold section_of, set, start. cbn [state trace ticks snd fst List.app].
  destruct (readme_of w _) as [| st_r [content |]];
    try destruct (ok st_r); try destruct (decode content);
    (destruct (contributors_of w _) as [| st_c [cs |]];
     try destruct (ok st_c));
    (destruct (languages_of w _) as [| st_l [ls |]];
     try destruct (ok st_l)); reflexivity.
Qed.

(** X20. The three optional sections are isolated: once the repository data
    is in, the README, contributors and languages requests are all
    issued, in this order, whatever the others answer; no failure among
    them sets the error or clears the repository data; and each section
    holds what its own answer carries, or keeps its initial value when
    its request fails, is refused, or (for the README) does not decode. *)
Theorem optional_sections_are_isolated (status : Z) (repo : Repository) :
  repo_of w (repo_request env storage username repoName) = Http status (Some repo) ->
  ok status = true ->
  error (state final) = "" /\
  loading (state final) = false /\
  repoData (state final) = Some repo /\
  trace final = [repo_request env storage username repoName;
                 readme_request env storage username repoName;
                 contributors_request env storage username repoName;
                 languages_request env storage username repoName] /\
  readme (state final)
    = section_of decode
        (readme_of w (readme_request env storage username repoName)) "" /\
  contributors (state final)
    = section_of Some
        (contributors_of w (contributors_request env storage username repoName)) [] /\
  languages (state final)
    = section_of Some
        (languages_of w (languages_request env storage username repoName)) [].
Proof.
  intros Hrepo Hok. rewrite (detail_run status repo Hrepo Hok).
  repeat split.
Qed.

(** X21. When the languages request is not answered with a 2xx status, the
    page shows no languages section at all, so no percentage is computed
    over an empty total. *)
Theorem refused_languages_hide_the_section (status : Z) (repo : Repository)
    (st : Z) (body : option ProjectDetails.Languages) :
  repo_of w (repo_request env storage username repoName) = Http status (Some repo) ->
  ok status = true ->
  languages_of w (languages_request env storage username repoName) = Http st body ->
  ok st = false ->
  ProjectDetails.languagesSection (languages (state final)) = None.
Proof.
  intros Hrepo Hok Hl Hst. rewrite (detail_run status repo Hrepo Hok).
  cbn [state languages]. rewrite Hl. unfold section_of.
  destruct body; rewrite ?Hst; reflexivity.
Qed.

End ProjectDetailsRuns.

Lemma repository_not_found_is_fatal_witness :
  Fetch.trace
    (ProjectDetailsPage.pageView ProjectDetailsPage.sample_decoder
       ProjectDetailsPage.world_no_repo no_credentials None "octocat" "gone")
  = [ProjectDetailsPage.repo_request no_credentials None "octocat" "gone"].
Proof.
  apply (repository_not_found_is_fatal ProjectDetailsPage.sample_decoder
           ProjectDetailsPage.world_no_repo no_credentials None "octocat" "gone"
           octocat_given ltac:(discriminate) 404 None eq_refl eq_refl).
Defined.

Lemma optional_sections_are_isolated_witness :
  ProjectDetailsPage.error
    (Fetch.state
       (ProjectDetailsPage.pageView ProjectDetailsPage.sample_decoder
          ProjectDetailsPage.world_partial no_credentials None "octocat" "cli"))
  = "" /\
  ProjectDetailsPage.loading
    (Fetch.state
       (ProjectDetailsPage.pageView ProjectDetailsPage.sample_decoder
          ProjectDetailsPage.world_partial no_credentials None "octocat" "cli"))
  = false.
Proof.
  destruct (optional_sections_are_isolated ProjectDetailsPage.sample_decoder
              ProjectDetailsPage.world_partial no_credentials None "octocat" "cli"
              octocat_given ltac:(discriminate) 200 SimilarProfiles.rust_cli
              eq_refl eq_refl) as (He & Hl & _).
  now split.
Defined.

Lemma refused_languages_hide_the_section_witness :
  ProjectDetails.languagesSection
    (ProjectDetailsPage.languages
       (Fetch.state
          (ProjectDetailsPage.pageView ProjectDetailsPage.sample_decoder
             ProjectDetailsPage.world_no_languages no_credentials None
             "octocat" "cli")))
  = None.
Proof.
  apply (refused_languages_hide_the_section ProjectDetailsPage.sample_decoder
           ProjectDetailsPage.world_no_languages no_credentials None "octocat" "cli"
           octocat_given ltac:(discriminate) 200 SimilarProfiles.rust_cli 403 None
           eq_refl eq_refl eq_refl eq_refl).
Defined.

Lemma string_append_assoc (a b c : string) : (a ++ b) ++ c = a ++ (b ++ c).
Proof. induction a as [| x a IH]; cbn; [reflexivity | now rewrite IH]. Qed.

Lemma substring_whole (s : string) : substring 0 (String.length s) s = s.
Proof. induction s as [| a s IH]; cbn; [reflexivity | now rewrite IH]. Qed.

(** X22. [transformImageUri] leaves a source that starts with "http" as it
    is; whatever the source, the result starts with "http", so applying
    the function to its own result changes nothing. *)
Theorem transformImageUri_idempotent (username repoName : string)
    (repoData : option Repository) (src : string) :
  String.prefix "http"
    (ProjectDetailsPage.transformImageUri username repoName repoData src) = true /\
  ProjectDetailsPage.transformImageUri username repoName repoData
    (ProjectDetailsPage.transformImageUri username repoName repoData src)
  = ProjectDetailsPage.transformImageUri username repoName repoData src.
Proof.
  assert (Hp : String.prefix "http"
                 (ProjectDetailsPage.transformImageUri username repoName repoData src)
               = true).
  { unfold ProjectDetailsPage.transformImageUri.
    destruct (String.prefix "http" src) eqn:P; [exact P | reflexivity]. }
  split; [exact Hp |].
  unfold ProjectDetailsPage.transformImageUri at 1. now rewrite Hp.
Qed.

(** X23. A relative source is looked up in the raw content of the repository,
    on "main" while the repository data is missing; one leading slash is
    dropped, so a source written with it and the same source written
    without it give the same address. *)
Theorem transformImageUri_drops_one_slash (username repoName : string)
    (repoData : option Repository) (rest : string) :
  String.prefix "http" rest = false ->
  String.prefix "/" rest = false ->
  ProjectDetailsPage.transformImageUri username repoName repoData ("/" ++ rest)
  = ProjectDetailsPage.transformImageUri username repoName repoData rest /\
  ProjectDetailsPage.transformImageUri username repoName None rest
  = "https://raw.githubusercontent.com/" ++ username ++ "/" ++ repoName
      ++ "/main/" ++ rest.
Proof.
  intros P Q.
  assert (Hq : String.prefix "/" ("/" ++ rest) = true)
    by (destruct rest; reflexivity).
  assert (Hc : JS.slice_from 1 ("/" ++ rest) = rest).
  { unfold JS.slice_from. cbn. rewrite Nat.sub_0_r. apply substring_whole. }
  unfold ProjectDetailsPage.transformImageUri.
  rewrite Hq, Hc, P, Q. split; [reflexivity |].
  rewrite !string_append_assoc. reflexivity.
Qed.

Lemma transformImageUri_drops_one_slash_witness :
  ProjectDetailsPage.transformImageUri "octocat" "cli" None "/docs/logo.png"
  = ProjectDetailsPage.transformImageUri "octocat" "cli" None "docs/logo.png".
Proof.
  destruct (transformImageUri_drops_one_slash "octocat" "cli" None "docs/logo.png"
              eq_refl eq_refl) as (Hsame & _).
  exact Hsame.
Defined.

(** ** Commit history *)



Section CommitHistoryRuns.
Import Fetch CommitHistory.
Context `{Host}.
Variables (w : World) (env : ProcessEnv) (storage : option string).
Variable username : string.

Local Abbreviation request := (commits_request env storage).
Local Abbreviation found_in := (found w env storage username).
Local Abbreviation pushed := (fun repo : Repository => Date_getTime (pushed_at repo)).
Local Abbreviation written := (fun c : Commit => Date_getTime (commit_author_date c)).



Variable repos : list Repository.
Hypothesis some_repos : repos <> [].

Let final : Run State := history w env storage repos username.

Let allCommits : list Commit :=
  JS.sort (fun a b => 0 <? written b - written a)
    (List.concat (map found_in (topRepos repos))).







End CommitHistoryRuns.




(** ** Projects page *)

Section ProjectsPageRuns.
Import Fetch ProjectsPage.
Context `{Host}.
Variable toLowerCase : string -> string.
Variable localeCompare : string -> string -> Z.

Local Abbreviation shown := (filteredRepos toLowerCase localeCompare).

(** The list comes out of [filteredRepos] in one of three filters and one
    sort: a rearrangement of a sublist of the repositories given. *)
Lemma filteredRepos_perm (repos : list Repository) (filter : Filter)
    (sortBy : SortBy) (searchQuery : string) :
  exists keep : Repository -> bool,
    Permutation (shown repos filter sortBy searchQuery) (List.filter keep repos) /\
    (filter = source -> forall repo, keep repo = true -> fork repo = false) /\
    (filter = forked -> forall repo, keep repo = true -> fork repo = true) /\
    (filter = all -> searchQuery = "" -> forall repo, keep repo = true).
Proof.
  unfold filteredRepos.
  set (matches := fun repo : Repository =>
         includes (toLowerCase (name repo)) (toLowerCase searchQuery)
         || match description repo with
            | Some d => negb (String.eqb d "")
                        && includes (toLowerCase d) (toLowerCase searchQuery)
            | None => false
            end).
  set (kind := fun repo : Repository =>
         match filter with
         | forked => fork repo
         | source => negb (fork repo)
         | all => true
         end).
  exists (fun repo => kind repo
                      && (if negb (String.eqb searchQuery "") then matches repo
                          else true)).
  split; [| split; [| split]].
  - assert (Hk : match filter with
                 | forked => List.filter (fun repo => fork repo) repos
                 | source => List.filter (fun repo => negb (fork repo)) repos
                 | all => repos
                 end = List.filter kind repos).
    { unfold kind. destruct filter; try reflexivity.
      symmetry. apply forallb_filter_id. now apply forallb_forall. }
    cbv zeta. rewrite Hk.
    assert (Hq : (if negb (String.eqb searchQuery "")
                  then List.filter matches (List.filter kind repos)
                  else List.filter kind repos)
                 = List.filter
                     (fun repo => kind repo
                                  && (if negb (String.eqb searchQuery "")
                                      then matches repo else true)) repos).
    { destruct (negb (String.eqb searchQuery "")).
      - apply filter_both.
      - apply filter_ext. intros repo. now rewrite andb_true_r. }
    fold matches. rewrite Hq.
    destruct sortBy; apply sort_perm.
  - intros -> repo Hr. apply andb_true_iff in Hr. destruct Hr as [Hr _].
    unfold kind in Hr. now apply negb_true_iff in Hr.
  - intros -> repo Hr. apply andb_true_iff in Hr. destruct Hr as [Hr _].
    exact Hr.
  - intros -> -> repo. reflexivity.
Qed.

(** X27. Whatever the filter, the sort and the search text, the list shown
    holds only repositories of the list loaded, none of them more often
    than it is loaded; under "source" no fork is shown and under "forked"
    only forks; and with the filter "all" and no search text nothing is
    hidden. *)
Theorem projects_filter_never_invents (repos : list Repository)
    (filter : Filter) (sortBy : SortBy) (searchQuery : string) :
  (forall repo, In repo (shown repos filter sortBy searchQuery) -> In repo repos) /\
  (List.length (shown repos filter sortBy searchQuery) <= List.length repos)%nat /\
  (filter = source ->
   Forall (fun repo => fork repo = false) (shown repos filter sortBy searchQuery)) /\
  (filter = forked ->
   Forall (fun repo => fork repo = true) (shown repos filter sortBy searchQuery)) /\
  (filter = all -> searchQuery = "" ->
   Permutation (shown repos filter sortBy searchQuery) repos).
Proof.
  destruct (filteredRepos_perm repos filter sortBy searchQuery)
    as (keep & Hperm & Hsource & Hforked & Hall).
  split; [| split; [| split; [| split]]].
  - intros repo Hin. apply (Permutation_in _ Hperm) in Hin.
    now apply filter_In in Hin.
  - rewrite (Permutation_length Hperm). apply filter_length_le.
  - intros Hf. rewrite Forall_forall. intros repo Hin.
    apply (Permutation_in _ Hperm) in Hin. apply filter_In in Hin.
    now apply (Hsource Hf).
  - intros Hf. rewrite Forall_forall. intros repo Hin.
    apply (Permutation_in _ Hperm) in Hin. apply filter_In in Hin.
    now apply (Hforked Hf).
  - intros Hf Hq. eapply perm_trans; [exact Hperm |].
    rewrite forallb_filter_id; [apply Permutation_refl |].
    apply forallb_forall. intros repo _. now apply Hall.
Qed.


Variables (w : World) (env : ProcessEnv) (storage : option string).
Variable username : string.
Hypothesis username_given : username <> "".

Let final : Run PageState := loaded w env storage username.

(** X29. A repository list that is refused is an error of the page: the
    message names the status, the list is emptied, so nothing is shown
    under any filter, and the request is not repeated. *)
Theorem projects_refused_list_is_an_error (status : Z)
    (body : option (list Repository)) :
  repos_of w (repos_request env storage username) = Http status body ->
  ok status = false ->
  error (state final)
    = "Error: Failed to fetch repositories: " ++ JS.String_of_Z status /\
  repos (state final) = [] /\
  loading (state final) = false /\
  trace final = [repos_request env storage username] /\
  forall filter sortBy searchQuery,
    shown (repos (state final)) filter sortBy searchQuery = [].
Proof.
  intros Hrepos Hok.
  assert (E : final
              = {| state := {| repos := []; loading := false;
                               error := "Error: Failed to fetch repositories: "
                                          ++ JS.String_of_Z status |};
                   trace := [repos_request env storage username];
                   ticks := 0 |}).
  { unfold final, loaded, fetchRepos.
    destruct (String.eqb_spec username "") as [E | _]; [contradiction |].
    unfold setLoading, setError, setRepos.
    rewrite (bind_return _ _ _ _ _ (set_run _ _)).
    rewrite (bind_return _ _ _ _ _ (set_run _ _)).
    unfold finally, try_catch. unfold bind at 1. unfold fetch.
    fold (repos_request env storage username).
    rewrite Hrepos. cbn. rewrite Hok. reflexivity. }
  rewrite E. cbn [state trace repos loading error].
  repeat (split; [reflexivity |]).
  intros filter sortBy searchQuery. unfold filteredRepos.
  destruct filter, sortBy, (negb (String.eqb searchQuery "")); reflexivity.
Qed.

End ProjectsPageRuns.

Lemma projects_filter_never_invents_witness :
  Forall (fun repo => fork repo = false)
    (ProjectsPage.filteredRepos (H := UTC.host) ProjectsPage.ascii_lower
       ProjectsPage.ordinal_compare
       [recent_repo; ProjectsPage.forked_repo; starred_repo]
       ProjectsPage.source ProjectsPage.by_name "RE").
Proof.
  destruct (projects_filter_never_invents (H := UTC.host) ProjectsPage.ascii_lower
              ProjectsPage.ordinal_compare
              [recent_repo; ProjectsPage.forked_repo; starred_repo]
              ProjectsPage.source ProjectsPage.by_name "RE")
    as (_ & _ & Hsource & _).
  apply Hsource. reflexivity.
Defined.

Lemma projects_refused_list_is_an_error_witness :
  ProjectsPage.repos
    (Fetch.state
       (ProjectsPage.loaded ProjectsPage.world_refused no_credentials None "octocat"))
  = [].
Proof.
  destruct (projects_refused_list_is_an_error (H := UTC.host)
              ProjectsPage.ascii_lower ProjectsPage.ordinal_compare
              ProjectsPage.world_refused no_credentials None "octocat"
              octocat_given 403 None eq_refl eq_refl) as (_ & Hrepos & _).
  exact Hrepos.
Defined.
